(** * Partner deal-registration backend: sheet-backed store and authorization

    A shallow embedding of the parts of the backend that carry its
    invariants: the spreadsheet access layer
    ([src/services/googleSheetsService.js]), the authentication middleware
    ([src/middleware/auth.js]), the Google login of
    [src/services/authService.js], the deal controller with its routes
    ([controllers/dealController.js], [src/routes/deals.js]) and the
    allowlist routes of [src/routes/admin.js].

    Conventions of the embedding.
    - A string is the text of a JavaScript string, written in UTF-8; [===]
      on strings is equality.  A JavaScript value that is either a string or
      [undefined] is an [option string]; [None] is [undefined].
    - [String.prototype.toLowerCase] and [String.prototype.trim] are the
      runtime's, with its Unicode tables; they are the two operations of
      [Js.Strings], about which the development knows one fact only.
    - A sheet is the grid returned by [spreadsheets.values.get]: a list of
      rows, each a list of string cells.  Rows may be shorter than the
      header row; reading past the end of a row yields [undefined].
    - What the spreadsheet makes of a value the backend writes is the
      service's affair ([Sheets]): the backend writes with
      [valueInputOption: 'USER_ENTERED'], and the grid read back shows each
      cell as the service renders it and omits blank cells at the end of a
      row.
    - An object built by assigning string properties ([rowObject[header] =
      ...]) is a finite map from property names to strings; a property
      that was never assigned reads as [undefined].  The members every
      object inherits from [Object.prototype] are modelled where the code
      can reach them: assigning to [__proto__], and reading an object
      literal under a computed key.
    - [async] functions that may throw return a [result]; the spreadsheet
      is an explicit store that is passed in and, where the code appends,
      passed out. *)

From Stdlib Require Import ZArith Ascii String.
From stdpp Require Import base option list strings gmap.

Local Open Scope string_scope.
Local Open Scope list_scope.

Definition Row := list string.
Definition Grid := list Row.

(** An object with string-valued own properties. *)
Abbreviation RowObject := (gmap string string).

(** ** JavaScript values and errors *)

Module Js.

(** A string or [undefined]. *)
Definition value := option string.

(** An [Error] object: its [name] and its [message]. *)
Record error := Error { name : string; message : string }.

(** Outcome of an expression that may throw. *)
Inductive result (A : Type) : Type :=
| Ok (a : A)
| Throw (e : error).
Global Arguments Ok {A} a.
Global Arguments Throw {A} e.

Definition bind {A B} (r : result A) (k : A -> result B) : result B :=
  match r with
  | Ok a => k a
  | Throw e => Throw e
  end.

(** [try { r } catch (error) { handler error }] *)
Definition try_catch {A} (r : result A) (handler : error -> A) : A :=
  match r with
  | Ok a => a
  | Throw e => handler e
  end.

(** Truthiness of a string-or-undefined: [undefined] and [''] are falsy. *)
Definition truthy (v : value) : bool :=
  match v with
  | Some s => negb (String.eqb s "")
  | None => false
  end.

(** [v || ''] *)
Definition or_empty (v : value) : string :=
  match v with
  | Some s => if truthy v then s else ""
  | None => ""
  end.

(** [v || d] for a string default. *)
Definition or_default (v : value) (d : string) : string :=
  match v with
  | Some s => if truthy v then s else d
  | None => d
  end.

(** [`${v}`]: [undefined] is spelled out. *)
Definition template (v : value) : string := default "undefined" v.

(** The two string methods whose result depends on the Unicode tables of
    the runtime.  Nothing is assumed of [trim]; of [toLowerCase], only that
    it maps the empty string, and no other, to the empty string (a case
    mapping replaces characters, it removes none). *)
Class Strings := {
  toLowerCase : string -> string;
  trim : string -> string;
  toLowerCase_empty : forall s, toLowerCase s = "" <-> s = ""
}.

(** [v.toLowerCase()]: a [TypeError] when [v] is [undefined]. *)
Definition call_toLowerCase {strings : Strings} (v : value) : result string :=
  match v with
  | Some s => Ok (toLowerCase s)
  | None =>
      Throw (Error "TypeError"
               "Cannot read properties of undefined (reading 'toLowerCase')")
  end.

(** [s.split(sep)] for a one-character ASCII separator. *)
Fixpoint split (sep : ascii) (s : string) : list string :=
  match s with
  | EmptyString => [EmptyString]
  | String c s' =>
      if Ascii.eqb c sep then EmptyString :: split sep s'
      else match split sep s' with
           | piece :: pieces => String c piece :: pieces
           | [] => [String c EmptyString]
           end
  end.

(** [xs.indexOf(x)]; [None] stands for [-1]. *)
Fixpoint indexOf (x : string) (xs : list string) : option nat :=
  match xs with
  | [] => None
  | y :: ys => if String.eqb y x then Some 0%nat else S <$> indexOf x ys
  end.

(** [row[index]] where [index] came from [indexOf]: index [-1] and any
    index past the end read as [undefined]. *)
Definition at_index (row : list string) (index : option nat) : value :=
  match index with
  | Some i => row !! i
  | None => None
  end.

(** [for (let i = start; i < start + count; i++) { body(i) }] where the
    body may [return]: the loop stops at the first index whose body
    returns. *)
Fixpoint for_return {R} (body : nat -> option R) (start count : nat) : option R :=
  match count with
  | O => None
  | S count' =>
      match body start with
      | Some r => Some r
      | None => for_return body (S start) count'
      end
  end.

(** [object[key] = text] on an object created by [{}].  The key
    [__proto__] names the accessor of [Object.prototype], whose setter
    ignores a string: no own property is created. *)
Definition assign (object : RowObject) (key text : string) : RowObject :=
  if String.eqb key "__proto__" then object else <[key := text]> object.

(** The methods every object inherits from [Object.prototype]. *)
Definition objectPrototypeMethods : list string :=
  [ "constructor"; "hasOwnProperty"; "isPrototypeOf"; "propertyIsEnumerable";
    "toLocaleString"; "toString"; "valueOf"; "__defineGetter__";
    "__defineSetter__"; "__lookupGetter__"; "__lookupSetter__" ].

(** What reading an object literal of strings under a computed key can
    yield besides [undefined]: one of its strings, an inherited method, or
    (under [__proto__]) the prototype object itself. *)
Inductive member :=
| Data (text : string)
| Method (name : string)
| Prototype.

(** [literal[key]] *)
Definition get (literal : gmap string string) (key : string) : option member :=
  match literal !! key with
  | Some text => Some (Data text)
  | None =>
      if String.eqb key "__proto__" then Some Prototype
      else if bool_decide (key ∈ objectPrototypeMethods) then Some (Method key)
      else None
  end.

(** A computed key: [undefined] is converted to the string [undefined]. *)
Definition property_key (v : value) : string := default "undefined" v.

(** An element of an array as [JSON.stringify] writes it into a request
    body: a string, [null] (for [undefined] and for a function), or an
    object. *)
Inductive json :=
| Text (s : string)
| Null
| Object.

Definition json_of_value (v : value) : json :=
  match v with
  | Some s => Text s
  | None => Null
  end.

Definition json_of_member (m : member) : json :=
  match m with
  | Data text => Text text
  | Method _ => Null
  | Prototype => Object
  end.

End Js.

Notation "'let!' x ':=' r 'in' k" := (Js.bind r (fun x => k))
  (at level 10, x name, r at level 200, k at level 200).

(** ** The spreadsheet service *)

(** The spreadsheet as the backend sees it: for each sheet name, what
    [spreadsheets.values.get] answers -- the grid ([response.data.values ||
    []]), or the error the call (or [ensureInitialized] before it) throws. *)
Definition Store := string -> Js.result Grid.

Module Sheets.

(** The text a cell shows once [text] was typed into it, which is what
    [valueInputOption: 'USER_ENTERED'] asks for: the service may read the
    text as a number, a date or a formula and render it its own way.
    Typing nothing leaves the cell blank. *)
Class Service := {
  entered : string -> string;
  entered_blank : entered "" = ""
}.

(** A row of the grid as [values.get] returns it: blank cells at the end
    of a row are left out. *)
Fixpoint withoutTrailingBlanks (row : Row) : Row :=
  match row with
  | [] => []
  | cell :: rest =>
      match withoutTrailingBlanks rest with
      | [] => if String.eqb cell "" then [] else [cell]
      | kept => cell :: kept
      end
  end.

(** A grid with one more row below its last; a row without any text adds
    nothing that [values.get] returns. *)
Definition below (grid : Grid) (row : Row) : Grid :=
  match row with
  | [] => grid
  | _ :: _ => grid ++ [row]
  end.

Definition with_row (st : Store) (sheetName : string) (row : Row) : Store :=
  fun name =>
    if String.eqb name sheetName then
      match st name with
      | Js.Ok grid => Js.Ok (below grid row)
      | Js.Throw e => Js.Throw e
      end
    else st name.

Definition is_object (v : Js.json) : bool :=
  match v with
  | Js.Object => true
  | _ => false
  end.

(** The answer to a request that carries an object where a cell value
    belongs. *)
Definition invalidValue : Js.error := Js.Error "Error" "Invalid values".

Section WithService.
Context {service : Service}.

(** The text of the cell a written value ends up in; [null] writes
    nothing. *)
Definition shown (v : Js.json) : string :=
  match v with
  | Js.Text text => entered text
  | Js.Null => ""
  | Js.Object => ""
  end.

(** The row [values.get] returns for a row written as [values]. *)
Definition visible (values : list Js.json) : Row :=
  withoutTrailingBlanks (map shown values).

(** [spreadsheets.values.append] of the one row [values] to a sheet: the
    row lands below the last row of the sheet.  A sheet that cannot be read
    cannot be written; a row that carries an object is refused.  A failing
    call leaves the store as it was. *)
Definition append (st : Store) (sheetName : string) (values : list Js.json)
  : Store * Js.result unit :=
  match st sheetName with
  | Js.Throw e => (st, Js.Throw e)
  | Js.Ok _ =>
      if existsb is_object values then (st, Js.Throw invalidValue)
      else (with_row st sheetName (visible values), Js.Ok tt)
  end.

End WithService.

End Sheets.

(** ** The spreadsheet access layer: [googleSheetsService] *)

Module googleSheetsService.

(** [getSheetData(sheetName)]: errors are logged and rethrown. *)
Definition getSheetData (st : Store) (sheetName : string) : Js.result Grid :=
  st sheetName.

(** [appendToSheet(sheetName, values)] for an array [values]: one
    [values.append] call carrying the single row; errors are logged and
    rethrown. *)
Definition appendToSheet {service : Sheets.Service} (st : Store)
    (sheetName : string) (values : list Js.json) : Store * Js.result unit :=
  Sheets.append st sheetName values.

(** [headers.forEach((header, index) => { rowObject[header] = row[index] || ''; })]
    starting from the empty object. *)
Fixpoint assign_cells (headers : list string) (index : nat) (row : Row)
    (rowObject : RowObject) : RowObject :=
  match headers with
  | [] => rowObject
  | header :: rest =>
      assign_cells rest (S index) row
        (Js.assign rowObject header (Js.or_empty (row !! index)))
  end.

Definition rowObject (headers : list string) (row : Row) : RowObject :=
  assign_cells headers 0 row ∅.

(** [data[i]] inside a loop whose bound keeps [i] within the grid. *)
Definition row_at (data : Grid) (i : nat) : Row := default [] (data !! i).

Definition columnNotFound (columnName sheetName : string) : Js.error :=
  Js.Error "Error"
    ("Column '" +:+ columnName +:+ "' not found in sheet '" +:+ sheetName +:+ "'").

(** [findRowByValue(sheetName, columnName, searchValue)]; [Ok None] is
    the [null] result. *)
Definition findRowByValue (st : Store) (sheetName columnName : string)
    (searchValue : Js.value) : Js.result (option RowObject) :=
  let! data := getSheetData st sheetName in
  match data with
  | [] => Js.Ok None
  | headers :: _ =>
      match Js.indexOf columnName headers with
      | None => Js.Throw (columnNotFound columnName sheetName)
      | Some columnIndex =>
          Js.Ok
            (Js.for_return
               (fun i =>
                  if decide (row_at data i !! columnIndex = searchValue)
                  then Some (rowObject headers (row_at data i))
                  else None)
               1 (length data - 1))
      end
  end.

(** [getAllRows(sheetName)] *)
Definition getAllRows (st : Store) (sheetName : string)
  : Js.result (list RowObject) :=
  let! data := getSheetData st sheetName in
  if (length data <? 2)%nat then Js.Ok []
  else
    match data with
    | [] => Js.Ok []
    | headers :: _ =>
        Js.Ok
          (foldl (fun rows i => rows ++ [rowObject headers (row_at data i)])
             [] (seq 1 (length data - 1)))
    end.

(** [googleSheetsService.generateId()].  The class of the service file
    defines no method of that name and nothing adds one, so the property
    reads as [undefined] and the call throws. *)
Definition generateId : Js.result string :=
  Js.Throw (Js.Error "TypeError" "googleSheetsService.generateId is not a function").

(** [getCurrentTimestamp()] reads the clock; the instant is passed in as
    [now] wherever the code calls it. *)

End googleSheetsService.

(** ** The authentication middleware: [src/middleware/auth.js] *)

Module auth.
Import googleSheetsService.

(** The claims carried by a session token, as signed by [authService]. *)
Record Decoded := {
  decoded_id : Js.value;
  decoded_email : Js.value;
  decoded_role : Js.value;
  decoded_partnerId : Js.value
}.

(** [req.user] *)
Record RequestUser := {
  id : Js.value;
  email : Js.value;
  role : Js.value;
  partnerId : Js.value;
  firstName : Js.value;
  lastName : Js.value;
  partnerName : Js.value
}.

(** What a middleware does with a request: hand it on with [req.user]
    set ([Some]) or left unset ([None]), or answer it. *)
Inductive Outcome :=
| Next (user : option RequestUser)
| Respond (status : nat) (error : string) (message : string).

(** The [req.user] object [authenticateToken] attaches for a user row. *)
Definition requestUser (user : RowObject) (userRole : Js.value) : RequestUser :=
  {| id := user !! "id";
     email := user !! "email";
     role := userRole;
     partnerId := user !! "partner_company";
     firstName := user !! "first_name";
     lastName := user !! "last_name";
     partnerName := user !! "partner_company" |}.

(** [authHeader && authHeader.split(' ')[1]] *)
Definition bearerToken (authHeader : Js.value) : Js.value :=
  match authHeader with
  | Some h => if Js.truthy authHeader then Js.split " " h !! 1%nat else authHeader
  | None => None
  end.

(** The [catch] block of [authenticateToken]. *)
Definition authError (e : Js.error) : Outcome :=
  if String.eqb (Js.name e) "JsonWebTokenError" then
    Respond 401 "Invalid token" "The provided token is invalid"
  else if String.eqb (Js.name e) "TokenExpiredError" then
    Respond 401 "Token expired" "Your session has expired. Please login again"
  else Respond 500 "Authentication error" "Failed to authenticate user".

Section WithStrings.
Context {strings : Js.Strings}.

(** One turn of the loop of [checkAdminStatus] on the row [adminsData[i]]:
    [Some (Ok true)] is [return true], [Some (Throw e)] an exception,
    [None] falls through to the next row. *)
Definition adminRowCheck (emailIndex statusIndex : option nat)
    (email : Js.value) (row : Row) : option (Js.result bool) :=
  let adminEmail := Js.at_index row emailIndex in
  let adminStatus := Js.at_index row statusIndex in
  if Js.truthy adminEmail then
    if decide (adminStatus = Some "active") then
      match Js.call_toLowerCase adminEmail with
      | Js.Throw e => Some (Js.Throw e)
      | Js.Ok lowerAdmin =>
          match Js.call_toLowerCase email with
          | Js.Throw e => Some (Js.Throw e)
          | Js.Ok lowerEmail =>
              if decide (lowerAdmin = lowerEmail) then Some (Js.Ok true) else None
          end
      end
    else None
  else None.

(** [checkAdminStatus(email)] *)
Definition checkAdminStatus (st : Store) (email : Js.value) : bool :=
  Js.try_catch
    (let! adminsData := getSheetData st "Admins" in
     if (length adminsData <=? 1)%nat then Js.Ok false
     else
       match adminsData with
       | [] => Js.Ok false
       | headers :: _ =>
           let emailIndex := Js.indexOf "email" headers in
           let statusIndex := Js.indexOf "status" headers in
           match Js.for_return
                   (fun i => adminRowCheck emailIndex statusIndex email
                               (row_at adminsData i))
                   1 (length adminsData - 1) with
           | Some r => r
           | None => Js.Ok false
           end
       end)
    (fun _ => false).

Section WithJwt.

(** [jwt.verify(token, process.env.JWT_SECRET)]: the decoded claims, or
    a [JsonWebTokenError] / [TokenExpiredError]. *)
Variable jwt_verify : string -> Js.result Decoded.

(** [authenticateToken(req, res, next)], as a function of the
    [authorization] header and the store at the time of the request. *)
Definition authenticateToken (st : Store) (authHeader : Js.value) : Outcome :=
  match bearerToken authHeader with
  | Some token =>
      if Js.truthy (Some token) then
        Js.try_catch
          (let! decoded := jwt_verify token in
           let! user := findRowByValue st "Users" "id" (decoded_id decoded) in
           match user with
           | None =>
               Js.Ok (Respond 401 "Invalid or inactive user"
                        "User account not found or inactive")
           | Some user =>
               if decide (user !! "status" = Some "active") then
                 let isAdmin := checkAdminStatus st (user !! "email") in
                 let userRole := if isAdmin then Some "admin" else user !! "role" in
                 Js.Ok (Next (Some (requestUser user userRole)))
               else
                 Js.Ok (Respond 401 "Invalid or inactive user"
                          "User account not found or inactive")
           end)
          authError
      else Respond 401 "Access token required"
             "Please provide a valid authentication token"
  | None => Respond 401 "Access token required"
              "Please provide a valid authentication token"
  end.

(** [optionalAuth(req, res, next)]: every path ends in [next()]; the
    result is [req.user]. *)
Definition optionalAuth (st : Store) (authHeader : Js.value)
  : option RequestUser :=
  match bearerToken authHeader with
  | Some token =>
      if Js.truthy (Some token) then
        Js.try_catch
          (let! decoded := jwt_verify token in
           let! user := findRowByValue st "Users" "id" (decoded_id decoded) in
           match user with
           | None => Js.Ok None
           | Some user =>
               if decide (user !! "status" = Some "active") then
                 let isAdmin := checkAdminStatus st (user !! "email") in
                 let userRole := if isAdmin then Some "admin" else user !! "role" in
                 Js.Ok (Some {|
                   id := user !! "id";
                   email := user !! "email";
                   role := userRole;
                   partnerId := user !! "partner_id";
                   firstName := user !! "first_name";
                   lastName := user !! "last_name";
                   partnerName := user !! "partner_company" |})
               else Js.Ok None
           end)
          (fun _ => None)
      else None
  | None => None
  end.

End WithJwt.

End WithStrings.

End auth.

(** ** Google login: [src/services/authService.js] *)

Module authService.
Import googleSheetsService.

(** The Google profile handed to [googleLogin]. *)
Record Profile := {
  profile_email : Js.value;
  given_name : Js.value;
  family_name : Js.value;
  sub : Js.value
}.

Record TokenPayload := {
  payload_id : Js.value;
  payload_email : Js.value;
  payload_role : Js.value;
  payload_partnerId : Js.value
}.

(** The user data formatted for the frontend. *)
Record UserData := {
  id : Js.value;
  email : Js.value;
  firstName : Js.value;
  lastName : Js.value;
  role : Js.value;
  partnerId : Js.value;
  partnerName : Js.value
}.

Record Session := { user : UserData; accessToken : string }.

(** The [domainMappings] object literal. *)
Definition domainMappings : gmap string string :=
  list_to_map
    [ ("techflow.com", "TechFlow Solutions");
      ("digitalinnovations.com", "Digital Innovations Inc.");
      ("cloudware.com", "CloudWare Partners");
      ("databridge.com", "DataBridge Consulting");
      ("daxa.ai", "Daxa Internal") ].

(** [throw new Error('Authentication failed: ' + error.message)] *)
Definition authenticationFailed {A} (e : Js.error) : Js.result A :=
  Js.Throw (Js.Error "Error" ("Authentication failed: " +:+ Js.message e)).

(** Reading a property of [null]. *)
Definition nullProperty (prop : string) : Js.error :=
  Js.Error "TypeError"
    ("Cannot read properties of null (reading '" +:+ prop +:+ "')").

(** The columns the appended row is laid out for, as the comment beside
    each of its values names them. *)
Definition usersColumns : Row :=
  ["id"; "email"; "first_name"; "last_name"; "partner_company"; "role";
   "status"; "created_at"].

Section WithStrings.
Context {strings : Js.Strings}.

(** [getPartnerCompanyFromEmail(email)]:
    [domainMappings[domain] || 'External Partner'], where an inherited
    member of the literal is truthy and so is returned as it is. *)
Definition getPartnerCompanyFromEmail (email : string) : Js.member :=
  let domain := Js.toLowerCase <$> (Js.split "@" email !! 1%nat) in
  match Js.get domainMappings (Js.property_key domain) with
  | Some (Js.Data company) =>
      Js.Data (Js.or_default (Some company) "External Partner")
  | Some inherited => inherited
  | None => Js.Data "External Partner"
  end.

(** The row [googleLogin] appends for a new user. *)
Definition newUserRow (now : string) (profile : Profile) (email : string)
  : list Js.json :=
  [ Js.json_of_value (sub profile);
    Js.Text email;
    Js.Text (Js.or_default (given_name profile) "Unknown");
    Js.Text (Js.or_default (family_name profile) "User");
    Js.json_of_member (getPartnerCompanyFromEmail email);
    Js.Text "user";
    Js.Text "active";
    Js.Text now ].

Section WithJwt.
Context {service : Sheets.Service}.

(** [jwt.sign(payload, process.env.JWT_SECRET, { expiresIn: '24h' })] at
    the instant [issuedAt], which the token carries as [iat] and, a day
    later, as [exp]. *)
Variable jwt_sign : TokenPayload -> string -> string.

(** The part of [googleLogin] after the user row is known. *)
Definition sessionFor (issuedAt : string) (user : RowObject) : Session :=
  {| user := {|
       id := user !! "id";
       email := user !! "email";
       firstName := user !! "first_name";
       lastName := user !! "last_name";
       role := user !! "role";
       partnerId := user !! "partner_company";
       partnerName := user !! "partner_company" |};
     accessToken := jwt_sign {|
       payload_id := user !! "id";
       payload_email := user !! "email";
       payload_role := user !! "role";
       payload_partnerId := user !! "partner_company" |} issuedAt |}.

(** [googleLogin(profile)]: [now] is the reading of the clock for the
    new row, [issuedAt] the one [jwt.sign] takes.  The store afterwards and
    the session, or the rethrown error. *)
Definition googleLogin (now issuedAt : string) (st : Store) (profile : Profile)
  : Store * Js.result Session :=
  match profile_email profile with
  | Some email =>
      if Js.truthy (Some email) then
        match findRowByValue st "Users" "email" (Some email) with
        | Js.Throw e => (st, authenticationFailed e)
        | Js.Ok (Some user) => (st, Js.Ok (sessionFor issuedAt user))
        | Js.Ok None =>
            match appendToSheet st "Users" (newUserRow now profile email) with
            | (st', Js.Throw e) => (st', authenticationFailed e)
            | (st', Js.Ok _) =>
                match findRowByValue st' "Users" "email" (Some email) with
                | Js.Throw e => (st', authenticationFailed e)
                | Js.Ok (Some user) => (st', Js.Ok (sessionFor issuedAt user))
                | Js.Ok None => (st', authenticationFailed (nullProperty "id"))
                end
            end
        end
      else
        (st, authenticationFailed
               (Js.Error "Error"
                  "No email found in Google profile. Please ensure email scope is granted."))
  | None =>
      (st, authenticationFailed
             (Js.Error "Error"
                "No email found in Google profile. Please ensure email scope is granted."))
  end.

End WithJwt.

End WithStrings.

End authService.

(** ** The deal controller: [controllers/dealController.js] *)

Module dealController.
Import googleSheetsService.

(** [req.user?.role] and [req.user?.email] *)
Definition role_of (user : option auth.RequestUser) : Js.value :=
  user ≫= auth.role.
Definition email_of (user : option auth.RequestUser) : Js.value :=
  user ≫= auth.email.

(** [req.user?.role === 'admin' || deal.submitter_email === req.user?.email] *)
Definition canViewDeal (user : option auth.RequestUser) (deal : RowObject) : bool :=
  bool_decide (role_of user = Some "admin")
  || bool_decide (deal !! "submitter_email" = email_of user).

(** [filter && deal[column] !== filter] *)
Definition filteredOut (filter : Js.value) (deal : RowObject) (column : string) : bool :=
  Js.truthy filter && negb (bool_decide (deal !! column = filter)).

(** [req.query] of the list request. *)
Record Query := {
  status : Js.value;
  partner : Js.value;
  limit : Js.value
}.

Inductive DealsResponse :=
| NoDealsFound                          (* { deals: [], total: 0, message } *)
| DealsFound (deals : list RowObject) (total : nat)
| DealsFailed (message : string).       (* status 500 *)

(** The deals a response carries. *)
Definition response_deals (r : DealsResponse) : option (list RowObject) :=
  match r with
  | NoDealsFound => Some []
  | DealsFound deals _ => Some deals
  | DealsFailed _ => None
  end.

Section WithParseInt.

(** [parseInt]; [None] is [NaN]. *)
Variable parseInt : string -> option Z.

(** [parseInt(limit)] where [limit] defaults to the number [50]. *)
Definition parsedLimit (q : Query) : option Z :=
  match limit q with
  | Some text => parseInt text
  | None => Some 50%Z
  end.

(** How many turns [for (let i = 1; i < Math.min(length, parseInt(limit) + 1); i++)]
    takes; a [NaN] bound makes the first test fail. *)
Definition turns (length : nat) (q : Query) : nat :=
  match parsedLimit q with
  | Some n => Z.to_nat (Z.min (Z.of_nat length) (n + 1) - 1)
  | None => 0
  end.

(** The body of the loop of [getDeals] at index [i]. *)
Definition collectDeal (user : option auth.RequestUser) (q : Query)
    (headers : list string) (deals : Grid)
    (dealRecords : list RowObject) (i : nat) : list RowObject :=
  let deal := rowObject headers (row_at deals i) in
  if negb (canViewDeal user deal) then dealRecords
  else if filteredOut (status q) deal "status" then dealRecords
  else if filteredOut (partner q) deal "partner_company" then dealRecords
  else dealRecords ++ [deal].

(** [getDeals(req, res)] *)
Definition getDeals (st : Store) (user : option auth.RequestUser) (q : Query)
  : DealsResponse :=
  Js.try_catch
    (let! deals := getSheetData st "Deals" in
     if (length deals <=? 1)%nat then Js.Ok NoDealsFound
     else
       match deals with
       | [] => Js.Ok NoDealsFound
       | headers :: _ =>
           let dealRecords :=
             foldl (collectDeal user q headers deals) []
               (seq 1 (turns (length deals) q)) in
           Js.Ok (DealsFound dealRecords (length dealRecords))
       end)
    (fun e => DealsFailed (Js.message e)).

End WithParseInt.

Inductive DealResponse :=
| DealRetrieved (deal : RowObject)
| DealNotFound                          (* status 404 *)
| PermissionDenied                      (* status 403 *)
| DealFailed (message : string).        (* status 500 *)

(** [getDealById(req, res)] *)
Definition getDealById (st : Store) (user : option auth.RequestUser)
    (id : Js.value) : DealResponse :=
  Js.try_catch
    (let! deal := findRowByValue st "Deals" "id" id in
     match deal with
     | None => Js.Ok DealNotFound
     | Some deal =>
         if canViewDeal user deal then Js.Ok (DealRetrieved deal)
         else Js.Ok PermissionDenied
     end)
    (fun e => DealFailed (Js.message e)).

Record DuplicateCheck := {
  hasDuplicates : bool;
  duplicates : list RowObject
}.

(** The columns of the [Deals] sheet, in the order [createDeal] lays a row
    out (the comment beside each value, [A] to [R]). *)
Definition dealColumns : Row :=
  ["id"; "status"; "created_at"; "company_name"; "domain"; "partner_company";
   "submitter_name"; "submitter_email"; "territory"; "customer_industry";
   "customer_location"; "deal_stage"; "expected_close_date"; "deal_value";
   "contract_type"; "primary_product"; "additional_notes"; "customer_legal_name"].

(** [req.body] of [createDeal]; [agreedToTerms] is the truthiness of the
    field. *)
Record DealBody := {
  companyName : Js.value;
  domain : Js.value;
  partnerCompany : Js.value;
  submitterName : Js.value;
  submitterEmail : Js.value;
  territory : Js.value;
  customerLegalName : Js.value;
  customerIndustry : Js.value;
  customerLocation : Js.value;
  dealStage : Js.value;
  expectedCloseDate : Js.value;
  dealValue : Js.value;
  contractType : Js.value;
  primaryProduct : Js.value;
  additionalNotes : Js.value;
  agreedToTerms : bool
}.

Inductive CreateResponse :=
| MissingFields                          (* status 400 *)
| TermsRequired                          (* status 400 *)
| DuplicateDetected (found : list RowObject)   (* status 409 *)
| DealSubmitted (dealId : string) (estimatedApprovalTime : string)  (* status 201 *)
| CreateFailed (message : string).       (* status 500 *)

(** The row [createDeal] appends to [Deals]. *)
Definition dealData (dealId createdAt : string) (body : DealBody) : list Js.json :=
  [ Js.Text dealId;
    Js.Text "submitted";
    Js.Text createdAt;
    Js.json_of_value (companyName body);
    Js.json_of_value (domain body);
    Js.json_of_value (partnerCompany body);
    Js.json_of_value (submitterName body);
    Js.json_of_value (submitterEmail body);
    Js.json_of_value (territory body);
    Js.json_of_value (customerIndustry body);
    Js.json_of_value (customerLocation body);
    Js.json_of_value (dealStage body);
    Js.json_of_value (expectedCloseDate body);
    Js.json_of_value (dealValue body);
    Js.json_of_value (contractType body);
    Js.Text (Js.or_empty (primaryProduct body));
    Js.Text (Js.or_empty (additionalNotes body));
    Js.Text (Js.or_empty (customerLegalName body)) ].

(** The row [createDeal] appends to [Audit_Log]. *)
Definition auditData (auditId dealId loggedAt : string) (body : DealBody)
  : list Js.json :=
  [ Js.Text auditId;
    Js.Text dealId;
    Js.json_of_value (submitterEmail body);
    Js.Text "created";
    Js.Text loggedAt;
    Js.Text ("Deal created for " +:+ Js.template (companyName body)) ].

Section WithStrings.
Context {strings : Js.Strings}.

(** [a.toLowerCase() === b.toLowerCase()] for a string [a]. *)
Definition sameIgnoringCase (a : string) (b : Js.value) : Js.result bool :=
  let! lowerB := Js.call_toLowerCase b in
  Js.Ok (bool_decide (Js.toLowerCase a = lowerB)).

(** The body of the loop of [checkDuplicateDeals] on one row. *)
Definition collectDuplicate (headers : list string)
    (companyIndex domainIndex statusIndex : option nat)
    (companyName domain : Js.value)
    (found : Js.result (list RowObject)) (row : Row)
  : Js.result (list RowObject) :=
  let! duplicates := found in
  let existingCompany := Js.or_empty (Js.at_index row companyIndex) in
  let existingDomain := Js.or_empty (Js.at_index row domainIndex) in
  let existingStatus := Js.or_empty (Js.at_index row statusIndex) in
  if negb (String.eqb existingStatus "rejected") then
    let! sameCompany := sameIgnoringCase existingCompany companyName in
    let! same :=
      (if sameCompany : bool then Js.Ok true
       else sameIgnoringCase existingDomain domain) in
    if same : bool then Js.Ok (duplicates ++ [rowObject headers row])
    else Js.Ok duplicates
  else Js.Ok duplicates.

(** [checkDuplicateDeals(companyName, domain)] *)
Definition checkDuplicateDeals (st : Store) (companyName domain : Js.value)
  : DuplicateCheck :=
  Js.try_catch
    (let! deals := getSheetData st "Deals" in
     let! duplicates :=
       (if (1 <? length deals)%nat then
          match deals with
          | [] => Js.Ok []
          | headers :: _ =>
              foldl
                (fun found i =>
                   collectDuplicate headers
                     (Js.indexOf "company_name" headers)
                     (Js.indexOf "domain" headers)
                     (Js.indexOf "status" headers)
                     companyName domain found (row_at deals i))
                (Js.Ok []) (seq 1 (length deals - 1))
          end
        else Js.Ok []) in
     Js.Ok {| hasDuplicates := (0 <? length duplicates)%nat;
              duplicates := duplicates |})
    (fun _ => {| hasDuplicates := false; duplicates := [] |}).

Section WithEstimate.
Context {service : Sheets.Service}.

(** [getEstimatedApprovalTime(dealValue)] of this file, whose thresholds
    are compared with a [parseFloat] result; the call may throw. *)
Variable getEstimatedApprovalTime : Js.value -> Js.result string.

(** [createDeal(req, res)]; [createdAt] and [loggedAt] are the two readings
    of the clock. *)
Definition createDeal (createdAt loggedAt : string) (st : Store) (body : DealBody)
  : Store * CreateResponse :=
  if negb (Js.truthy (companyName body)) || negb (Js.truthy (domain body))
     || negb (Js.truthy (partnerCompany body))
     || negb (Js.truthy (submitterName body))
     || negb (Js.truthy (submitterEmail body))
  then (st, MissingFields)
  else if negb (agreedToTerms body) then (st, TermsRequired)
  else
    let duplicateCheck := checkDuplicateDeals st (companyName body) (domain body) in
    if hasDuplicates duplicateCheck
    then (st, DuplicateDetected (duplicates duplicateCheck))
    else
      match generateId with
      | Js.Throw e => (st, CreateFailed (Js.message e))
      | Js.Ok dealId =>
          match appendToSheet st "Deals" (dealData dealId createdAt body) with
          | (st1, Js.Throw e) => (st1, CreateFailed (Js.message e))
          | (st1, Js.Ok _) =>
              match generateId with
              | Js.Throw e => (st1, CreateFailed (Js.message e))
              | Js.Ok auditId =>
                  match appendToSheet st1 "Audit_Log"
                          (auditData auditId dealId loggedAt body) with
                  | (st2, Js.Throw e) => (st2, CreateFailed (Js.message e))
                  | (st2, Js.Ok _) =>
                      match getEstimatedApprovalTime (dealValue body) with
                      | Js.Throw e => (st2, CreateFailed (Js.message e))
                      | Js.Ok estimate => (st2, DealSubmitted dealId estimate)
                      end
                  end
              end
          end
      end.

End WithEstimate.

End WithStrings.

End dealController.

(** ** The deal routes: [src/routes/deals.js] *)

Module dealRoutes.

Inductive DuplicateResponse :=
| DuplicateReport (hasDuplicates : bool) (duplicates : list RowObject)
    (message : string)
| FieldsRequired.                       (* status 400 *)

(** [router.get('/', authenticateToken, getDeals)] *)
Inductive Listing :=
| Rejected (status : nat) (error : string) (message : string)
| Listed (response : dealController.DealsResponse).

(** [router.get('/:id', authenticateToken, getDealById)] *)
Inductive Lookup :=
| LookupRejected (status : nat) (error : string) (message : string)
| LookedUp (response : dealController.DealResponse).

(** Whether [req.user] may see a raw deal row, as [GET /stats/summary]
    tests it: [req.user?.role === 'admin' || submitterEmail === req.user?.email]
    with [submitterEmail = row[submitterEmailIndex] || '']. *)
Definition canViewRow (user : option auth.RequestUser) (headers : list string)
    (row : Row) : bool :=
  bool_decide (dealController.role_of user = Some "admin")
  || bool_decide (Some (Js.or_empty (Js.at_index row (Js.indexOf "submitter_email" headers)))
                  = dealController.email_of user).

Section WithStrings.
Context {strings : Js.Strings}.

(** The handler of [POST /check-duplicate]; [user] is [req.user] as the
    middleware before it left it. *)
Definition checkDuplicate (st : Store) (user : option auth.RequestUser)
    (companyName domain : Js.value) : DuplicateResponse :=
  if negb (Js.truthy companyName) || negb (Js.truthy domain) then FieldsRequired
  else
    let result := dealController.checkDuplicateDeals st companyName domain in
    DuplicateReport (dealController.hasDuplicates result)
      (dealController.duplicates result)
      (if dealController.hasDuplicates result
       then "Potential duplicates found" else "No duplicates detected").

(** [router.post('/check-duplicate', optionalAuth, handler)]: the
    response to a request with the given [authorization] header and body. *)
Definition postCheckDuplicate (jwt_verify : string -> Js.result auth.Decoded)
    (st : Store) (authHeader companyName domain : Js.value) : DuplicateResponse :=
  checkDuplicate st (auth.optionalAuth jwt_verify st authHeader) companyName domain.

Definition getIndex (jwt_verify : string -> Js.result auth.Decoded)
    (parseInt : string -> option Z)
    (st : Store) (authHeader : Js.value) (q : dealController.Query) : Listing :=
  match auth.authenticateToken jwt_verify st authHeader with
  | auth.Next user => Listed (dealController.getDeals parseInt st user q)
  | auth.Respond status error message => Rejected status error message
  end.

Definition getById (jwt_verify : string -> Js.result auth.Decoded)
    (st : Store) (authHeader id : Js.value) : Lookup :=
  match auth.authenticateToken jwt_verify st authHeader with
  | auth.Next user => LookedUp (dealController.getDealById st user id)
  | auth.Respond status error message => LookupRejected status error message
  end.

Section WithNumbers.

(** JavaScript numbers as far as the summary uses them: [0], [+], and
    [parseFloat(text.replace(/[^0-9.]/g, '')) || 0]. *)
Variable Number : Type.
Variable zero : Number.
Variable plus : Number -> Number -> Number.
Variable amountOf : string -> Number.

Record Stats := {
  total : nat;
  pending : nat;
  approved : nat;
  rejected : nat;
  submitted : nat;
  totalValue : Number
}.

Definition noStats : Stats :=
  {| total := 0; pending := 0; approved := 0; rejected := 0; submitted := 0;
     totalValue := zero |}.

(** The [switch (status.toLowerCase())] of the summary. *)
Definition countStatus (stats : Stats) (status : string) : Stats :=
  let lowered := Js.toLowerCase status in
  if String.eqb lowered "pending" || String.eqb lowered "under_review" then
    {| total := total stats; pending := S (pending stats);
       approved := approved stats; rejected := rejected stats;
       submitted := submitted stats; totalValue := totalValue stats |}
  else if String.eqb lowered "approved" then
    {| total := total stats; pending := pending stats;
       approved := S (approved stats); rejected := rejected stats;
       submitted := submitted stats; totalValue := totalValue stats |}
  else if String.eqb lowered "rejected" then
    {| total := total stats; pending := pending stats;
       approved := approved stats; rejected := S (rejected stats);
       submitted := submitted stats; totalValue := totalValue stats |}
  else if String.eqb lowered "submitted" then
    {| total := total stats; pending := pending stats;
       approved := approved stats; rejected := rejected stats;
       submitted := S (submitted stats); totalValue := totalValue stats |}
  else stats.

(** The body of the loop of the summary on one row. *)
Definition countDeal (user : option auth.RequestUser) (headers : list string)
    (stats : Stats) (row : Row) : Stats :=
  let status := Js.or_empty (Js.at_index row (Js.indexOf "status" headers)) in
  let value :=
    amountOf (Js.or_default (Js.at_index row (Js.indexOf "deal_value" headers)) "0") in
  if canViewRow user headers row then
    countStatus
      {| total := S (total stats); pending := pending stats;
         approved := approved stats; rejected := rejected stats;
         submitted := submitted stats;
         totalValue := plus (totalValue stats) value |}
      status
  else stats.

Inductive StatsResponse :=
| Summary (stats : Stats)
| SummaryFailed (message : string).      (* status 500 *)

(** The handler of [GET /stats/summary]. *)
Definition statsSummary (st : Store) (user : option auth.RequestUser)
  : StatsResponse :=
  Js.try_catch
    (let! deals := googleSheetsService.getSheetData st "Deals" in
     if (length deals <? 2)%nat then Js.Ok (Summary noStats)
     else
       match deals with
       | [] => Js.Ok (Summary noStats)
       | headers :: _ =>
           Js.Ok (Summary
                    (foldl (fun stats i =>
                              countDeal user headers stats
                                (googleSheetsService.row_at deals i))
                       noStats (seq 1 (length deals - 1))))
       end)
    (fun e => SummaryFailed (Js.message e)).

End WithNumbers.

End WithStrings.

Arguments Summary {Number} stats.
Arguments SummaryFailed {Number} message.
Arguments total {Number} _.
Arguments pending {Number} _.
Arguments approved {Number} _.
Arguments rejected {Number} _.
Arguments submitted {Number} _.
Arguments totalValue {Number} _.
Arguments countStatus {strings Number} stats status.

End dealRoutes.

(** ** The admin routes: [src/routes/admin.js] *)

Module adminRoutes.
Import googleSheetsService.

(** The header row [POST /add] writes to an empty [Admins] sheet. *)
Definition adminColumns : Row := ["email"; "added_by"; "added_at"; "status"].

Inductive AddResponse :=
| AccessDenied                           (* status 403 *)
| EmailRequired                          (* status 400 *)
| AdminExists                            (* status 409 *)
| AdminAdded (email : string) (added_by : Js.value) (added_at : string)
| AddFailed (message : string).          (* status 500 *)

(** The row [POST /add] appends for [adminEmail]. *)
Definition newAdminData (adminEmail : string) (user : option auth.RequestUser)
    (currentTime : string) : list Js.json :=
  [ Js.Text adminEmail;
    Js.Text (Js.or_default (dealController.email_of user) "system");
    Js.Text currentTime;
    Js.Text "active" ].

(** [router.post('/add', authenticateToken, handler)] *)
Inductive AddOutcome :=
| AddRejected (status : nat) (error : string) (message : string)
| AddHandled (response : AddResponse).

Inductive ListResponse :=
| ListDenied                             (* status 403 *)
| NoAdminsSheet                          (* { admins: [], total: 0, message } *)
| NoAdmins                               (* { admins: [], total: 0, message } *)
| AdminList (admins : list RowObject) (total : nat).

(** The admins a response carries. *)
Definition response_admins (r : ListResponse) : option (list RowObject) :=
  match r with
  | ListDenied => None
  | NoAdminsSheet | NoAdmins => Some []
  | AdminList admins _ => Some admins
  end.

(** The handler of [GET /list]; nothing after the guarded read can throw. *)
Definition listAdmins (st : Store) (user : option auth.RequestUser) : ListResponse :=
  if negb (bool_decide (dealController.role_of user = Some "admin")) then ListDenied
  else
    match getSheetData st "Admins" with
    | Js.Throw _ => NoAdminsSheet
    | Js.Ok adminsData =>
        if (length adminsData <=? 1)%nat then NoAdmins
        else
          let headers := row_at adminsData 0 in
          let adminList :=
            foldl (fun found i =>
                     let admin := rowObject headers (row_at adminsData i) in
                     if bool_decide (admin !! "status" = Some "active")
                     then found ++ [admin] else found)
              [] (seq 1 (length adminsData - 1)) in
          AdminList adminList (length adminList)
    end.

(** The handler of [GET /profile/deals]: the caller's own deals, whatever
    the caller's role. *)
Definition profileDeals (st : Store) (user : option auth.RequestUser)
  : dealController.DealsResponse :=
  Js.try_catch
    (let! deals := getSheetData st "Deals" in
     if (length deals <=? 1)%nat then Js.Ok dealController.NoDealsFound
     else
       let headers := row_at deals 0 in
       let userDeals :=
         foldl (fun found i =>
                  let deal := rowObject headers (row_at deals i) in
                  if bool_decide (deal !! "submitter_email" = dealController.email_of user)
                  then found ++ [deal] else found)
           [] (seq 1 (length deals - 1)) in
       Js.Ok (dealController.DealsFound userDeals (length userDeals)))
    (fun e => dealController.DealsFailed (Js.message e)).

Section WithStrings.
Context {strings : Js.Strings} {service : Sheets.Service}.

(** The test of the loop of [POST /add] on one row:
    [existingEmail && existingEmail.toLowerCase() === adminEmail]. *)
Definition sameAdmin (emailIndex : option nat) (adminEmail : string) (row : Row)
  : bool :=
  let existingEmail := Js.at_index row emailIndex in
  Js.truthy existingEmail
  && bool_decide (Js.toLowerCase <$> existingEmail = Some adminEmail).

(** The handler of [POST /add] at instant [currentTime]: the store
    afterwards and the response. *)
Definition addAdmin (currentTime : string) (st : Store)
    (user : option auth.RequestUser) (email : Js.value) : Store * AddResponse :=
  if negb (bool_decide (dealController.role_of user = Some "admin"))
  then (st, AccessDenied)
  else
    match email with
    | None => (st, EmailRequired)
    | Some text =>
        if negb (Js.truthy email) || negb (Js.truthy (Some (Js.trim text)))
        then (st, EmailRequired)
        else
          let adminEmail := Js.toLowerCase (Js.trim text) in
          let adminsData := Js.try_catch (getSheetData st "Admins") (fun _ => []) in
          let provisioned :=
            match adminsData with
            | [] =>
                match appendToSheet st "Admins" (Js.Text <$> adminColumns) with
                | (st1, Js.Ok _) => (st1, Js.Ok [adminColumns])
                | (st1, Js.Throw e) => (st1, Js.Throw e)
                end
            | _ :: _ => (st, Js.Ok adminsData)
            end in
          match provisioned with
          | (st1, Js.Throw e) => (st1, AddFailed (Js.message e))
          | (st1, Js.Ok adminsData) =>
              let headers := row_at adminsData 0 in
              let emailIndex := Js.indexOf "email" headers in
              match Js.for_return
                      (fun i =>
                         if sameAdmin emailIndex adminEmail (row_at adminsData i)
                         then Some tt else None)
                      1 (length adminsData - 1) with
              | Some _ => (st1, AdminExists)
              | None =>
                  match appendToSheet st1 "Admins"
                          (newAdminData adminEmail user currentTime) with
                  | (st2, Js.Ok _) =>
                      (st2, AdminAdded adminEmail (dealController.email_of user)
                              currentTime)
                  | (st2, Js.Throw e) => (st2, AddFailed (Js.message e))
                  end
              end
          end
    end.

Definition postAdd (jwt_verify : string -> Js.result auth.Decoded)
    (currentTime : string) (st : Store) (authHeader email : Js.value)
  : Store * AddOutcome :=
  match auth.authenticateToken jwt_verify st authHeader with
  | auth.Next user =>
      let '(st', response) := addAdmin currentTime st user email in
      (st', AddHandled response)
  | auth.Respond status error message => (st, AddRejected status error message)
  end.

End WithStrings.

End adminRoutes.

(** ** Vocabulary of the statements *)

(** The first row on which [body] returns. *)
Fixpoint first_return {R} (body : Row -> option R) (rows : list Row) : option R :=
  match rows with
  | [] => None
  | row :: rest =>
      match body row with
      | Some r => Some r
      | None => first_return body rest
      end
  end.

(** Row 0 of a grid: its header; a grid with no rows has no columns. *)
Definition header_row (data : Grid) : list string := default [] (head data).

(** [row] is the first of [rows] (at position [k]) whose cell in column [c]
    is [v], cells compared as [===] compares them. *)
Definition first_matching_row (c : nat) (v : Js.value) (rows : list Row)
    (k : nat) (row : Row) : Prop :=
  rows !! k = Some row ∧ row !! c = v ∧
  ∀ j row', (j < k)%nat → rows !! j = Some row' → row' !! c ≠ v.

(** The column names under which a row object carries a property: every
    name of the header but [__proto__]. *)
Definition own_columns (headers : list string) : list string :=
  List.filter (fun header => negb (String.eqb header "__proto__")) headers.

(** The object [obj] carries the row [row] under the header [headers]:
    its keys are the header's names ([__proto__] apart), and the value
    under a name is the text of the cell in the column of that name -- the
    last such column, should a name repeat -- or the empty string when
    that cell is blank or missing. *)
Definition carries (headers : list string) (row : Row) (obj : RowObject) : Prop :=
  dom obj = list_to_set (own_columns headers) ∧
  ∀ i h, headers !! i = Some h → h ≠ "__proto__" →
         (∀ j, (i < j)%nat → headers !! j ≠ Some h) →
         obj !! h = Some (default "" (row !! i)).

(** [key] names a member every object inherits. *)
Definition inherited_name (key : string) : Prop :=
  key = "__proto__" ∨ key ∈ Js.objectPrototypeMethods.

(** The allowlist holds an active row for [email]: some data row of the
    [Admins] grid has the text [active] under [status] and, under [email],
    text equal to [email] once both are lower-cased. *)
Definition allowlisted {strings : Js.Strings} (admins : Grid) (email : string) : Prop :=
  ∃ row e, row ∈ tail admins ∧
    Js.at_index row (Js.indexOf "status" (header_row admins)) = Some "active" ∧
    Js.at_index row (Js.indexOf "email" (header_row admins)) = Some e ∧
    Js.toLowerCase e = Js.toLowerCase email.

(** The same, for the [Admins] sheet of a store; no row is held when the
    sheet cannot be read. *)
Definition allowlisted_in {strings : Js.Strings} (st : Store) (email : string) : Prop :=
  ∃ admins, st "Admins" = Js.Ok admins ∧ allowlisted admins email.

(** A deal passes the three tests of the loop body of [getDeals]: the
    caller may view it, and neither the status nor the partner filter of
    the query rejects it. *)
Definition listed (user : option auth.RequestUser) (q : dealController.Query)
    (deal : RowObject) : bool :=
  dealController.canViewDeal user deal
  && negb (dealController.filteredOut (dealController.status q) deal "status")
  && negb (dealController.filteredOut (dealController.partner q) deal
             "partner_company").

(** The text under a named column of a raw row, blank when missing. *)
Definition cell_text (headers : list string) (column : string) (row : Row) : string :=
  Js.or_empty (Js.at_index row (Js.indexOf column headers)).

(** A raw deal row counts as a duplicate of [(company, domain)]: its status
    is not [rejected] and its company name or its domain equals the given
    one once both are lower-cased. *)
Definition duplicate_of {strings : Js.Strings} (headers : list string)
    (company domain : string) (row : Row) : bool :=
  negb (String.eqb (cell_text headers "status" row) "rejected")
  && (bool_decide (Js.toLowerCase (cell_text headers "company_name" row)
                   = Js.toLowerCase company)
      || bool_decide (Js.toLowerCase (cell_text headers "domain" row)
                      = Js.toLowerCase domain)).

(** A raw row of the allowlist is an active row for [address] under the
    header [headers]: status [active], and a non-blank address equal to
    [address] once both are lower-cased. *)
Definition active_row_for {strings : Js.Strings} (headers : list string)
    (address : string) (row : Row) : Prop :=
  ∃ e, Js.at_index row (Js.indexOf "email" headers) = Some e ∧ e ≠ "" ∧
       Js.at_index row (Js.indexOf "status" headers) = Some "active" ∧
       Js.toLowerCase e = Js.toLowerCase address.

(** The character [c] occurs in [s]. *)
Fixpoint occurs (c : ascii) (s : string) : bool :=
  match s with
  | EmptyString => false
  | String c' s' => Ascii.eqb c' c || occurs c s'
  end.

(** A request body passes the validation of [createDeal] for the company
    [company] and the domain [domain]. *)
Definition acceptable (body : dealController.DealBody) (company domain : string)
  : Prop :=
  dealController.companyName body = Some company ∧ company ≠ "" ∧
  dealController.domain body = Some domain ∧ domain ≠ "" ∧
  Js.truthy (dealController.partnerCompany body) = true ∧
  Js.truthy (dealController.submitterName body) = true ∧
  Js.truthy (dealController.submitterEmail body) = true ∧
  dealController.agreedToTerms body = true.

(** The user data and the token of a session are those [googleLogin]
    builds from the row [user] at the instant [issuedAt]. *)
Definition session_of_row (jwt_sign : authService.TokenPayload -> string -> string)
    (issuedAt : string) (user : RowObject) (session : authService.Session) : Prop :=
  authService.id (authService.user session) = user !! "id" ∧
  authService.email (authService.user session) = user !! "email" ∧
  authService.firstName (authService.user session) = user !! "first_name" ∧
  authService.lastName (authService.user session) = user !! "last_name" ∧
  authService.role (authService.user session) = user !! "role" ∧
  authService.partnerId (authService.user session) = user !! "partner_company" ∧
  authService.partnerName (authService.user session) = user !! "partner_company" ∧
  authService.accessToken session
  = jwt_sign {| authService.payload_id := user !! "id";
                authService.payload_email := user !! "email";
                authService.payload_role := user !! "role";
                authService.payload_partnerId := user !! "partner_company" |}
      issuedAt.

(** ** Sample data *)

(** A runtime for the examples, whose texts are ASCII: the letters [A]
    to [Z] are lowered, the blanks space, tab, line feed, vertical tab,
    form feed and carriage return are trimmed. *)
Definition lower_ascii (c : ascii) : ascii :=
  let n := nat_of_ascii c in
  if (65 <=? n)%nat && (n <=? 90)%nat then ascii_of_nat (n + 32) else c.

Fixpoint ascii_toLowerCase (s : string) : string :=
  match s with
  | EmptyString => EmptyString
  | String c s' => String (lower_ascii c) (ascii_toLowerCase s')
  end.

Definition is_space (c : ascii) : bool :=
  let n := nat_of_ascii c in
  (n =? 32)%nat || ((9 <=? n)%nat && (n <=? 13)%nat).

Fixpoint trimStart (s : string) : string :=
  match s with
  | EmptyString => EmptyString
  | String c s' => if is_space c then trimStart s' else s
  end.

Fixpoint trimEnd (s : string) : string :=
  match s with
  | EmptyString => EmptyString
  | String c s' =>
      match trimEnd s' with
      | EmptyString => if is_space c then EmptyString else String c EmptyString
      | rest => String c rest
      end
  end.

Definition ascii_trim (s : string) : string := trimEnd (trimStart s).

Definition ascii_strings : Js.Strings :=
  {| Js.toLowerCase := ascii_toLowerCase;
     Js.trim := ascii_trim;
     Js.toLowerCase_empty := fun s =>
       match s with
       | EmptyString => conj (fun _ => eq_refl) (fun _ => eq_refl)
       | String c s' =>
           conj (fun H : String (lower_ascii c) (ascii_toLowerCase s') = "" =>
                   match H in _ = t return match t with
                                           | EmptyString => String c s' = ""
                                           | String _ _ => True
                                           end with
                   | eq_refl => I
                   end)
                (fun H : String c s' = "" =>
                   match H in _ = t return match t with
                                           | EmptyString =>
                                               String (lower_ascii c)
                                                 (ascii_toLowerCase s') = ""
                                           | String _ _ => True
                                           end with
                   | eq_refl => I
                   end)
       end |}.

(** A runtime that also lowers the accented capitals of Latin-1 as UTF-8
    writes them: the byte 195 followed by a byte from 128 to 158 other
    than 151 (the multiplication sign). *)
Definition is_accented_capital (lead c : ascii) : bool :=
  (nat_of_ascii lead =? 195)%nat
  && (128 <=? nat_of_ascii c)%nat && (nat_of_ascii c <=? 158)%nat
  && negb (nat_of_ascii c =? 151)%nat.

Fixpoint latin1_toLowerCase (s : string) : string :=
  match s with
  | EmptyString => EmptyString
  | String c s' =>
      match s' with
      | String d s'' =>
          if is_accented_capital c d
          then String c (String (ascii_of_nat (nat_of_ascii d + 32))
                           (latin1_toLowerCase s''))
          else String (lower_ascii c) (latin1_toLowerCase s')
      | EmptyString => String (lower_ascii c) EmptyString
      end
  end.

Definition latin1_strings : Js.Strings :=
  {| Js.toLowerCase := latin1_toLowerCase;
     Js.trim := ascii_trim;
     Js.toLowerCase_empty :=
       ltac:(intros [|c [|d s']]; [tauto| |];
             cbn [latin1_toLowerCase];
             try destruct (is_accented_capital c d);
             split; intros H; discriminate H) |}.

(** A sheet for the examples that shows every text as it was typed. *)
Definition plain_sheet : Sheets.Service :=
  {| Sheets.entered := fun text => text; Sheets.entered_blank := eq_refl |}.

(** A sheet that reads a text of digits as a number and shows it without
    its leading zeros, and shows every other text as it was typed. *)
Definition is_digit (c : ascii) : bool :=
  let n := nat_of_ascii c in (48 <=? n)%nat && (n <=? 57)%nat.

Fixpoint all_digits (s : string) : bool :=
  match s with
  | EmptyString => true
  | String c s' => is_digit c && all_digits s'
  end.

Fixpoint without_leading_zeros (s : string) : string :=
  match s with
  | String "0" (String c s' as rest) => without_leading_zeros rest
  | _ => s
  end.

Definition number_entered (text : string) : string :=
  if all_digits text then without_leading_zeros text else text.

Definition number_sheet : Sheets.Service :=
  {| Sheets.entered := number_entered; Sheets.entered_blank := eq_refl |}.

#[global] Existing Instance ascii_strings.
#[global] Existing Instance plain_sheet.

(** A token verifier for the examples: one token, issued to user [u1]
    while the stored role was [user]. *)
Definition example_verify (token : string) : Js.result auth.Decoded :=
  if String.eqb token "t0k3n" then
    Js.Ok {| auth.decoded_id := Some "u1"; auth.decoded_email := Some "a@x.com";
             auth.decoded_role := Some "user";
             auth.decoded_partnerId := Some "External Partner" |}
  else Js.Throw (Js.Error "JsonWebTokenError" "jwt malformed").

Definition example_users : Grid :=
  [ ["id"; "email"; "first_name"; "last_name"; "partner_company"; "role";
     "status"; "created_at"];
    ["u1"; "a@x.com"; "Ann"; "Lee"; "External Partner"; "user"; "active";
     "2024-01-01T00:00:00.000Z"] ].

(** [Users] holds [u1]; [Admins] has its header only. *)
Definition example_store : Store := fun name =>
  if String.eqb name "Users" then Js.Ok example_users
  else if String.eqb name "Admins" then
    Js.Ok [["email"; "added_by"; "added_at"; "status"]]
  else Js.Throw (Js.Error "Error" "Unable to parse range").

(** The same store after [a@x.com] was added to the allowlist. *)
Definition example_store_allowlisted : Store :=
  (googleSheetsService.appendToSheet example_store "Admins"
     [Js.Text "A@X.com"; Js.Text "system"; Js.Text "2024-02-01T00:00:00.000Z";
      Js.Text "active"]).1.

(** A [Deals] sheet with three deals: two submitted by [a@x.com], the
    second of them after a deal of [b@y.com]. *)
Definition example_deal_headers : Row :=
  ["id"; "status"; "company_name"; "domain"; "submitter_email"].

Definition example_deal_rows : list Row :=
  [ ["d1"; "submitted"; "Acme"; "acme.com"; "a@x.com"];
    ["d2"; "rejected"; "Globex"; "globex.com"; "b@y.com"];
    ["d3"; "approved"; "Initech"; "initech.com"; "a@x.com"] ].

Definition example_deal_store : Store := fun name =>
  if String.eqb name "Deals" then Js.Ok (example_deal_headers :: example_deal_rows)
  else Js.Throw (Js.Error "Error" "Unable to parse range").

Definition example_partner : auth.RequestUser :=
  {| auth.id := Some "u1"; auth.email := Some "a@x.com"; auth.role := Some "user";
     auth.partnerId := Some "External Partner"; auth.firstName := Some "Ann";
     auth.lastName := Some "Lee"; auth.partnerName := Some "External Partner" |}.

Definition no_filter (limit : Js.value) : dealController.Query :=
  {| dealController.status := None; dealController.partner := None;
     dealController.limit := limit |}.

(** A [parseInt] for the examples: it reads ["1"] and nothing else. *)
Definition example_parseInt (text : string) : option Z :=
  if String.eqb text "1" then Some 1%Z else None.

(** A token signer for the examples. *)
Definition example_sign (payload : authService.TokenPayload) (issuedAt : string)
  : string :=
  "signed:" +:+ default "" (authService.payload_id payload) +:+ "@" +:+ issuedAt.

Definition example_profile : authService.Profile :=
  {| authService.profile_email := Some "Zoe@TechFlow.com"; authService.given_name := Some "Zoe";
     authService.family_name := None; authService.sub := Some "g-42" |}.

(** A store with an administrator by stored role, and a verifier that
    knows the administrator's token. *)
Definition example_admin_users : Grid :=
  example_users ++
  [ ["u9"; "root@daxa.ai"; "Rae"; "Root"; "Daxa Internal"; "admin"; "active";
     "2024-01-01T00:00:00.000Z"] ].

Definition example_admin_store : Store := fun name =>
  if String.eqb name "Users" then Js.Ok example_admin_users
  else if String.eqb name "Admins" then Js.Ok []
  else Js.Throw (Js.Error "Error" "Unable to parse range").

Definition example_admin_verify (token : string) : Js.result auth.Decoded :=
  if String.eqb token "r00t" then
    Js.Ok {| auth.decoded_id := Some "u9"; auth.decoded_email := Some "root@daxa.ai";
             auth.decoded_role := Some "admin";
             auth.decoded_partnerId := Some "Daxa Internal" |}
  else example_verify token.

Definition example_admin : auth.RequestUser :=
  {| auth.id := Some "u9"; auth.email := Some "root@daxa.ai";
     auth.role := Some "admin"; auth.partnerId := Some "Daxa Internal";
     auth.firstName := Some "Rae"; auth.lastName := Some "Root";
     auth.partnerName := Some "Daxa Internal" |}.

(** Numbers for the examples: amounts are not read. *)
Definition example_amount (text : string) : nat := 0.

(** A complete request body for [createDeal]. *)
Definition example_body : dealController.DealBody :=
  {| dealController.companyName := Some "Hooli";
     dealController.domain := Some "hooli.com";
     dealController.partnerCompany := Some "External Partner";
     dealController.submitterName := Some "Ann Lee";
     dealController.submitterEmail := Some "a@x.com";
     dealController.territory := None;
     dealController.customerLegalName := None;
     dealController.customerIndustry := Some "Software";
     dealController.customerLocation := None;
     dealController.dealStage := Some "discovery";
     dealController.expectedCloseDate := Some "2024-12-31";
     dealController.dealValue := Some "$120,000";
     dealController.contractType := None;
     dealController.primaryProduct := None;
     dealController.additionalNotes := None;
     dealController.agreedToTerms := true |}.

(** A [Deals] sheet in the layout of [createDeal], with no deal yet; the
    audit log cannot be read. *)
Definition example_new_deal_store : Store := fun name =>
  if String.eqb name "Deals" then Js.Ok [dealController.dealColumns]
  else Js.Throw (Js.Error "Error" "Unable to parse range").

Definition example_estimate (dealValue : Js.value) : Js.result string :=
  Js.Ok "2-3 business days".

(** * Properties *)

(** ** JavaScript helpers *)

Example split_bearer : Js.split " " "Bearer t0k3n" = ["Bearer"; "t0k3n"].
Proof. reflexivity. Qed.

Example split_empty : Js.split " " "" = [""].
Proof. reflexivity. Qed.

Example bearer_of_header : auth.bearerToken (Some "Bearer t0k3n") = Some "t0k3n".
Proof. reflexivity. Qed.

Example bearer_missing : auth.bearerToken (Some "t0k3n") = None.
Proof. reflexivity. Qed.

Example lower_mixed : ascii_toLowerCase "Boss@Daxa.AI" = "boss@daxa.ai".
Proof. reflexivity. Qed.

Example trim_blanks : ascii_trim "  A@X.com " = "A@X.com".
Proof. reflexivity. Qed.

Example number_shown : number_entered "007" = "7" ∧ number_entered "a7" = "a7".
Proof. split; reflexivity. Qed.

Example company_mapped :
  authService.getPartnerCompanyFromEmail "Zoe@TechFlow.com"
  = Js.Data "TechFlow Solutions".
Proof. reflexivity. Qed.

Example company_unmapped :
  authService.getPartnerCompanyFromEmail "a@x.com" = Js.Data "External Partner".
Proof. reflexivity. Qed.

Example company_no_domain :
  authService.getPartnerCompanyFromEmail "nobody" = Js.Data "External Partner".
Proof. reflexivity. Qed.

Example company_inherited :
  authService.getPartnerCompanyFromEmail "x@constructor" = Js.Method "constructor".
Proof. reflexivity. Qed.

Lemma or_empty_default (v : Js.value) : Js.or_empty v = default "" v.
Proof. destruct v as [[|c s]|]; reflexivity. Qed.

Lemma or_empty_Some (s : string) : Js.or_empty (Some s) = s.
Proof. destruct s; reflexivity. Qed.

Lemma truthy_Some (s : string) : Js.truthy (Some s) = true ↔ s ≠ "".
Proof.
  unfold Js.truthy. destruct (String.eqb_spec s ""); simpl; split; congruence.
Qed.

Lemma indexOf_Some (x : string) (xs : list string) (i : nat) :
  Js.indexOf x xs = Some i →
  xs !! i = Some x ∧ ∀ j, (j < i)%nat → xs !! j ≠ Some x.
Proof.
  revert i. induction xs as [|y ys IH]; intros i; simpl; [discriminate|].
  destruct (String.eqb_spec y x) as [->|Hne].
  - intros [= <-]. split; [reflexivity|]. intros j Hj. lia.
  - destruct (Js.indexOf x ys) as [k|]; simpl; [|discriminate].
    intros [= <-]. destruct (IH k eq_refl) as [Hk Hlt]. split; [exact Hk|].
    intros [|j] Hj; simpl; [congruence|]. apply Hlt. lia.
Qed.

Lemma indexOf_None (x : string) (xs : list string) :
  Js.indexOf x xs = None ↔ x ∉ xs.
Proof.
  induction xs as [|y ys IH]; simpl.
  - split; [intros _; apply not_elem_of_nil | reflexivity].
  - destruct (String.eqb_spec y x) as [->|Hne].
    + split; [discriminate|]. intros H. exfalso. apply H. left.
    + rewrite not_elem_of_cons, <- IH.
      destruct (Js.indexOf x ys); simpl.
      * split; [discriminate|]. intros [_ ?]. discriminate.
      * split; [|reflexivity]. intros _. split; [congruence|reflexivity].
Qed.

Lemma indexOf_elem (x : string) (xs : list string) :
  x ∈ xs → ∃ i, Js.indexOf x xs = Some i.
Proof.
  intros Hin. destruct (Js.indexOf x xs) as [i|] eqn:E; [eauto|].
  apply indexOf_None in E. contradiction.
Qed.

Lemma indexOf_NoDup (x : string) (xs : list string) (i : nat) :
  NoDup xs → xs !! i = Some x → Js.indexOf x xs = Some i.
Proof.
  intros Hnd Hi.
  destruct (indexOf_elem x xs) as [k Hk]; [eapply list_elem_of_lookup_2; eauto|].
  rewrite Hk. f_equal. destruct (indexOf_Some _ _ _ Hk) as [Hk' _].
  eapply NoDup_lookup; eauto.
Qed.

Lemma bool_eq_iff (b1 b2 : bool) : (b1 = true ↔ b2 = true) → b1 = b2.
Proof.
  destruct b1, b2; intros [H1 H2]; try reflexivity.
  - symmetry. apply H1. reflexivity.
  - apply H2. reflexivity.
Qed.

(** ** Loops over the data rows of a grid *)

Section Loops.
Import googleSheetsService.

Lemma for_return_skip {R} (body : Row -> option R) (x : Row) (data : Grid) (k n : nat) :
  Js.for_return (fun i => body (row_at (x :: data) i)) (S k) n
  = Js.for_return (fun i => body (row_at data i)) k n.
Proof.
  revert k. induction n as [|n IH]; intros k; simpl; [reflexivity|].
  change (row_at (x :: data) (S k)) with (row_at data k).
  destruct (body (row_at data k)); [reflexivity|apply IH].
Qed.

Lemma for_return_rows {R} (body : Row -> option R) (rows : list Row) :
  Js.for_return (fun i => body (row_at rows i)) 0 (length rows)
  = first_return body rows.
Proof.
  induction rows as [|row rest IH]; simpl; [reflexivity|].
  change (row_at (row :: rest) 0) with row.
  destruct (body row); [reflexivity|].
  rewrite for_return_skip. exact IH.
Qed.

(** A loop from index 1 over a grid visits its data rows in order. *)
Lemma for_return_data {R} (body : Row -> option R) (headers : Row) (rows : list Row) :
  Js.for_return (fun i => body (row_at (headers :: rows) i)) 1 (length rows)
  = first_return body rows.
Proof. rewrite for_return_skip. apply for_return_rows. Qed.

Lemma first_return_Some {R} (body : Row -> option R) (rows : list Row) (r : R) :
  first_return body rows = Some r ↔
  ∃ k row, rows !! k = Some row ∧ body row = Some r ∧
           ∀ j row', (j < k)%nat → rows !! j = Some row' → body row' = None.
Proof.
  induction rows as [|row rest IH]; simpl.
  - split; [discriminate|]. intros (k & row & Hk & _). discriminate.
  - destruct (body row) as [r0|] eqn:Hrow.
    + split.
      * intros [= <-]. exists 0%nat, row. split; [reflexivity|].
        split; [exact Hrow|]. intros j row' Hj. lia.
      * intros ([|k] & row' & Hk & Hbody & Hfirst); simpl in Hk.
        -- congruence.
        -- specialize (Hfirst 0%nat row ltac:(lia) eq_refl). congruence.
    + rewrite IH. split.
      * intros (k & row' & Hk & Hbody & Hfirst).
        exists (S k), row'. split; [exact Hk|]. split; [exact Hbody|].
        intros [|j] row'' Hj; simpl; [congruence|].
        apply Hfirst. lia.
      * intros ([|k] & row' & Hk & Hbody & Hfirst); simpl in Hk.
        -- congruence.
        -- exists k, row'. split; [exact Hk|]. split; [exact Hbody|].
           intros j row'' Hj Hjr. apply (Hfirst (S j)); [lia|exact Hjr].
Qed.

Lemma first_return_None {R} (body : Row -> option R) (rows : list Row) :
  first_return body rows = None ↔ ∀ row, row ∈ rows → body row = None.
Proof.
  induction rows as [|row rest IH]; simpl.
  - split; [|reflexivity]. intros _ row Hin. inversion Hin.
  - destruct (body row) eqn:Hrow.
    + split; [discriminate|]. intros H.
      rewrite (H row) in Hrow; [discriminate|left].
    + rewrite IH. split.
      * intros H row' Hin. apply elem_of_cons in Hin as [->|Hin]; auto.
      * intros H row' Hin. apply H. right. exact Hin.
Qed.

Lemma first_return_all {R} (P : option R -> Prop) (body : Row -> option R)
    (rows : list Row) :
  P None → (∀ row, row ∈ rows → P (body row) ∨ body row = None) →
  P (first_return body rows).
Proof.
  intros Hnone. induction rows as [|row rest IH]; intros Hrows; simpl; [exact Hnone|].
  destruct (Hrows row ltac:(left)) as [Hp | Hn].
  - destruct (body row) eqn:E; [exact Hp|].
    apply IH. intros r Hr. apply Hrows. right. exact Hr.
  - rewrite Hn. apply IH. intros r Hr. apply Hrows. right. exact Hr.
Qed.

(** An accumulating loop over the indices [1 .. n] of a grid visits the
    first [n] data rows in order. *)
Lemma foldl_skip {S} (step : S -> Row -> S) (x : Row) (data : Grid) (k n : nat) (s : S) :
  foldl (fun acc i => step acc (row_at (x :: data) i)) s (seq (Datatypes.S k) n)
  = foldl (fun acc i => step acc (row_at data i)) s (seq k n).
Proof.
  revert k s. induction n as [|n IH]; intros k s; simpl; [reflexivity|].
  change (row_at (x :: data) (Datatypes.S k)) with (row_at data k). apply IH.
Qed.

Lemma foldl_rows {S} (step : S -> Row -> S) (rows : list Row) (n : nat) (s : S) :
  (n ≤ length rows)%nat →
  foldl (fun acc i => step acc (row_at rows i)) s (seq 0 n)
  = foldl step s (take n rows).
Proof.
  revert n s. induction rows as [|row rest IH]; intros n s Hn; simpl in Hn.
  - assert (n = 0%nat) as -> by lia. reflexivity.
  - destruct n as [|n]; simpl; [reflexivity|].
    change (row_at (row :: rest) 0) with row.
    rewrite foldl_skip. apply IH. lia.
Qed.

Lemma foldl_data {S} (step : S -> Row -> S) (headers : Row) (rows : list Row)
    (n : nat) (s : S) :
  (n ≤ length rows)%nat →
  foldl (fun acc i => step acc (row_at (headers :: rows) i)) s (seq 1 n)
  = foldl step s (take n rows).
Proof. intros Hn. rewrite foldl_skip. apply foldl_rows. exact Hn. Qed.

Lemma foldl_snoc_map {A B} (f : A -> B) (xs : list A) (acc : list B) :
  foldl (fun rows x => rows ++ [f x]) acc xs = acc ++ map f xs.
Proof.
  revert acc. induction xs as [|x xs IH]; intros acc; simpl.
  - symmetry. apply app_nil_r.
  - rewrite IH, <- app_assoc. reflexivity.
Qed.

Lemma foldl_keep {A} (keep : A -> bool) (xs : list A) (acc : list A) :
  foldl (fun kept x => if keep x then kept ++ [x] else kept) acc xs
  = acc ++ List.filter keep xs.
Proof.
  revert acc. induction xs as [|x xs IH]; intros acc; simpl.
  - symmetry. apply app_nil_r.
  - rewrite IH. destruct (keep x); [|reflexivity].
    rewrite <- app_assoc. reflexivity.
Qed.

Lemma foldl_keep_map {A B} (f : A -> B) (keep : B -> bool) (xs : list A)
    (acc : list B) :
  foldl (fun kept x => if keep (f x) then kept ++ [f x] else kept) acc xs
  = acc ++ List.filter keep (map f xs).
Proof.
  revert acc. induction xs as [|x xs IH]; intros acc; simpl.
  - symmetry. apply app_nil_r.
  - rewrite IH. destruct (keep (f x)); [|reflexivity].
    rewrite <- app_assoc. reflexivity.
Qed.

Lemma filter_none {A} (keep : A -> bool) (xs : list A) :
  (∀ x, In x xs → keep x = false) → List.filter keep xs = [].
Proof.
  induction xs as [|x xs IH]; intros Hnone; simpl; [reflexivity|].
  rewrite (Hnone x) by (left; reflexivity). apply IH.
  intros y Hy. apply Hnone. right. exact Hy.
Qed.

Lemma filter_all {A} (keep : A -> bool) (xs : list A) :
  (∀ x, In x xs → keep x = true) → List.filter keep xs = xs.
Proof.
  induction xs as [|x xs IH]; intros Hall; simpl; [reflexivity|].
  rewrite (Hall x) by (left; reflexivity). f_equal. apply IH.
  intros y Hy. apply Hall. right. exact Hy.
Qed.

Lemma foldl_pointwise {A B} (f g : A -> B -> A) (xs : list B) (a : A) :
  (∀ acc x, f acc x = g acc x) → foldl f a xs = foldl g a xs.
Proof.
  intros Hfg. revert a. induction xs as [|x xs IH]; intros a; simpl; [reflexivity|].
  rewrite Hfg. apply IH.
Qed.

Lemma foldl_map {A B C} (f : A -> B) (step : C -> B -> C) (xs : list A) (c : C) :
  foldl (fun acc x => step acc (f x)) c xs = foldl step c (map f xs).
Proof. revert c. induction xs as [|x xs IH]; intros c; simpl; [reflexivity|apply IH]. Qed.

End Loops.

(** ** Row objects *)

Section RowObjects.
Import googleSheetsService.

Lemma own_columns_elem (headers : list string) (h : string) :
  h ∈ own_columns headers ↔ h ∈ headers ∧ h ≠ "__proto__".
Proof.
  unfold own_columns. rewrite list_elem_of_In, filter_In, <- list_elem_of_In.
  destruct (String.eqb_spec h "__proto__"); simpl; intuition congruence.
Qed.

Lemma own_columns_all (headers : list string) :
  "__proto__" ∉ headers → own_columns headers = headers.
Proof.
  intros Hnot. apply filter_all. intros h Hin.
  destruct (String.eqb_spec h "__proto__") as [->|]; [|reflexivity].
  exfalso. apply Hnot. apply list_elem_of_In. exact Hin.
Qed.

Lemma assign_dom (obj : RowObject) (key text : string) :
  dom (Js.assign obj key text)
  = (if String.eqb key "__proto__" then ∅ else {[ key ]}) ∪ dom obj.
Proof.
  unfold Js.assign. destruct (String.eqb key "__proto__").
  - set_solver.
  - rewrite dom_insert_L. reflexivity.
Qed.

Lemma assign_cells_dom (headers : list string) (index : nat) (row : Row)
    (obj : RowObject) :
  dom (assign_cells headers index row obj)
  = list_to_set (own_columns headers) ∪ dom obj.
Proof.
  revert index obj. induction headers as [|h rest IH]; intros index obj.
  - simpl. set_solver.
  - cbn [assign_cells]. rewrite IH, assign_dom.
    unfold own_columns. cbn [List.filter].
    destruct (String.eqb h "__proto__"); cbn [negb list_to_set]; set_solver.
Qed.

Lemma assign_cells_other (headers : list string) (index : nat) (row : Row)
    (obj : RowObject) (h : string) :
  h ∉ headers → assign_cells headers index row obj !! h = obj !! h.
Proof.
  revert index obj. induction headers as [|h' rest IH]; intros index obj Hnot.
  - reflexivity.
  - apply not_elem_of_cons in Hnot as [Hne Hnot]. cbn [assign_cells].
    rewrite IH by exact Hnot. unfold Js.assign.
    destruct (String.eqb h' "__proto__"); [reflexivity|].
    apply lookup_insert_ne. congruence.
Qed.

(** No assignment creates a property named [__proto__]. *)
Lemma assign_cells_proto (headers : list string) (index : nat) (row : Row)
    (obj : RowObject) :
  assign_cells headers index row obj !! "__proto__" = obj !! "__proto__".
Proof.
  revert index obj. induction headers as [|h rest IH]; intros index obj.
  - reflexivity.
  - cbn [assign_cells]. rewrite IH. unfold Js.assign.
    destruct (String.eqb_spec h "__proto__"); [reflexivity|].
    apply lookup_insert_ne. assumption.
Qed.

(** Every header but [__proto__] is a key, and its value is the cell under
    one of the columns carrying that header, or [""] when that cell is
    missing or blank. *)
Lemma assign_cells_elem (headers : list string) (index : nat) (row : Row)
    (obj : RowObject) (h : string) :
  h ∈ headers → h ≠ "__proto__" →
  ∃ i, headers !! i = Some h ∧
       assign_cells headers index row obj !! h
       = Some (default "" (row !! (index + i)%nat)).
Proof.
  intros Hin Hproto.
  revert index obj Hin. induction headers as [|h' rest IH]; intros index obj Hin.
  - inversion Hin.
  - cbn [assign_cells]. destruct (decide (h ∈ rest)) as [Hrest|Hrest].
    + destruct (IH (S index) (Js.assign obj h' (Js.or_empty (row !! index))) Hrest)
        as (i & Hi & Hv).
      exists (S i). split; [exact Hi|]. rewrite Hv. do 3 f_equal. lia.
    + apply elem_of_cons in Hin as [->|Hin]; [|contradiction].
      exists 0%nat. split; [reflexivity|].
      rewrite assign_cells_other by exact Hrest. unfold Js.assign.
      destruct (String.eqb_spec h' "__proto__"); [contradiction|].
      rewrite lookup_insert_eq, or_empty_default. do 3 f_equal. lia.
Qed.

Lemma rowObject_dom (headers : list string) (row : Row) :
  dom (rowObject headers row) = list_to_set (own_columns headers).
Proof. unfold rowObject. rewrite assign_cells_dom. set_solver. Qed.

Lemma rowObject_elem (headers : list string) (row : Row) (h : string) :
  h ∈ headers → h ≠ "__proto__" →
  ∃ i, headers !! i = Some h ∧
       rowObject headers row !! h = Some (default "" (row !! i)).
Proof. intros Hin Hproto. exact (assign_cells_elem headers 0 row ∅ h Hin Hproto). Qed.

Lemma rowObject_absent (headers : list string) (row : Row) (h : string) :
  h ∉ headers → rowObject headers row !! h = None.
Proof.
  intros Hnot. unfold rowObject. rewrite assign_cells_other by exact Hnot.
  apply lookup_empty.
Qed.

Lemma rowObject_proto (headers : list string) (row : Row) :
  rowObject headers row !! "__proto__" = None.
Proof. unfold rowObject. rewrite assign_cells_proto. apply lookup_empty. Qed.

(** With no repeated column name, the value under a header is the cell at
    that header's position. *)
Lemma rowObject_lookup (headers : list string) (row : Row) (i : nat) (h : string) :
  NoDup headers → headers !! i = Some h → h ≠ "__proto__" →
  rowObject headers row !! h = Some (default "" (row !! i)).
Proof.
  intros Hnd Hi Hproto.
  destruct (rowObject_elem headers row h) as (j & Hj & Hv);
    [eapply list_elem_of_lookup_2; eauto|exact Hproto|].
  rewrite Hv. do 3 f_equal. eapply NoDup_lookup; eauto.
Qed.

(** No header name but [__proto__] reads as [undefined]. *)
Lemma rowObject_is_Some (headers : list string) (row : Row) (h : string) :
  h ∈ headers → h ≠ "__proto__" → is_Some (rowObject headers row !! h).
Proof.
  intros Hin Hproto.
  destruct (rowObject_elem headers row h Hin Hproto) as (i & _ & ->). eauto.
Qed.

Lemma rowObject_nonblank (headers : list string) (row : Row) (column v : string) :
  NoDup headers → column ≠ "__proto__" → v ≠ "" →
  rowObject headers row !! column = Some v ↔
  Js.at_index row (Js.indexOf column headers) = Some v.
Proof.
  intros Hnd Hproto Hv. destruct (Js.indexOf column headers) as [i|] eqn:Hi.
  - destruct (indexOf_Some _ _ _ Hi) as [Hc _].
    rewrite (rowObject_lookup headers row i column Hnd Hc Hproto).
    change (Js.at_index row (Some i)) with (row !! i).
    destruct (row !! i) as [x|]; cbn.
    + reflexivity.
    + split; [|discriminate]. intros [= <-]. exfalso. apply Hv. reflexivity.
  - apply indexOf_None in Hi. rewrite (rowObject_absent headers row column Hi).
    reflexivity.
Qed.

(** The value under a header name is the cell at the last position
    carrying that name. *)
Lemma assign_cells_last (headers : list string) (index : nat) (row : Row)
    (obj : RowObject) (i : nat) (h : string) :
  headers !! i = Some h → h ≠ "__proto__" →
  (∀ j, (i < j)%nat → headers !! j ≠ Some h) →
  assign_cells headers index row obj !! h
  = Some (default "" (row !! (index + i)%nat)).
Proof.
  intros Hi Hproto. revert index obj i Hi.
  induction headers as [|h' rest IH]; intros index obj i Hi Hlast; [discriminate|].
  cbn [assign_cells]. destruct i as [|i].
  - injection Hi as ->.
    assert (Hrest : h ∉ rest).
    { intros Hin. apply list_elem_of_lookup in Hin as [j Hj].
      exact (Hlast (S j) ltac:(lia) Hj). }
    rewrite assign_cells_other by exact Hrest. unfold Js.assign.
    destruct (String.eqb_spec h "__proto__"); [contradiction|].
    rewrite lookup_insert_eq, or_empty_default. do 3 f_equal. lia.
  - rewrite (IH (S index) _ i Hi).
    + do 3 f_equal. lia.
    + intros j Hj. apply (Hlast (S j)). lia.
Qed.

Lemma rowObject_carries (headers : list string) (row : Row) :
  carries headers row (rowObject headers row).
Proof.
  split; [apply rowObject_dom|]. intros i h Hi Hproto Hlast.
  exact (assign_cells_last headers 0 row ∅ i h Hi Hproto Hlast).
Qed.

(** Two rows that agree once missing cells are read as blank give the
    same object. *)
Lemma assign_cells_blanks (headers : list string) (index : nat) (row row' : Row)
    (obj : RowObject) :
  (∀ i, default "" (row !! i) = default "" (row' !! i)) →
  assign_cells headers index row obj = assign_cells headers index row' obj.
Proof.
  intros Hsame. revert index obj.
  induction headers as [|h rest IH]; intros index obj; [reflexivity|].
  cbn [assign_cells]. rewrite !or_empty_default, Hsame. apply IH.
Qed.

End RowObjects.

(** ** What the sheet shows of a written row *)

Section WrittenRows.
Import googleSheetsService.

Lemma withoutTrailingBlanks_default (row : Row) (i : nat) :
  default "" (Sheets.withoutTrailingBlanks row !! i) = default "" (row !! i).
Proof.
  revert i. induction row as [|cell rest IH]; intros i; [reflexivity|].
  cbn [Sheets.withoutTrailingBlanks].
  destruct (Sheets.withoutTrailingBlanks rest) as [|kept0 kept] eqn:E.
  - assert (Hrest : ∀ k, default "" (rest !! k) = "").
    { intros k. etransitivity; [symmetry; exact (IH k)|]. destruct k; reflexivity. }
    destruct (String.eqb_spec cell "") as [->|Hne];
      (destruct i as [|i]; [reflexivity|]);
      change ((?c :: rest) !! S i) with (rest !! i); rewrite Hrest;
      destruct i; reflexivity.
  - destruct i as [|i]; [reflexivity|]. exact (IH i).
Qed.

Lemma withoutTrailingBlanks_Some (row : Row) (i : nat) (v : string) :
  row !! i = Some v → v ≠ "" → Sheets.withoutTrailingBlanks row !! i = Some v.
Proof.
  intros Hi Hv. pose proof (withoutTrailingBlanks_default row i) as Hd.
  rewrite Hi in Hd. cbn in Hd.
  destruct (Sheets.withoutTrailingBlanks row !! i) as [x|]; cbn in Hd; congruence.
Qed.

Lemma withoutTrailingBlanks_lookup (row : Row) (i : nat) (v : string) :
  Sheets.withoutTrailingBlanks row !! i = Some v → row !! i = Some v.
Proof.
  revert i. induction row as [|cell rest IH]; intros i; [discriminate|].
  cbn [Sheets.withoutTrailingBlanks].
  destruct (Sheets.withoutTrailingBlanks rest) as [|kept0 kept] eqn:E.
  - destruct (String.eqb cell ""); [discriminate|].
    destruct i as [|i]; [exact id|]. discriminate.
  - destruct i as [|i]; [exact id|]. cbn. apply IH.
Qed.

Lemma rowObject_withoutTrailingBlanks (headers : list string) (row : Row) :
  rowObject headers (Sheets.withoutTrailingBlanks row) = rowObject headers row.
Proof.
  apply assign_cells_blanks. intros i. apply withoutTrailingBlanks_default.
Qed.

Lemma with_row_same (st : Store) (sheetName : string) (row : Row) (grid : Grid) :
  st sheetName = Js.Ok grid →
  Sheets.with_row st sheetName row sheetName = Js.Ok (Sheets.below grid row).
Proof.
  intros Hst. unfold Sheets.with_row. rewrite String.eqb_refl, Hst. reflexivity.
Qed.

Lemma with_row_other (st : Store) (sheetName other : string) (row : Row) :
  other ≠ sheetName → Sheets.with_row st sheetName row other = st other.
Proof.
  intros Hne. unfold Sheets.with_row.
  destruct (String.eqb_spec other sheetName); [contradiction|reflexivity].
Qed.

Lemma below_cases (grid : Grid) (row : Row) :
  (row = [] ∧ Sheets.below grid row = grid) ∨
  (row ≠ [] ∧ Sheets.below grid row = grid ++ [row]).
Proof. destruct row; [left|right]; split; try reflexivity; discriminate. Qed.

Lemma below_header (headers : Row) (rows : list Row) (row : Row) :
  Sheets.below (headers :: rows) row = headers :: Sheets.below rows row.
Proof. destruct row; reflexivity. Qed.

Lemma texts_accepted (values : list string) :
  existsb Sheets.is_object (Js.Text <$> values) = false.
Proof. induction values as [|v values IH]; [reflexivity|exact IH]. Qed.

Section WithService.
Context {service : Sheets.Service}.

Lemma shown_texts (values : list string) (i : nat) :
  map Sheets.shown (Js.Text <$> values) !! i = Sheets.entered <$> values !! i.
Proof.
  change (map Sheets.shown (Js.Text <$> values))
    with (Sheets.shown <$> (Js.Text <$> values)).
  rewrite !list_lookup_fmap. destruct (values !! i); reflexivity.
Qed.

Lemma appendToSheet_accepted (st : Store) (sheetName : string)
    (values : list Js.json) (grid : Grid) :
  st sheetName = Js.Ok grid → existsb Sheets.is_object values = false →
  appendToSheet st sheetName values
  = (Sheets.with_row st sheetName (Sheets.visible values), Js.Ok tt).
Proof.
  intros Hst Hok. unfold appendToSheet, Sheets.append. rewrite Hst, Hok. reflexivity.
Qed.

(** Whatever its outcome, an append leaves every other sheet as it was,
    and the sheet it names as it was or longer by one row. *)
Lemma appendToSheet_store (st : Store) (sheetName : string) (values : list Js.json) :
  (appendToSheet st sheetName values).1 = st ∨
  (appendToSheet st sheetName values).1
  = Sheets.with_row st sheetName (Sheets.visible values).
Proof.
  unfold appendToSheet, Sheets.append. destruct (st sheetName); [|left; reflexivity].
  destruct (existsb Sheets.is_object values); [left|right]; reflexivity.
Qed.

Lemma appendToSheet_other (st st1 : Store) (sheetName name : string)
    (values : list Js.json) (r : Js.result unit) :
  appendToSheet st sheetName values = (st1, r) → name ≠ sheetName →
  st1 name = st name.
Proof.
  intros Happend Hne.
  destruct (appendToSheet_store st sheetName values) as [H | H];
    rewrite Happend in H; simpl in H; subst st1; [reflexivity|].
  apply with_row_other. exact Hne.
Qed.

End WithService.

End WrittenRows.

(** ** The tabular store *)

Section TabularStore.
Import googleSheetsService.

Lemma findRowByValue_data (st : Store) (sheetName columnName : string)
    (searchValue : Js.value) (headers : Row) (rows : list Row) (c : nat) :
  st sheetName = Js.Ok (headers :: rows) →
  Js.indexOf columnName headers = Some c →
  findRowByValue st sheetName columnName searchValue
  = Js.Ok (first_return
             (fun row => if decide (row !! c = searchValue)
                         then Some (rowObject headers row) else None)
             rows).
Proof.
  intros Hst Hc. unfold findRowByValue, getSheetData. rewrite Hst. simpl.
  rewrite Hc. f_equal.
  replace (length rows - 0)%nat with (length rows) by lia.
  exact (for_return_data
           (fun row => if decide (row !! c = searchValue)
                       then Some (rowObject headers row) else None)
           headers rows).
Qed.

Lemma findRowByValue_missing_column (st : Store) (sheetName columnName : string)
    (searchValue : Js.value) (headers : Row) (rows : list Row) :
  st sheetName = Js.Ok (headers :: rows) →
  columnName ∉ headers →
  findRowByValue st sheetName columnName searchValue
  = Js.Throw (columnNotFound columnName sheetName).
Proof.
  intros Hst Hnot. apply indexOf_None in Hnot.
  unfold findRowByValue, getSheetData. rewrite Hst. simpl. rewrite Hnot. reflexivity.
Qed.

Lemma findRowByValue_found (st : Store) (sheetName columnName : string)
    (searchValue : Js.value) (headers : Row) (rows : list Row) (c : nat)
    (obj : RowObject) :
  st sheetName = Js.Ok (headers :: rows) →
  Js.indexOf columnName headers = Some c →
  findRowByValue st sheetName columnName searchValue = Js.Ok (Some obj) ↔
  ∃ k row, first_matching_row c searchValue rows k row ∧ obj = rowObject headers row.
Proof.
  intros Hst Hc. rewrite (findRowByValue_data _ _ _ _ _ _ _ Hst Hc).
  split.
  - intros [= H]. apply first_return_Some in H as (k & row & Hk & Hbody & Hfirst).
    exists k, row. destruct (decide (row !! c = searchValue)) as [Heq|]; [|discriminate].
    injection Hbody as <-. split; [|reflexivity].
    split; [exact Hk|]. split; [exact Heq|].
    intros j row' Hj Hjr Hmatch. specialize (Hfirst j row' Hj Hjr).
    destruct (decide (row' !! c = searchValue)); [discriminate|contradiction].
  - intros (k & row & (Hk & Heq & Hfirst) & ->). f_equal.
    apply first_return_Some. exists k, row. split; [exact Hk|].
    split; [destruct (decide (row !! c = searchValue)); [reflexivity|contradiction]|].
    intros j row' Hj Hjr.
    destruct (decide (row' !! c = searchValue)) as [Heq'|]; [|reflexivity].
    exfalso. exact (Hfirst j row' Hj Hjr Heq').
Qed.

Lemma findRowByValue_absent (st : Store) (sheetName columnName : string)
    (searchValue : Js.value) (headers : Row) (rows : list Row) (c : nat) :
  st sheetName = Js.Ok (headers :: rows) →
  Js.indexOf columnName headers = Some c →
  findRowByValue st sheetName columnName searchValue = Js.Ok None ↔
  ∀ row, row ∈ rows → row !! c ≠ searchValue.
Proof.
  intros Hst Hc. rewrite (findRowByValue_data _ _ _ _ _ _ _ Hst Hc).
  split.
  - intros [= H] row Hin Heq.
    pose proof (proj1 (first_return_None _ _) H row Hin) as Hrow. simpl in Hrow.
    destruct (decide (row !! c = searchValue)); [discriminate|contradiction].
  - intros H. f_equal. apply first_return_None. intros row Hin.
    destruct (decide (row !! c = searchValue)) as [Heq|]; [|reflexivity].
    exfalso. exact (H row Hin Heq).
Qed.

Lemma findRowByValue_same_sheet (st st' : Store) (sheetName columnName : string)
    (searchValue : Js.value) :
  st sheetName = st' sheetName →
  findRowByValue st sheetName columnName searchValue
  = findRowByValue st' sheetName columnName searchValue.
Proof. intros Heq. unfold findRowByValue, getSheetData. rewrite Heq. reflexivity. Qed.

(** A sheet with at most its header row has no row to find. *)
Lemma findRowByValue_no_rows (st : Store) (sheetName columnName : string)
    (searchValue : Js.value) (grid : Grid) (obj : RowObject) :
  st sheetName = Js.Ok grid → tail grid = [] →
  findRowByValue st sheetName columnName searchValue ≠ Js.Ok (Some obj).
Proof.
  intros Hst Htail. unfold findRowByValue, getSheetData. rewrite Hst.
  destruct grid as [|headers [|row rest]]; [discriminate| |discriminate].
  cbn. destruct (Js.indexOf columnName headers); discriminate.
Qed.

(** C5, as the code has it.  On a sheet with a header row,
    [findRowByValue] throws the column-not-found error when the named
    column is not in the header; when it is, the call returns a row object
    exactly when some data row holds the search value in that column (cells
    compared with [===]), and the object returned is built from the first
    such row in sheet order.  On a sheet with no rows at all the call
    returns [null] whatever the column name. *)
Theorem findRowByValue_first_match (st : Store) (sheetName columnName : string)
    (searchValue : Js.value) (data : Grid) :
  st sheetName = Js.Ok data →
  (data = [] → findRowByValue st sheetName columnName searchValue = Js.Ok None) ∧
  (∀ headers rows, data = headers :: rows →
     (columnName ∉ headers →
        findRowByValue st sheetName columnName searchValue
        = Js.Throw (columnNotFound columnName sheetName)) ∧
     (∀ c, Js.indexOf columnName headers = Some c →
        ∃ found, findRowByValue st sheetName columnName searchValue = Js.Ok found ∧
          (is_Some found ↔ ∃ row, row ∈ rows ∧ row !! c = searchValue) ∧
          (∀ obj, found = Some obj →
             ∃ k row, first_matching_row c searchValue rows k row ∧
                      obj = rowObject headers row))).
Proof.
  intros Hst. split.
  - intros ->. unfold findRowByValue, getSheetData. rewrite Hst. reflexivity.
  - intros headers rows ->. split.
    + intros Hnot. exact (findRowByValue_missing_column _ _ _ _ _ _ Hst Hnot).
    + intros c Hc.
      pose proof (findRowByValue_data st sheetName columnName searchValue
                    headers rows c Hst Hc) as Hret.
      eexists. split; [exact Hret|]. split.
      * split.
        -- intros [obj Hobj]. rewrite Hobj in Hret.
           destruct (proj1 (findRowByValue_found st sheetName columnName searchValue
                              headers rows c obj Hst Hc) Hret)
             as (k & row & (Hk & Heq & _) & _).
           exists row. split; [eapply list_elem_of_lookup_2; eauto|exact Heq].
        -- intros (row & Hin & Heq).
           destruct (first_return _ rows) as [obj|] eqn:E; [eauto|].
           exfalso.
           exact (proj1 (findRowByValue_absent st sheetName columnName searchValue
                           headers rows c Hst Hc) Hret row Hin Heq).
      * intros obj Hobj. rewrite Hobj in Hret.
        exact (proj1 (findRowByValue_found st sheetName columnName searchValue
                        headers rows c obj Hst Hc) Hret).
Qed.

(** C5 exercised on a two-row [Users] sheet. *)
Lemma findRowByValue_first_match_witness :
  let st : Store := fun _ =>
    Js.Ok [["id"; "email"]; ["1"; "a@x.com"]; ["2"; "a@x.com"]] in
  findRowByValue st "Users" "role" (Some "user")
  = Js.Throw (columnNotFound "role" "Users") ∧
  ∃ found, findRowByValue st "Users" "email" (Some "a@x.com") = Js.Ok found ∧
    ∀ obj, found = Some obj →
      ∃ k row, first_matching_row 1 (Some "a@x.com")
                 [["1"; "a@x.com"]; ["2"; "a@x.com"]] k row ∧
               obj = rowObject ["id"; "email"] row.
Proof.
  intros st.
  destruct (findRowByValue_first_match st "Users" "role" (Some "user") _ eq_refl)
    as [_ Hrole].
  destruct (Hrole ["id"; "email"] [["1"; "a@x.com"]; ["2"; "a@x.com"]] eq_refl)
    as [Hthrow _].
  destruct (findRowByValue_first_match st "Users" "email" (Some "a@x.com") _ eq_refl)
    as [_ Hemail].
  destruct (Hemail ["id"; "email"] [["1"; "a@x.com"]; ["2"; "a@x.com"]] eq_refl)
    as [_ Hfound].
  destruct (Hfound 1%nat eq_refl) as (found & Hret & _ & Hfirst).
  split.
  - apply Hthrow. intros Hin. apply list_elem_of_In in Hin. simpl in Hin.
    intuition discriminate.
  - exists found. split; [exact Hret|exact Hfirst].
Defined.

(** C5 as stated fails on an empty sheet: no header holds the column,
    yet the call returns [null] instead of throwing. *)
Lemma findRowByValue_empty_sheet_no_error :
  let st : Store := fun _ => Js.Ok [] in
  ("email" ∉ header_row []) ∧
  findRowByValue st "Users" "email" (Some "a@x.com") = Js.Ok None ∧
  ¬ (∀ (st : Store) sheetName columnName searchValue data,
       st sheetName = Js.Ok data →
       columnName ∉ header_row data →
       findRowByValue st sheetName columnName searchValue
       = Js.Throw (columnNotFound columnName sheetName)).
Proof.
  intros st. split; [apply not_elem_of_nil|]. split; [reflexivity|].
  intros H.
  specialize (H st "Users" "email" (Some "a@x.com") [] eq_refl (not_elem_of_nil _)).
  discriminate H.
Qed.

Lemma getAllRows_data (st : Store) (sheetName : string) (headers : Row)
    (rows : list Row) :
  st sheetName = Js.Ok (headers :: rows) → rows ≠ [] →
  getAllRows st sheetName = Js.Ok (map (rowObject headers) rows).
Proof.
  intros Hst Hrows. unfold getAllRows, getSheetData. rewrite Hst. simpl.
  destruct rows as [|row rest]; [contradiction|]. simpl length.
  replace (S (length rest) - 0)%nat with (length (row :: rest)) by (simpl; lia).
  f_equal.
  rewrite (foldl_data (fun objs r => objs ++ [rowObject headers r])
             headers (row :: rest) (length (row :: rest)) []) by reflexivity.
  rewrite firstn_all, foldl_snoc_map. reflexivity.
Qed.

Lemma getAllRows_header_only (st : Store) (sheetName : string) (headers : Row) :
  st sheetName = Js.Ok [headers] → getAllRows st sheetName = Js.Ok [].
Proof. intros Hst. unfold getAllRows, getSheetData. rewrite Hst. reflexivity. Qed.

(** C6 at its failing input.  On a sheet one of whose columns is named
    [__proto__], the object [getAllRows] builds for a data row has no key of
    that name: the assignment [rowObject['__proto__'] = 'x'] reaches the
    setter every object inherits, which ignores a string.  The key set of
    the object is therefore not the column set of the header, and the cell
    under that column is in no property of the object. *)
Theorem getAllRows_proto_column :
  let st : Store := fun _ => Js.Ok [["id"; "__proto__"]; ["7"; "x"]] in
  ∃ obj, getAllRows st "Users" = Js.Ok [obj] ∧
         obj = {[ "id" := "7" ]} ∧
         obj !! "__proto__" = None ∧
         dom obj ≠ list_to_set ["id"; "__proto__"].
Proof.
  intros st. exists (rowObject ["id"; "__proto__"] ["7"; "x"]).
  split; [reflexivity|].
  assert (Hobj : rowObject ["id"; "__proto__"] ["7"; "x"] = {[ "id" := "7" ]}).
  { unfold rowObject. cbn [assign_cells]. unfold Js.assign. cbn.
    rewrite insert_empty. reflexivity. }
  split; [exact Hobj|]. split; [apply rowObject_proto|].
  rewrite rowObject_dom. intros Heq.
  assert (Hin : "__proto__" ∈ (list_to_set ["id"; "__proto__"] : gset string))
    by set_solver.
  rewrite <- Heq in Hin. apply elem_of_list_to_set, own_columns_elem in Hin as [_ Hne].
  apply Hne. reflexivity.
Qed.

Section WithService.
Context {service : Sheets.Service}.

Lemma visible_texts_Some (values : list string) (c : nat) (v : string) :
  values !! c = Some v → Sheets.entered v = v → v ≠ "" →
  Sheets.visible (Js.Text <$> values) !! c = Some v.
Proof.
  intros Hv Hkept Hne. unfold Sheets.visible.
  apply withoutTrailingBlanks_Some; [|exact Hne].
  rewrite shown_texts, Hv. cbn. rewrite Hkept. reflexivity.
Qed.

(** Where a written row lands on a sheet with a header, when the sheet
    shows any text of it. *)
Lemma appended_below (st : Store) (sheetName : string) (values : list Js.json)
    (headers : Row) (rows : list Row) :
  st sheetName = Js.Ok (headers :: rows) →
  existsb Sheets.is_object values = false →
  Sheets.visible values ≠ [] →
  ∃ st', appendToSheet st sheetName values = (st', Js.Ok tt) ∧
         st' = Sheets.with_row st sheetName (Sheets.visible values) ∧
         st' sheetName = Js.Ok (headers :: rows ++ [Sheets.visible values]).
Proof.
  intros Hst Hok Hrow. eexists.
  split; [exact (appendToSheet_accepted st sheetName values _ Hst Hok)|].
  split; [reflexivity|].
  rewrite (with_row_same st sheetName _ _ Hst).
  destruct (below_cases (headers :: rows) (Sheets.visible values)) as [[H _]|[_ ->]];
    [contradiction|reflexivity].
Qed.

(** The row found after an append, when no earlier row matches. *)
Lemma findRowByValue_appended (st st' : Store) (sheetName columnName : string)
    (searchValue : Js.value) (headers row : Row) (rows : list Row) (c : nat) :
  st sheetName = Js.Ok (headers :: rows) →
  st' sheetName = Js.Ok (headers :: rows ++ [row]) →
  Js.indexOf columnName headers = Some c →
  findRowByValue st sheetName columnName searchValue = Js.Ok None →
  row !! c = searchValue →
  findRowByValue st' sheetName columnName searchValue
  = Js.Ok (Some (rowObject headers row)).
Proof.
  intros Hst Hst' Hc Hnone Hv.
  apply (findRowByValue_found _ sheetName columnName searchValue headers _ c _ Hst' Hc).
  exists (length rows), row. split; [|reflexivity].
  split; [apply list_lookup_middle; reflexivity|]. split; [exact Hv|].
  intros j row' Hj Hjr. rewrite lookup_app_l in Hjr by exact Hj.
  apply (proj1 (findRowByValue_absent st sheetName columnName searchValue
                  headers rows c Hst Hc) Hnone).
  eapply list_elem_of_lookup_2; eauto.
Qed.


End WithService.



End TabularStore.

(** ** The admin allowlist and the effective role *)

Section Authorization.
Import googleSheetsService auth.

Section WithStrings.
Context {strings : Js.Strings}.

Lemma checkAdminStatus_unreadable (st : Store) (email : Js.value) (e : Js.error) :
  st "Admins" = Js.Throw e → checkAdminStatus st email = false.
Proof. intros Hst. unfold checkAdminStatus, getSheetData. rewrite Hst. reflexivity. Qed.

Lemma checkAdminStatus_no_rows (st : Store) (email : Js.value) (admins : Grid) :
  st "Admins" = Js.Ok admins → tail admins = [] → checkAdminStatus st email = false.
Proof.
  intros Hst Htail. unfold checkAdminStatus, getSheetData. rewrite Hst.
  destruct admins as [|headers [|row rest]]; try reflexivity. discriminate.
Qed.

Lemma checkAdminStatus_same_sheet (st st' : Store) (address : Js.value) :
  st "Admins" = st' "Admins" → checkAdminStatus st address = checkAdminStatus st' address.
Proof. intros Heq. unfold checkAdminStatus, getSheetData. rewrite Heq. reflexivity. Qed.

Lemma checkAdminStatus_rows (st : Store) (email : Js.value) (headers : Row)
    (rows : list Row) :
  st "Admins" = Js.Ok (headers :: rows) →
  checkAdminStatus st email
  = Js.try_catch
      (match first_return
               (adminRowCheck (Js.indexOf "email" headers)
                  (Js.indexOf "status" headers) email) rows with
       | Some r => r
       | None => Js.Ok false
       end)
      (fun _ => false).
Proof.
  intros Hst. unfold checkAdminStatus, getSheetData. rewrite Hst.
  destruct rows as [|row rest]; [reflexivity|].
  cbn [Js.bind length Nat.leb].
  replace (S (S (length rest)) - 1)%nat with (length (row :: rest)) by (simpl; lia).
  rewrite (for_return_data
             (adminRowCheck (Js.indexOf "email" headers)
                (Js.indexOf "status" headers) email) headers (row :: rest)).
  reflexivity.
Qed.

(** What one turn of the loop decides for a string argument. *)
Lemma adminRowCheck_string (ei si : option nat) (email : string) (row : Row) :
  (adminRowCheck ei si (Some email) row = Some (Js.Ok true) ∧
   ∃ e, Js.at_index row ei = Some e ∧ e ≠ "" ∧
        Js.at_index row si = Some "active" ∧
        Js.toLowerCase e = Js.toLowerCase email)
  ∨ (adminRowCheck ei si (Some email) row = None ∧
     ¬ ∃ e, Js.at_index row ei = Some e ∧ e ≠ "" ∧
            Js.at_index row si = Some "active" ∧
            Js.toLowerCase e = Js.toLowerCase email).
Proof.
  unfold adminRowCheck.
  destruct (Js.at_index row ei) as [e|] eqn:He; simpl.
  - destruct (String.eqb_spec e "") as [->|Hne]; simpl.
    + right. split; [reflexivity|]. intros (e' & [= <-] & Hne & _). congruence.
    + destruct (decide (Js.at_index row si = Some "active")) as [Hs|Hs].
      * destruct (decide (Js.toLowerCase e = Js.toLowerCase email)) as [Hl|Hl].
        -- left. split; [reflexivity|]. eauto.
        -- right. split; [reflexivity|].
           intros (e' & [= <-] & _ & _ & Hl'). contradiction.
      * right. split; [reflexivity|]. intros (e' & _ & _ & Hs' & _). contradiction.
  - right. split; [reflexivity|]. intros (e' & [=] & _).
Qed.

Lemma adminRowCheck_undefined (ei si : option nat) (row : Row) :
  adminRowCheck ei si None row = None ∨
  ∃ e, adminRowCheck ei si None row = Some (Js.Throw e).
Proof.
  unfold adminRowCheck.
  destruct (Js.truthy (Js.at_index row ei)); [|left; reflexivity].
  destruct (decide (Js.at_index row si = Some "active")); [|left; reflexivity].
  destruct (Js.at_index row ei); simpl; right; eauto.
Qed.

Lemma checkAdminStatus_None (st : Store) : checkAdminStatus st None = false.
Proof.
  destruct (st "Admins") as [[|headers rows]|e] eqn:Hst.
  - exact (checkAdminStatus_no_rows st None [] Hst eq_refl).
  - rewrite (checkAdminStatus_rows st None headers rows Hst).
    apply (first_return_all
             (fun r => Js.try_catch (match r with Some x => x | None => Js.Ok false end)
                         (fun _ => false) = false)).
    + reflexivity.
    + intros row _.
      destruct (adminRowCheck_undefined (Js.indexOf "email" headers)
                  (Js.indexOf "status" headers) row) as [-> | [e ->]];
        [right|left]; reflexivity.
  - exact (checkAdminStatus_unreadable st None e Hst).
Qed.

Lemma checkAdminStatus_true (st : Store) (email : string) (admins : Grid) :
  st "Admins" = Js.Ok admins →
  checkAdminStatus st (Some email) = true ↔
  ∃ row e, row ∈ tail admins ∧
    Js.at_index row (Js.indexOf "email" (header_row admins)) = Some e ∧ e ≠ "" ∧
    Js.at_index row (Js.indexOf "status" (header_row admins)) = Some "active" ∧
    Js.toLowerCase e = Js.toLowerCase email.
Proof.
  intros Hst. destruct admins as [|headers rows].
  - rewrite (checkAdminStatus_no_rows st _ [] Hst eq_refl). split; [discriminate|].
    intros (row & e & Hin & _). inversion Hin.
  - rewrite (checkAdminStatus_rows st _ headers rows Hst).
    change (header_row (headers :: rows)) with headers.
    change (tail (headers :: rows)) with rows.
    set (body := adminRowCheck _ _ _).
    destruct (first_return body rows) as [r|] eqn:E.
    + apply first_return_Some in E as (k & row & Hk & Hbody & _).
      unfold body in Hbody.
      destruct (adminRowCheck_string (Js.indexOf "email" headers)
                  (Js.indexOf "status" headers) email row)
        as [[Hc Hrow] | [Hc _]]; rewrite Hc in Hbody; [|discriminate].
      injection Hbody as <-. split; [intros _|reflexivity].
      destruct Hrow as (e & He & Hne & Hs & Hl). exists row, e.
      split; [eapply list_elem_of_lookup_2; eauto|]. auto.
    + split; [discriminate|]. intros (row & e & Hin & He & Hne & Hs & Hl).
      pose proof (proj1 (first_return_None _ _) E row Hin) as Hbody.
      unfold body in Hbody.
      destruct (adminRowCheck_string (Js.indexOf "email" headers)
                  (Js.indexOf "status" headers) email row)
        as [[Hc _] | [_ Hno]]; [rewrite Hc in Hbody; discriminate|].
      exfalso. apply Hno. eauto.
Qed.

(** The check answers [true] exactly for a non-empty address that the
    allowlist holds an active row for. *)
Lemma checkAdminStatus_allowlisted (st : Store) (email : string) (admins : Grid) :
  st "Admins" = Js.Ok admins →
  checkAdminStatus st (Some email) = true ↔ email ≠ "" ∧ allowlisted admins email.
Proof.
  intros Hst. rewrite (checkAdminStatus_true st email admins Hst). split.
  - intros (row & e & Hin & He & Hne & Hs & Hl). split.
    + intros ->. apply Hne. apply Js.toLowerCase_empty. rewrite Hl.
      apply Js.toLowerCase_empty. reflexivity.
    + exists row, e. auto.
  - intros (Hne & row & e & Hin & Hs & He & Hl). exists row, e.
    repeat split; try assumption.
    intros ->. apply Hne. apply Js.toLowerCase_empty. rewrite <- Hl.
    apply Js.toLowerCase_empty. reflexivity.
Qed.

(** The same for any argument and any store. *)
Lemma checkAdminStatus_iff (st : Store) (email : Js.value) :
  checkAdminStatus st email = true ↔
  ∃ address, email = Some address ∧ address ≠ "" ∧ allowlisted_in st address.
Proof.
  destruct email as [address|].
  - destruct (st "Admins") as [admins|e] eqn:Hst.
    + rewrite (checkAdminStatus_allowlisted st address admins Hst). split.
      * intros [Hne Hallow]. exists address. split; [reflexivity|].
        split; [exact Hne|]. exists admins. auto.
      * intros (address' & [= <-] & Hne & admins' & Hst' & Hallow).
        rewrite Hst in Hst'. injection Hst' as <-. auto.
    + rewrite (checkAdminStatus_unreadable st _ e Hst). split; [discriminate|].
      intros (address' & _ & _ & admins & Hst' & _). congruence.
  - rewrite checkAdminStatus_None. split; [discriminate|].
    intros (address & [=] & _).
Qed.

Lemma checkAdminStatus_same_case (st : Store) (e1 e2 : string) :
  Js.toLowerCase e1 = Js.toLowerCase e2 →
  checkAdminStatus st (Some e1) = checkAdminStatus st (Some e2).
Proof.
  intros Hl. destruct (st "Admins") as [admins|err] eqn:Hst.
  - apply bool_eq_iff.
    rewrite (checkAdminStatus_true st e1 admins Hst),
            (checkAdminStatus_true st e2 admins Hst).
    rewrite Hl. reflexivity.
  - rewrite !(checkAdminStatus_unreadable st _ err Hst). reflexivity.
Qed.

Lemma checkAdminStatus_active_row (st : Store) (address : string)
    (headers : Row) (rows : list Row) :
  st "Admins" = Js.Ok (headers :: rows) →
  checkAdminStatus st (Some address) = true ↔
  ∃ row, row ∈ rows ∧ active_row_for headers address row.
Proof.
  intros Hst. rewrite (checkAdminStatus_true st address _ Hst).
  change (header_row (headers :: rows)) with headers.
  change (tail (headers :: rows)) with rows.
  split.
  - intros (row & e & Hin & He & Hne & Hs & Hl). exists row. split; [exact Hin|].
    exists e. auto.
  - intros (row & Hin & e & He & Hne & Hs & Hl). exists row, e. auto.
Qed.

(** C4, as the code has it.  Two addresses that agree once lower-cased
    get the same answer from [checkAdminStatus] in every store.  With a
    readable [Admins] sheet the answer is [true] exactly when the queried
    address is not empty and some data row has status [active] and an
    address equal to it once both are lower-cased.  The answer is [false],
    not an error, when the sheet cannot be read or has no data rows. *)
Theorem checkAdminStatus_case_insensitive :
  (∀ (st : Store) e1 e2,
     Js.toLowerCase e1 = Js.toLowerCase e2 →
     checkAdminStatus st (Some e1) = checkAdminStatus st (Some e2)) ∧
  (∀ (st : Store) admins email,
     st "Admins" = Js.Ok admins →
     checkAdminStatus st (Some email) = true ↔
     email ≠ "" ∧ allowlisted admins email) ∧
  (∀ (st : Store) email,
     (∃ e, st "Admins" = Js.Throw e) ∨
     (∃ admins, st "Admins" = Js.Ok admins ∧ tail admins = []) →
     checkAdminStatus st email = false).
Proof.
  split; [exact checkAdminStatus_same_case|].
  split; [intros st admins email; apply checkAdminStatus_allowlisted|].
  intros st email [[e He] | (admins & Hst & Htail)].
  - exact (checkAdminStatus_unreadable st email e He).
  - exact (checkAdminStatus_no_rows st email admins Hst Htail).
Qed.

Section WithJwt.
Variable jwt_verify : string -> Js.result Decoded.

Lemma authenticateToken_valid (st : Store) (authHeader : Js.value)
    (token : string) (decoded : Decoded) (user : RowObject) :
  bearerToken authHeader = Some token → token ≠ "" →
  jwt_verify token = Js.Ok decoded →
  findRowByValue st "Users" "id" (decoded_id decoded) = Js.Ok (Some user) →
  user !! "status" = Some "active" →
  authenticateToken jwt_verify st authHeader
  = Next (Some (requestUser user
                  (if checkAdminStatus st (user !! "email")
                   then Some "admin" else user !! "role"))).
Proof.
  intros Hbearer Htoken Hverify Huser Hactive.
  unfold authenticateToken. rewrite Hbearer.
  rewrite (proj2 (truthy_Some token) Htoken).
  rewrite Hverify. cbn [Js.bind]. rewrite Huser. cbn [Js.bind].
  destruct (decide (user !! "status" = Some "active")); [|contradiction].
  reflexivity.
Qed.

Lemma authError_Respond (e : Js.error) :
  ∃ status error message, authError e = Respond status error message.
Proof.
  unfold authError.
  destruct (String.eqb (Js.name e) "JsonWebTokenError"); [eauto|].
  destruct (String.eqb (Js.name e) "TokenExpiredError"); eauto.
Qed.

Lemma authenticateToken_Next (st : Store) (authHeader : Js.value)
    (user : option RequestUser) :
  authenticateToken jwt_verify st authHeader = Next user →
  ∃ token decoded row,
    bearerToken authHeader = Some token ∧ token ≠ "" ∧
    jwt_verify token = Js.Ok decoded ∧
    findRowByValue st "Users" "id" (decoded_id decoded) = Js.Ok (Some row) ∧
    row !! "status" = Some "active" ∧
    user = Some (requestUser row
                   (if checkAdminStatus st (row !! "email")
                    then Some "admin" else row !! "role")).
Proof.
  unfold authenticateToken. intros Hnext.
  destruct (bearerToken authHeader) as [token|]; [|discriminate].
  destruct (Js.truthy (Some token)) eqn:Htruthy; [|discriminate].
  apply truthy_Some in Htruthy.
  destruct (jwt_verify token) as [decoded|e] eqn:Hverify; cbn [Js.bind Js.try_catch] in Hnext.
  - destruct (findRowByValue st "Users" "id" (decoded_id decoded))
      as [[row|]|e] eqn:Hfind; cbn [Js.bind Js.try_catch] in Hnext.
    + destruct (decide (row !! "status" = Some "active")) as [Hactive|];
        cbn [Js.try_catch] in Hnext; [|discriminate].
      injection Hnext as <-. exists token, decoded, row. auto 10.
    + discriminate.
    + destruct (authError_Respond e) as (? & ? & ? & Hr). rewrite Hr in Hnext.
      discriminate.
  - destruct (authError_Respond e) as (? & ? & ? & Hr). rewrite Hr in Hnext.
    discriminate.
Qed.

End WithJwt.

(** C1, as the code has it.  For a request whose token verifies and whose
    user row (looked up by the token's id in the current [Users] sheet) is
    active, [authenticateToken] lets the request through with the row's
    identity and a role computed from the store of that moment: "admin"
    when the row's address is not empty and the current [Admins] sheet holds
    an active row equal to it once both are lower-cased, the role stored on
    the user row otherwise.  Nothing of the token but its id enters the
    result: whatever else a verifier reads from the same token, the role
    embedded at issuance included, the outcome is the same. *)
Theorem effective_role_recomputed (jwt_verify : string -> Js.result Decoded)
    (st : Store) (authHeader : Js.value)
    (token : string) (decoded : Decoded) (user : RowObject) :
  bearerToken authHeader = Some token → token ≠ "" →
  jwt_verify token = Js.Ok decoded →
  findRowByValue st "Users" "id" (decoded_id decoded) = Js.Ok (Some user) →
  user !! "status" = Some "active" →
  ∃ requester,
    authenticateToken jwt_verify st authHeader = Next (Some requester) ∧
    id requester = user !! "id" ∧
    email requester = user !! "email" ∧
    ((∃ address, user !! "email" = Some address ∧ address ≠ "" ∧
                 allowlisted_in st address) →
     role requester = Some "admin") ∧
    (¬ (∃ address, user !! "email" = Some address ∧ address ≠ "" ∧
                   allowlisted_in st address) →
     role requester = user !! "role") ∧
    (∀ (verify' : string -> Js.result Decoded) decoded',
       verify' token = Js.Ok decoded' →
       decoded_id decoded' = decoded_id decoded →
       authenticateToken verify' st authHeader = Next (Some requester)).
Proof.
  intros Hbearer Htoken Hverify Huser Hactive.
  eexists. split; [exact (authenticateToken_valid jwt_verify st authHeader token
                            decoded user Hbearer Htoken Hverify Huser Hactive)|].
  split; [reflexivity|]. split; [reflexivity|].
  pose proof (checkAdminStatus_iff st (user !! "email")) as Hiff.
  split; [|split].
  - intros Hallow. cbn [role requestUser].
    rewrite (proj2 Hiff Hallow). reflexivity.
  - intros Hnot. cbn [role requestUser].
    destruct (checkAdminStatus st (user !! "email")); [|reflexivity].
    exfalso. apply Hnot, Hiff. reflexivity.
  - intros verify' decoded' Hverify' Hid.
    apply (authenticateToken_valid verify' st authHeader token decoded' user
             Hbearer Htoken Hverify'); [|exact Hactive].
    rewrite Hid. exact Huser.
Qed.

(** C3.  When the [Admins] sheet cannot be read, whatever the error,
    [checkAdminStatus] answers [false] for every argument, and a request
    with a valid token of an active user is let through with the role
    stored on the user row. *)
Theorem allowlist_unreadable_fail_open (jwt_verify : string -> Js.result Decoded)
    (st : Store) (err : Js.error) :
  getSheetData st "Admins" = Js.Throw err →
  (∀ address, checkAdminStatus st address = false) ∧
  (∀ authHeader token decoded user,
     bearerToken authHeader = Some token → token ≠ "" →
     jwt_verify token = Js.Ok decoded →
     findRowByValue st "Users" "id" (decoded_id decoded) = Js.Ok (Some user) →
     user !! "status" = Some "active" →
     ∃ requester,
       authenticateToken jwt_verify st authHeader = Next (Some requester) ∧
       role requester = user !! "role").
Proof.
  intros Hst. split.
  - intros address. exact (checkAdminStatus_unreadable st address err Hst).
  - intros authHeader token decoded user Hbearer Htoken Hverify Huser Hactive.
    eexists. split; [exact (authenticateToken_valid jwt_verify st authHeader token
                              decoded user Hbearer Htoken Hverify Huser Hactive)|].
    simpl. rewrite (checkAdminStatus_unreadable st _ err Hst). reflexivity.
Qed.

End WithStrings.

(** With a runtime that knows accented letters, the check folds them
    as it folds the others. *)
Example checkAdminStatus_accented :
  let st : Store := fun _ =>
    Js.Ok [["email"; "status"]; ["josé@x.com"; "active"]] in
  Js.toLowerCase (Strings := latin1_strings) "JOSÉ@x.com" = "josé@x.com" ∧
  checkAdminStatus (strings := latin1_strings) st (Some "JOSÉ@x.com") = true.
Proof. split; reflexivity. Qed.

(** C4 exercised: an address differing in case from an active allowlist
    row is an admin, as is the address in the row's own spelling. *)
Lemma checkAdminStatus_case_insensitive_witness :
  let st : Store := fun _ =>
    Js.Ok [["email"; "added_by"; "added_at"; "status"];
           ["boss@daxa.ai"; "system"; "2024-01-01"; "active"]] in
  checkAdminStatus st (Some "Boss@Daxa.AI") = checkAdminStatus st (Some "boss@daxa.ai") ∧
  checkAdminStatus st (Some "Boss@Daxa.AI") = true ∧
  checkAdminStatus (fun _ => Js.Ok [["email"; "status"]]) (Some "boss@daxa.ai") = false.
Proof.
  intros st.
  destruct (checkAdminStatus_case_insensitive (strings := ascii_strings))
    as (Hcase & Hiff & Hfalse).
  split; [apply Hcase; reflexivity|]. split.
  - apply (Hiff st _ "Boss@Daxa.AI" eq_refl). split; [discriminate|].
    exists ["boss@daxa.ai"; "system"; "2024-01-01"; "active"], "boss@daxa.ai".
    split; [simpl; left|]. repeat split.
  - apply Hfalse. right. exists [["email"; "status"]]. split; reflexivity.
Defined.

(** C4 as stated fails on the empty address: a row whose [email] cell
    is blank and whose status is [active] equals the empty address up to
    case, yet the check answers [false] because blank cells are skipped. *)
Lemma checkAdminStatus_blank_address :
  let admins : Grid := [["email"; "status"]; [""; "active"]] in
  let st : Store := fun _ => Js.Ok admins in
  allowlisted admins "" ∧
  checkAdminStatus st (Some "") = false ∧
  ¬ (∀ (st : Store) admins email,
       st "Admins" = Js.Ok admins →
       checkAdminStatus st (Some email) = true ↔ allowlisted admins email).
Proof.
  intros admins st.
  assert (Hallow : allowlisted admins "").
  { exists [""; "active"], "". split; [simpl; left|]. repeat split. }
  split; [exact Hallow|]. split; [reflexivity|].
  intros H. specialize (H st admins "" eq_refl).
  apply H in Hallow. discriminate Hallow.
Qed.

(** C1 exercised: the token issued while [u1] was a plain user resolves
    to "admin" once the allowlist holds an active row for the address. *)
Lemma effective_role_recomputed_witness :
  ∃ requester,
    authenticateToken example_verify example_store_allowlisted (Some "Bearer t0k3n")
    = Next (Some requester) ∧
    role requester = Some "admin" ∧
    ∃ earlier,
      authenticateToken example_verify example_store (Some "Bearer t0k3n")
      = Next (Some earlier) ∧
      role earlier = Some "user".
Proof.
  destruct (effective_role_recomputed example_verify example_store_allowlisted
              (Some "Bearer t0k3n") "t0k3n"
              {| decoded_id := Some "u1"; decoded_email := Some "a@x.com";
                 decoded_role := Some "user";
                 decoded_partnerId := Some "External Partner" |}
              (rowObject (header_row example_users)
                 ["u1"; "a@x.com"; "Ann"; "Lee"; "External Partner"; "user";
                  "active"; "2024-01-01T00:00:00.000Z"]))
    as (requester & Hnext & _ & _ & Hadmin & _).
  - reflexivity.
  - discriminate.
  - reflexivity.
  - reflexivity.
  - reflexivity.
  - exists requester. split; [exact Hnext|]. split.
    + apply Hadmin. exists "a@x.com". split; [reflexivity|]. split; [discriminate|].
      exists [["email"; "added_by"; "added_at"; "status"];
              ["A@X.com"; "system"; "2024-02-01T00:00:00.000Z"; "active"]].
      split; [reflexivity|].
      exists ["A@X.com"; "system"; "2024-02-01T00:00:00.000Z"; "active"], "A@X.com".
      split; [simpl; left|]. repeat split.
    + eexists. split; reflexivity.
Defined.

(** C1 as stated fails where the address is blank: the user row of a
    verified token carries an empty address, the allowlist holds an active
    row whose address is empty too, so the two match whatever the case, yet
    the request keeps the stored role because the check skips blank
    cells. *)
Lemma effective_role_blank_address :
  let st : Store := fun name =>
    if String.eqb name "Users" then
      Js.Ok [["id"; "email"; "role"; "status"]; ["u1"; ""; "user"; "active"]]
    else Js.Ok [["email"; "status"]; [""; "active"]] in
  allowlisted_in st "" ∧
  (∃ requester,
     authenticateToken example_verify st (Some "Bearer t0k3n") = Next (Some requester) ∧
     email requester = Some "" ∧
     role requester = Some "user") ∧
  ¬ (∀ (st : Store) authHeader token decoded user address,
       bearerToken authHeader = Some token → token ≠ "" →
       example_verify token = Js.Ok decoded →
       findRowByValue st "Users" "id" (decoded_id decoded) = Js.Ok (Some user) →
       user !! "status" = Some "active" →
       user !! "email" = Some address →
       allowlisted_in st address →
       ∃ requester,
         authenticateToken example_verify st authHeader = Next (Some requester) ∧
         role requester = Some "admin").
Proof.
  intros st.
  assert (Hallow : allowlisted_in st "").
  { exists [["email"; "status"]; [""; "active"]]. split; [reflexivity|].
    exists [""; "active"], "". split; [simpl; left|]. repeat split. }
  split; [exact Hallow|]. split.
  - eexists. split; [reflexivity|]. split; reflexivity.
  - intros H.
    destruct (H st (Some "Bearer t0k3n") "t0k3n"
                {| decoded_id := Some "u1"; decoded_email := Some "a@x.com";
                   decoded_role := Some "user";
                   decoded_partnerId := Some "External Partner" |}
                (rowObject ["id"; "email"; "role"; "status"]
                   ["u1"; ""; "user"; "active"])
                "" eq_refl ltac:(discriminate) eq_refl eq_refl eq_refl eq_refl Hallow)
      as (requester & Hnext & Hrole).
    injection Hnext as <-. discriminate Hrole.
Qed.

(** C3 exercised: with [Admins] unreadable the stored role is used. *)
Lemma allowlist_unreadable_fail_open_witness :
  let st : Store := fun name =>
    if String.eqb name "Users" then Js.Ok example_users
    else Js.Throw (Js.Error "Error" "The caller does not have permission") in
  checkAdminStatus st (Some "a@x.com") = false ∧
  ∃ requester,
    authenticateToken example_verify st (Some "Bearer t0k3n") = Next (Some requester) ∧
    role requester = Some "user".
Proof.
  intros st.
  destruct (allowlist_unreadable_fail_open example_verify st
              (Js.Error "Error" "The caller does not have permission") eq_refl)
    as [Hfalse Hrole].
  split; [apply Hfalse|].
  destruct (Hrole (Some "Bearer t0k3n") "t0k3n"
              {| decoded_id := Some "u1"; decoded_email := Some "a@x.com";
                 decoded_role := Some "user";
                 decoded_partnerId := Some "External Partner" |}
              (rowObject (header_row example_users)
                 ["u1"; "a@x.com"; "Ann"; "Lee"; "External Partner"; "user";
                  "active"; "2024-01-01T00:00:00.000Z"]))
    as (requester & Hnext & Hstored).
  - reflexivity.
  - discriminate.
  - reflexivity.
  - reflexivity.
  - reflexivity.
  - exists requester. split; [exact Hnext|]. rewrite Hstored. reflexivity.
Defined.

End Authorization.

(** ** Listing deals *)

Section Deals.
Import googleSheetsService dealController.

Lemma collectDeal_listed (user : option auth.RequestUser) (q : Query)
    (headers : list string) (deals : Grid) (dealRecords : list RowObject) (i : nat) :
  collectDeal user q headers deals dealRecords i
  = if listed user q (rowObject headers (row_at deals i))
    then dealRecords ++ [rowObject headers (row_at deals i)]
    else dealRecords.
Proof.
  unfold collectDeal, listed.
  destruct (canViewDeal user _); simpl; [|reflexivity].
  destruct (filteredOut (status q) _ _); simpl; [reflexivity|].
  destruct (filteredOut (partner q) _ _); reflexivity.
Qed.

(** The ownership test, case by case. *)
Lemma canViewDeal_admin (user : option auth.RequestUser) (deal : RowObject) :
  role_of user = Some "admin" → canViewDeal user deal = true.
Proof. intros Hadmin. unfold canViewDeal. rewrite (bool_decide_eq_true_2 _ Hadmin). reflexivity. Qed.

Lemma canViewDeal_owner (user : option auth.RequestUser) (deal : RowObject) :
  role_of user ≠ Some "admin" →
  canViewDeal user deal = true ↔ deal !! "submitter_email" = email_of user.
Proof.
  intros Hrole. unfold canViewDeal. rewrite (bool_decide_eq_false_2 _ Hrole). simpl.
  apply bool_decide_eq_true.
Qed.

Lemma canViewDeal_cases (user : option auth.RequestUser) (deal : RowObject) :
  canViewDeal user deal = true →
  role_of user = Some "admin" ∨ deal !! "submitter_email" = email_of user.
Proof.
  unfold canViewDeal. intros H. apply orb_true_iff in H as [H | H];
    apply bool_decide_eq_true in H; auto.
Qed.

(** [getDealById] applies the same test to the one deal it found. *)
Lemma getDealById_ownership (st : Store) (user : option auth.RequestUser)
    (id : Js.value) (deal : RowObject) :
  findRowByValue st "Deals" "id" id = Js.Ok (Some deal) →
  (role_of user = Some "admin" → getDealById st user id = DealRetrieved deal) ∧
  (role_of user ≠ Some "admin" →
   deal !! "submitter_email" = email_of user →
   getDealById st user id = DealRetrieved deal) ∧
  (role_of user ≠ Some "admin" →
   deal !! "submitter_email" ≠ email_of user →
   getDealById st user id = PermissionDenied).
Proof.
  intros Hfind. unfold getDealById. rewrite Hfind. cbn [Js.bind].
  split; [|split].
  - intros Hadmin. rewrite (canViewDeal_admin user deal Hadmin). reflexivity.
  - intros Hrole Hown.
    rewrite (proj2 (canViewDeal_owner user deal Hrole) Hown). reflexivity.
  - intros Hrole Hother.
    destruct (canViewDeal user deal) eqn:Hview; [|reflexivity].
    apply (canViewDeal_owner user deal Hrole) in Hview. contradiction.
Qed.

Lemma take_min_length {A} (xs : list A) (n : nat) :
  take (Nat.min (length xs) n) xs = take n xs.
Proof.
  destruct (Nat.le_gt_cases n (length xs)) as [Hle|Hgt].
  - rewrite Nat.min_r by exact Hle. reflexivity.
  - rewrite Nat.min_l by lia. rewrite !take_ge by lia. reflexivity.
Qed.

Section WithParseInt.
Variable parseInt : string -> option Z.

Lemma turns_limit (q : Query) (rows : list Row) (n : Z) :
  parsedLimit parseInt q = Some n →
  turns parseInt (S (length rows)) q = Nat.min (length rows) (Z.to_nat n).
Proof. intros Hn. unfold turns. rewrite Hn. lia. Qed.

Lemma getDeals_rows (st : Store) (user : option auth.RequestUser) (q : Query)
    (headers : Row) (rows : list Row) :
  st "Deals" = Js.Ok (headers :: rows) →
  response_deals (getDeals parseInt st user q)
  = Some (List.filter (listed user q)
            (map (rowObject headers)
               (take (turns parseInt (S (length rows)) q) rows))).
Proof.
  intros Hst. unfold getDeals, getSheetData. rewrite Hst.
  destruct rows as [|row rest].
  - simpl. rewrite take_nil. reflexivity.
  - cbn [Js.bind length Nat.leb Js.try_catch response_deals]. f_equal.
    set (n := turns parseInt _ q).
    assert (Hn : (n ≤ length (row :: rest))%nat).
    { unfold n, turns. destruct (parsedLimit parseInt q); simpl length; lia. }
    pose (step := fun (kept : list RowObject) (r : Row) =>
            if listed user q (rowObject headers r)
            then kept ++ [rowObject headers r] else kept).
    transitivity (foldl step [] (take n (row :: rest))).
    { etransitivity; [|exact (foldl_data step headers (row :: rest) n [] Hn)].
      apply foldl_pointwise. intros acc i. apply collectDeal_listed. }
    unfold step.
    rewrite (foldl_map (rowObject headers)
               (fun kept deal => if listed user q deal then kept ++ [deal] else kept)).
    rewrite foldl_keep. reflexivity.
Qed.

Lemma getDeals_limited (st : Store) (user : option auth.RequestUser) (q : Query)
    (headers : Row) (rows : list Row) (n : Z) :
  st "Deals" = Js.Ok (headers :: rows) →
  parsedLimit parseInt q = Some n →
  response_deals (getDeals parseInt st user q)
  = Some (List.filter (listed user q)
            (map (rowObject headers) (take (Z.to_nat n) rows))).
Proof.
  intros Hst Hn. rewrite (getDeals_rows st user q headers rows Hst).
  rewrite (turns_limit q rows n Hn), take_min_length. reflexivity.
Qed.

Lemma getDeals_listed (st : Store)
    (user : option auth.RequestUser) (q : Query) (deals : list RowObject)
    (deal : RowObject) :
  response_deals (getDeals parseInt st user q) = Some deals →
  deal ∈ deals → listed user q deal = true.
Proof.
  intros Hresp Hin.
  destruct (st "Deals") as [[|headers rows]|e] eqn:Hst.
  - unfold getDeals, getSheetData in Hresp. rewrite Hst in Hresp.
    injection Hresp as <-. inversion Hin.
  - rewrite (getDeals_rows st user q headers rows Hst) in Hresp.
    injection Hresp as <-. apply list_elem_of_In, filter_In in Hin as [_ H]. exact H.
  - unfold getDeals, getSheetData in Hresp. rewrite Hst in Hresp. discriminate.
Qed.

(** C9.  [getDeals] examines only the first [limit] data rows of the
    [Deals] sheet, and filters afterwards: the deals returned are those of
    the first [limit] data rows that pass the ownership test and the query
    filters, so every returned deal sits among the first [limit] data
    rows, and two sheets that agree on their first [limit] data rows get
    the same answer whatever follows, for every caller. *)
Theorem getDeals_limit_before_filter (st : Store) (user : option auth.RequestUser)
    (q : Query) (headers : Row) (rows : list Row) (n : Z) :
  st "Deals" = Js.Ok (headers :: rows) →
  parsedLimit parseInt q = Some n →
  ∃ deals,
    response_deals (getDeals parseInt st user q) = Some deals ∧
    deals = List.filter (listed user q)
              (map (rowObject headers) (take (Z.to_nat n) rows)) ∧
    (∀ deal, deal ∈ deals →
       ∃ k row, (Z.of_nat k < n)%Z ∧ rows !! k = Some row ∧
                deal = rowObject headers row) ∧
    (∀ (st' : Store) rows',
       st' "Deals" = Js.Ok (headers :: rows') →
       take (Z.to_nat n) rows' = take (Z.to_nat n) rows →
       response_deals (getDeals parseInt st' user q) = Some deals).
Proof.
  intros Hst Hn. eexists. split; [exact (getDeals_limited st user q headers rows n Hst Hn)|].
  split; [reflexivity|]. split.
  - intros deal Hin. apply list_elem_of_In, filter_In in Hin as [Hin _].
    apply in_map_iff in Hin as (row & <- & Hin).
    apply list_elem_of_In, list_elem_of_lookup in Hin as [k Hk].
    apply lookup_take_Some in Hk as [Hk Hlt].
    exists k, row. split; [lia|]. split; [exact Hk|reflexivity].
  - intros st' rows' Hst' Hsame.
    rewrite (getDeals_limited st' user q headers rows' n Hst' Hn), Hsame. reflexivity.
Qed.

(** C2, as the code has it.  With no status or partner filter and a
    limit that covers the sheet, [getDeals] always answers with a list of
    deals: every data row, unchanged and in order, for a caller whose role
    is "admin"; for any other caller exactly the rows whose
    [submitter_email] is [===] the caller's address.  A request without
    identity has no address, so it gets no row of a sheet that has a
    [submitter_email] column, and every row of a sheet that has none.
    [getDealById] gives the one deal it finds to an admin and to a caller
    whose address the deal carries, and denies it to any other. *)
Theorem getDeals_ownership (st : Store) (user : option auth.RequestUser)
    (q : Query) (headers : Row) (rows : list Row) (n : Z) :
  st "Deals" = Js.Ok (headers :: rows) →
  Js.truthy (status q) = false →
  Js.truthy (partner q) = false →
  parsedLimit parseInt q = Some n →
  (Z.of_nat (length rows) ≤ n)%Z →
  ∃ deals,
    response_deals (getDeals parseInt st user q) = Some deals ∧
    (role_of user = Some "admin" → deals = map (rowObject headers) rows) ∧
    (role_of user ≠ Some "admin" →
     deals = List.filter
               (fun deal => bool_decide (deal !! "submitter_email" = email_of user))
               (map (rowObject headers) rows)) ∧
    (user = None → "submitter_email" ∈ headers → deals = []) ∧
    (user = None → "submitter_email" ∉ headers →
     deals = map (rowObject headers) rows) ∧
    (∀ id deal,
       findRowByValue st "Deals" "id" id = Js.Ok (Some deal) →
       (role_of user = Some "admin" → getDealById st user id = DealRetrieved deal) ∧
       (role_of user ≠ Some "admin" →
        deal !! "submitter_email" = email_of user →
        getDealById st user id = DealRetrieved deal) ∧
       (role_of user ≠ Some "admin" →
        deal !! "submitter_email" ≠ email_of user →
        getDealById st user id = PermissionDenied)).
Proof.
  intros Hst Hstatus Hpartner Hn Hall.
  eexists. split; [exact (getDeals_limited st user q headers rows n Hst Hn)|].
  rewrite take_ge by lia.
  assert (Hlisted : ∀ deal, listed user q deal = canViewDeal user deal).
  { intros deal. unfold listed, filteredOut. rewrite Hstatus, Hpartner. simpl.
    rewrite !andb_true_r. reflexivity. }
  rewrite (filter_ext _ _ Hlisted).
  split; [|split; [|split; [|split]]].
  - intros Hadmin. apply filter_all. intros deal _.
    exact (canViewDeal_admin user deal Hadmin).
  - intros Hrole. apply filter_ext. intros deal. unfold canViewDeal.
    rewrite (bool_decide_eq_false_2 _ Hrole). reflexivity.
  - intros -> Hcolumn. apply filter_none. intros deal Hin.
    apply in_map_iff in Hin as (row & <- & _).
    unfold canViewDeal, role_of, email_of. simpl.
    destruct (rowObject_is_Some headers row "submitter_email" Hcolumn) as [v Hv];
      [discriminate|].
    rewrite Hv. reflexivity.
  - intros -> Hcolumn. apply filter_all. intros deal Hin.
    apply in_map_iff in Hin as (row & <- & _).
    unfold canViewDeal, role_of, email_of. simpl.
    rewrite (rowObject_absent headers row "submitter_email" Hcolumn). reflexivity.
  - intros id deal Hfind. exact (getDealById_ownership st user id deal Hfind).
Qed.

End WithParseInt.

End Deals.

(** C9 exercised: with [limit=1] the partner gets the first deal only,
    although the third deal is theirs too. *)
Lemma getDeals_limit_before_filter_witness :
  ∃ deals,
    dealController.response_deals
      (dealController.getDeals example_parseInt example_deal_store
         (Some example_partner) (no_filter (Some "1"))) = Some deals ∧
    deals = [googleSheetsService.rowObject example_deal_headers
               ["d1"; "submitted"; "Acme"; "acme.com"; "a@x.com"]].
Proof.
  destruct (getDeals_limit_before_filter example_parseInt example_deal_store
              (Some example_partner) (no_filter (Some "1"))
              example_deal_headers example_deal_rows 1 eq_refl eq_refl)
    as (deals & Hret & Hdeals & _).
  exists deals. split; [exact Hret|]. rewrite Hdeals. reflexivity.
Defined.

(** C2 exercised: without a limit in the query the partner gets exactly
    their own two deals. *)
Lemma getDeals_ownership_witness :
  ∃ deals,
    dealController.response_deals
      (dealController.getDeals example_parseInt example_deal_store
         (Some example_partner) (no_filter None)) = Some deals ∧
    deals = [googleSheetsService.rowObject example_deal_headers
               ["d1"; "submitted"; "Acme"; "acme.com"; "a@x.com"];
             googleSheetsService.rowObject example_deal_headers
               ["d3"; "approved"; "Initech"; "initech.com"; "a@x.com"]].
Proof.
  destruct (getDeals_ownership example_parseInt example_deal_store
              (Some example_partner) (no_filter None)
              example_deal_headers example_deal_rows 50
              eq_refl eq_refl eq_refl eq_refl ltac:(simpl; lia))
    as (deals & Hret & _ & Hown & _).
  exists deals. split; [exact Hret|].
  rewrite (Hown ltac:(discriminate)). reflexivity.
Defined.

(** C2 as stated fails for a request without identity on a sheet that has
    no [submitter_email] column: the deal objects have no such property, the
    request has no address, and [undefined === undefined] lets every row
    through. *)
Lemma getDeals_anonymous_without_column :
  let st : Store := fun _ => Js.Ok [["id"; "company_name"]; ["d1"; "Acme"]] in
  dealController.response_deals
    (dealController.getDeals example_parseInt st None (no_filter None))
  = Some [googleSheetsService.rowObject ["id"; "company_name"] ["d1"; "Acme"]] ∧
  dealController.getDealById st None (Some "d1")
  = dealController.DealRetrieved
      (googleSheetsService.rowObject ["id"; "company_name"] ["d1"; "Acme"]) ∧
  ¬ (∀ (st : Store) q headers rows,
       st "Deals" = Js.Ok (headers :: rows) →
       dealController.response_deals
         (dealController.getDeals example_parseInt st None q) = Some []).
Proof.
  intros st. split; [reflexivity|]. split; [reflexivity|].
  intros H.
  specialize (H st (no_filter None) ["id"; "company_name"] [["d1"; "Acme"]] eq_refl).
  discriminate H.
Qed.

(** ** The duplicate check *)

Section Duplicates.
Import googleSheetsService dealController dealRoutes.

Section WithStrings.
Context {strings : Js.Strings}.

Lemma collectDuplicate_strings (headers : list string) (company domain : string)
    (duplicates : list RowObject) (row : Row) :
  collectDuplicate headers (Js.indexOf "company_name" headers)
    (Js.indexOf "domain" headers) (Js.indexOf "status" headers)
    (Some company) (Some domain) (Js.Ok duplicates) row
  = Js.Ok (if duplicate_of headers company domain row
           then duplicates ++ [rowObject headers row] else duplicates).
Proof.
  unfold collectDuplicate, duplicate_of, cell_text, sameIgnoringCase. cbn [Js.bind].
  destruct (negb (String.eqb _ "rejected")); simpl; [|reflexivity].
  destruct (bool_decide (Js.toLowerCase (Js.or_empty
              (Js.at_index row (Js.indexOf "company_name" headers)))
            = Js.toLowerCase company)); simpl; [reflexivity|].
  destruct (bool_decide _); reflexivity.
Qed.

Lemma collect_duplicates (headers : list string) (company domain : string)
    (rows : list Row) (duplicates : list RowObject) :
  foldl (collectDuplicate headers (Js.indexOf "company_name" headers)
           (Js.indexOf "domain" headers) (Js.indexOf "status" headers)
           (Some company) (Some domain))
    (Js.Ok duplicates) rows
  = Js.Ok (duplicates ++ map (rowObject headers)
                           (List.filter (duplicate_of headers company domain) rows)).
Proof.
  revert duplicates. induction rows as [|row rest IH]; intros duplicates.
  - simpl. rewrite app_nil_r. reflexivity.
  - cbn [foldl List.filter]. rewrite collectDuplicate_strings.
    destruct (duplicate_of headers company domain row).
    + rewrite IH. cbn [map]. rewrite <- app_assoc. reflexivity.
    + apply IH.
Qed.

Lemma checkDuplicateDeals_rows (st : Store) (headers : Row) (rows : list Row)
    (company domain : string) :
  st "Deals" = Js.Ok (headers :: rows) →
  duplicates (checkDuplicateDeals st (Some company) (Some domain))
  = map (rowObject headers) (List.filter (duplicate_of headers company domain) rows).
Proof.
  intros Hst. unfold checkDuplicateDeals, getSheetData. rewrite Hst.
  destruct rows as [|row rest]; [reflexivity|].
  cbn [Js.bind length Nat.ltb Nat.leb].
  replace (S (S (length rest)) - 1)%nat with (length (row :: rest)) by (simpl; lia).
  rewrite (foldl_data
             (collectDuplicate headers (Js.indexOf "company_name" headers)
                (Js.indexOf "domain" headers) (Js.indexOf "status" headers)
                (Some company) (Some domain))
             headers (row :: rest) (length (row :: rest)) (Js.Ok []))
    by reflexivity.
  rewrite firstn_all, collect_duplicates. reflexivity.
Qed.

Lemma checkDuplicateDeals_flag (st : Store) (companyName domain : Js.value) :
  hasDuplicates (checkDuplicateDeals st companyName domain) = true ↔
  duplicates (checkDuplicateDeals st companyName domain) ≠ [].
Proof.
  unfold checkDuplicateDeals.
  destruct (getSheetData st "Deals") as [deals|e]; cbn [Js.bind].
  - match goal with
    | |- context [Js.bind ?r _] => destruct r as [[|d ds]|e]
    end; cbn; (split; [intros H; try discriminate H; try discriminate
                      | intros H; try reflexivity; exfalso; apply H; reflexivity]).
  - cbn. split; [discriminate|]. intros H. exfalso. apply H. reflexivity.
Qed.

Lemma checkDuplicateDeals_same_sheet (st st' : Store) (companyName domain : Js.value) :
  st "Deals" = st' "Deals" →
  checkDuplicateDeals st companyName domain = checkDuplicateDeals st' companyName domain.
Proof. intros Heq. unfold checkDuplicateDeals, getSheetData. rewrite Heq. reflexivity. Qed.

Lemma Forall2_carries (headers : list string) (rows : list Row) :
  Forall2 (carries headers) rows (map (rowObject headers) rows).
Proof.
  induction rows as [|row rest IH]; constructor; [apply rowObject_carries|exact IH].
Qed.


End WithStrings.


End Duplicates.

(** ** First login *)

Section FirstLogin.
Import googleSheetsService authService.

Lemma domainMappings_nonblank (domain company : string) :
  domainMappings !! domain = Some company → company ≠ "".
Proof.
  unfold domainMappings. cbn [list_to_map foldr fst snd uncurry].
  repeat (rewrite lookup_insert; case_decide; [intros [= <-]; discriminate|]).
  rewrite lookup_empty. discriminate.
Qed.

(** Reading the literal under a key that names no inherited member finds
    its own strings only. *)
Lemma get_own (literal : gmap string string) (key : string) :
  ¬ inherited_name key → Js.get literal key = Js.Data <$> literal !! key.
Proof.
  intros Hnot. unfold Js.get. destruct (literal !! key); [reflexivity|].
  destruct (String.eqb_spec key "__proto__") as [->|Hne].
  - exfalso. apply Hnot. left. reflexivity.
  - case_bool_decide as Hin; [|reflexivity].
    exfalso. apply Hnot. right. exact Hin.
Qed.

Lemma get_inherited (literal : gmap string string) (key : string) :
  literal !! key = None → inherited_name key →
  Js.get literal key = Some (if String.eqb key "__proto__" then Js.Prototype
                             else Js.Method key).
Proof.
  intros Hown Hin. unfold Js.get. rewrite Hown.
  destruct (String.eqb_spec key "__proto__") as [->|Hne]; [reflexivity|].
  destruct Hin as [->|Hin]; [contradiction|].
  rewrite (bool_decide_eq_true_2 _ Hin). reflexivity.
Qed.

Lemma domainMappings_not_inherited (key : string) :
  inherited_name key → domainMappings !! key = None.
Proof.
  intros [->|Hin]; [reflexivity|].
  apply list_elem_of_In in Hin. simpl in Hin.
  repeat (destruct Hin as [<-|Hin]; [reflexivity|]). destruct Hin.
Qed.

Section WithStrings.
Context {strings : Js.Strings}.

(** The key under which [getPartnerCompanyFromEmail] reads the domain
    table for an address. *)
Lemma getPartnerCompanyFromEmail_own (address : string) :
  ¬ inherited_name
      (Js.property_key (Js.toLowerCase <$> Js.split "@" address !! 1%nat)) →
  getPartnerCompanyFromEmail address
  = Js.Data (default "External Partner"
               (domainMappings
                  !! Js.property_key (Js.toLowerCase <$> Js.split "@" address !! 1%nat))).
Proof.
  intros Hnot. unfold getPartnerCompanyFromEmail. cbv zeta.
  rewrite (get_own _ _ Hnot).
  destruct (domainMappings !! _) as [company|] eqn:E; [|reflexivity].
  cbn. apply domainMappings_nonblank in E.
  destruct (String.eqb_spec company ""); [contradiction|reflexivity].
Qed.

Lemma getPartnerCompanyFromEmail_inherited (address : string) :
  inherited_name
    (Js.property_key (Js.toLowerCase <$> Js.split "@" address !! 1%nat)) →
  getPartnerCompanyFromEmail address
  = if String.eqb (Js.property_key (Js.toLowerCase <$> Js.split "@" address !! 1%nat))
         "__proto__"
    then Js.Prototype
    else Js.Method (Js.property_key (Js.toLowerCase <$> Js.split "@" address !! 1%nat)).
Proof.
  intros Hin. unfold getPartnerCompanyFromEmail. cbv zeta.
  rewrite (get_inherited _ _ (domainMappings_not_inherited _ Hin) Hin).
  destruct (String.eqb _ "__proto__"); reflexivity.
Qed.

Section WithJwt.
Context {service : Sheets.Service}.
Variable jwt_sign : TokenPayload -> string -> string.

Lemma session_of_row_sessionFor (issuedAt : string) (user : RowObject) :
  session_of_row jwt_sign issuedAt user (sessionFor jwt_sign issuedAt user).
Proof. repeat split. Qed.

Lemma googleLogin_existing (now issuedAt : string) (st : Store) (profile : Profile)
    (address : string) (user : RowObject) :
  profile_email profile = Some address → address ≠ "" →
  findRowByValue st "Users" "email" (Some address) = Js.Ok (Some user) →
  googleLogin jwt_sign now issuedAt st profile
  = (st, Js.Ok (sessionFor jwt_sign issuedAt user)).
Proof.
  intros Hemail Hne Hfind. unfold googleLogin. rewrite Hemail.
  rewrite (proj2 (truthy_Some address) Hne), Hfind. reflexivity.
Qed.

Lemma googleLogin_new (now issuedAt : string) (st : Store) (profile : Profile)
    (address : string) :
  profile_email profile = Some address → address ≠ "" →
  findRowByValue st "Users" "email" (Some address) = Js.Ok None →
  googleLogin jwt_sign now issuedAt st profile
  = match appendToSheet st "Users" (newUserRow now profile address) with
    | (st', Js.Throw e) => (st', authenticationFailed e)
    | (st', Js.Ok _) =>
        match findRowByValue st' "Users" "email" (Some address) with
        | Js.Throw e => (st', authenticationFailed e)
        | Js.Ok (Some user) => (st', Js.Ok (sessionFor jwt_sign issuedAt user))
        | Js.Ok None => (st', authenticationFailed (nullProperty "id"))
        end
    end.
Proof.
  intros Hemail Hne Hfind. unfold googleLogin. rewrite Hemail.
  rewrite (proj2 (truthy_Some address) Hne), Hfind. reflexivity.
Qed.

(** The row of a new user carries no object unless the domain of the
    address lower-cases to [__proto__]. *)
Lemma newUserRow_accepted (now : string) (profile : Profile) (address : string) :
  getPartnerCompanyFromEmail address ≠ Js.Prototype →
  existsb Sheets.is_object (newUserRow now profile address) = false.
Proof.
  intros Hcompany. unfold newUserRow. cbn [existsb].
  destruct (sub profile); cbn [Js.json_of_value Sheets.is_object orb];
    destruct (getPartnerCompanyFromEmail address); try reflexivity; contradiction.
Qed.

Lemma getPartnerCompanyFromEmail_Prototype (address : string) :
  Js.property_key (Js.toLowerCase <$> Js.split "@" address !! 1%nat) ≠ "__proto__" →
  getPartnerCompanyFromEmail address ≠ Js.Prototype.
Proof.
  intros Hkey. unfold getPartnerCompanyFromEmail, Js.get. cbv zeta.
  destruct (domainMappings !! _); [discriminate|].
  destruct (String.eqb_spec
              (Js.property_key (Js.toLowerCase <$> Js.split "@" address !! 1%nat))
              "__proto__"); [contradiction|].
  destruct (bool_decide _); discriminate.
Qed.

(** A first login on a sheet with a header whose second column is
    [email]: the row lands below the rows of the sheet, and the second
    lookup by address finds it. *)
Lemma googleLogin_appends (now issuedAt : string) (st : Store) (profile : Profile)
    (address : string) (headers : Row) (rows : list Row) :
  profile_email profile = Some address → address ≠ "" →
  st "Users" = Js.Ok (headers :: rows) →
  findRowByValue st "Users" "email" (Some address) = Js.Ok None →
  Js.indexOf "email" headers = Some 1%nat →
  Sheets.entered address = address →
  getPartnerCompanyFromEmail address ≠ Js.Prototype →
  ∃ st',
    appendToSheet st "Users" (newUserRow now profile address) = (st', Js.Ok tt) ∧
    st' = Sheets.with_row st "Users" (Sheets.visible (newUserRow now profile address)) ∧
    st' "Users"
    = Js.Ok (headers :: rows ++ [Sheets.visible (newUserRow now profile address)]) ∧
    findRowByValue st' "Users" "email" (Some address)
    = Js.Ok (Some (rowObject headers
                     (Sheets.visible (newUserRow now profile address)))) ∧
    googleLogin jwt_sign now issuedAt st profile
    = (st', Js.Ok (sessionFor jwt_sign issuedAt
                     (rowObject headers
                        (Sheets.visible (newUserRow now profile address))))).
Proof.
  intros Hemail Hne Hst Hfind Hindex Hkept Hcompany.
  pose proof (newUserRow_accepted now profile address Hcompany) as Hok.
  assert (Hcell : Sheets.visible (newUserRow now profile address) !! 1%nat
                  = Some address).
  { unfold Sheets.visible. apply withoutTrailingBlanks_Some; [|exact Hne].
    unfold newUserRow. cbn. rewrite Hkept. reflexivity. }
  destruct (appended_below st "Users" (newUserRow now profile address) headers rows
              Hst Hok) as (st' & Happend & Hst'eq & Hst').
  { intros Hnil. rewrite Hnil in Hcell. discriminate. }
  pose proof (findRowByValue_appended st st' "Users" "email" (Some address) headers
                (Sheets.visible (newUserRow now profile address)) rows 1
                Hst Hst' Hindex Hfind Hcell) as Hreread.
  exists st'. do 4 (split; [assumption|]).
  rewrite (googleLogin_new now issuedAt st profile address Hemail Hne Hfind).
  rewrite Happend, Hreread. reflexivity.
Qed.


End WithJwt.

End WithStrings.



End FirstLogin.

(** * Further properties of the code *)

(** ** The store *)

Section StoreComposition.
Import googleSheetsService.

(** X1.  Whatever [findRowByValue] returns is one of the objects
    [getAllRows] returns for the same sheet. *)
Theorem findRowByValue_among_all_rows (st : Store) (sheetName columnName : string)
    (searchValue : Js.value) (obj : RowObject) :
  findRowByValue st sheetName columnName searchValue = Js.Ok (Some obj) →
  ∃ objs, getAllRows st sheetName = Js.Ok objs ∧ obj ∈ objs.
Proof.
  intros Hfind.
  destruct (st sheetName) as [[|headers rows]|e] eqn:Hst;
    try (unfold findRowByValue, getSheetData in Hfind; rewrite Hst in Hfind;
         discriminate Hfind).
  destruct (Js.indexOf columnName headers) as [c|] eqn:Hc.
  - destruct (proj1 (findRowByValue_found st sheetName columnName searchValue
                       headers rows c obj Hst Hc) Hfind)
      as (k & row & (Hk & _ & _) & ->).
    assert (Hrows : rows ≠ []) by (intros ->; discriminate Hk).
    exists (map (rowObject headers) rows).
    split; [exact (getAllRows_data st sheetName headers rows Hst Hrows)|].
    apply list_elem_of_In, in_map, list_elem_of_In.
    eapply list_elem_of_lookup_2; eauto.
  - unfold findRowByValue, getSheetData in Hfind. rewrite Hst in Hfind.
    simpl in Hfind. rewrite Hc in Hfind. discriminate Hfind.
Qed.

Lemma findRowByValue_among_all_rows_witness :
  ∃ objs, getAllRows example_store "Users" = Js.Ok objs ∧
          rowObject (header_row example_users)
            ["u1"; "a@x.com"; "Ann"; "Lee"; "External Partner"; "user"; "active";
             "2024-01-01T00:00:00.000Z"] ∈ objs.
Proof.
  exact (findRowByValue_among_all_rows example_store "Users" "email"
           (Some "a@x.com") _ eq_refl).
Defined.

Lemma getAllRows_rows (st : Store) (sheetName : string) (headers : Row)
    (rows : list Row) :
  st sheetName = Js.Ok (headers :: rows) →
  getAllRows st sheetName = Js.Ok (map (rowObject headers) rows).
Proof.
  intros Hst. destruct rows as [|row rest].
  - exact (getAllRows_header_only st sheetName headers Hst).
  - apply (getAllRows_data st sheetName headers (row :: rest) Hst). discriminate.
Qed.

(** X25.  A sheet with fewer than two rows yields no row objects.  On a
    sheet with a header and at least one data row, [getAllRows] returns one
    object per data row, in order.  Each object carries its row: its keys
    are the column names of the header other than [__proto__], and the
    value under each name is a string, the cell under the last column of
    that name, or the empty string when that cell is missing or blank.
    When no column is named [__proto__], the keys are exactly the header's
    names. *)
Theorem getAllRows_shape (st : Store) (sheetName : string) (data : Grid) :
  st sheetName = Js.Ok data →
  ((length data < 2)%nat → getAllRows st sheetName = Js.Ok []) ∧
  (∀ headers rows, data = headers :: rows → rows ≠ [] →
     ∃ objs, getAllRows st sheetName = Js.Ok objs ∧
       Forall2 (carries headers) rows objs ∧
       ∀ k obj, objs !! k = Some obj →
         ∃ row, rows !! k = Some row ∧
           ("__proto__" ∉ headers → dom obj = list_to_set headers) ∧
           ∀ h, h ∈ headers → h ≠ "__proto__" →
             ∃ i cell, headers !! i = Some h ∧ obj !! h = Some cell ∧
               cell = default "" (row !! i) ∧
               (row !! i = None ∨ row !! i = Some "" → cell = "")).
Proof.
  intros Hst. split.
  - intros Hlen. unfold getAllRows, getSheetData. rewrite Hst. simpl.
    destruct (Nat.ltb_spec (length data) 2); [reflexivity|lia].
  - intros headers rows -> Hrows.
    exists (map (rowObject headers) rows).
    split; [exact (getAllRows_data _ _ _ _ Hst Hrows)|].
    split; [apply Forall2_carries|].
    intros k obj Hk.
    change (map (rowObject headers) rows) with (rowObject headers <$> rows) in Hk.
    rewrite list_lookup_fmap in Hk.
    destruct (rows !! k) as [row|] eqn:Hrow; [|discriminate].
    injection Hk as <-. exists row. split; [reflexivity|]. split.
    + intros Hnot. rewrite rowObject_dom, (own_columns_all headers Hnot). reflexivity.
    + intros h Hin Hproto.
      destruct (rowObject_elem headers row h Hin Hproto) as (i & Hi & Hv).
      exists i, (default "" (row !! i)). split; [exact Hi|]. split; [exact Hv|].
      split; [reflexivity|]. intros [-> | ->]; reflexivity.
Qed.

(** X25 exercised on a sheet whose only data row is shorter than the
    header. *)
Lemma getAllRows_shape_witness :
  let st : Store := fun _ => Js.Ok [["id"; "email"; "role"]; ["7"; ""]] in
  ∃ obj, getAllRows st "Users" = Js.Ok [obj] ∧
         dom obj = list_to_set ["id"; "email"; "role"] ∧
         obj !! "role" = Some "".
Proof.
  intros st.
  destruct (getAllRows_shape st "Users" _ eq_refl) as [_ H].
  destruct (H ["id"; "email"; "role"] [["7"; ""]] eq_refl ltac:(discriminate))
    as (objs & Hret & Hrows & Hobjs).
  apply Forall2_cons_inv_l in Hrows as (obj & rest & _ & Hrest & ->).
  apply Forall2_nil_inv_l in Hrest as ->.
  exists obj. split; [exact Hret|].
  destruct (Hobjs 0%nat obj eq_refl) as (row & [= <-] & Hdom & Hcells).
  split.
  - apply Hdom. intros Hin. apply list_elem_of_In in Hin. simpl in Hin.
    repeat (destruct Hin as [Hin|Hin]; [discriminate Hin|]). destruct Hin.
  - destruct (Hcells "role" ltac:(do 2 right; left) ltac:(discriminate))
      as (i & cell & Hi & Hobj & Hcell & _).
    rewrite Hobj, Hcell. f_equal.
    do 3 (destruct i as [|i]; [first [discriminate Hi | reflexivity]|]).
    reflexivity.
Defined.

Section WithService.
Context {service : Sheets.Service}.


End WithService.


End StoreComposition.

(** ** Who gets through the middleware *)

Section Middleware.
Import googleSheetsService auth.

Section WithStrings.
Context {strings : Js.Strings}.

(** X3.  A missing or blank address is never an admin, whatever the
    allowlist holds: [checkAdminStatus] answers [false] for [undefined]
    (the [TypeError] of lower-casing it is caught) and for the empty
    string (blank cells are skipped), in every store. *)
Theorem checkAdminStatus_no_address (st : Store) :
  checkAdminStatus st None = false ∧ checkAdminStatus st (Some "") = false.
Proof.
  split; [exact (checkAdminStatus_None st)|].
  destruct (st "Admins") as [admins|e] eqn:Hst.
  - destruct (checkAdminStatus st (Some "")) eqn:Hcheck; [|reflexivity].
    apply (checkAdminStatus_allowlisted st "" admins Hst) in Hcheck as [Hne _].
    contradiction.
  - exact (checkAdminStatus_unreadable st _ e Hst).
Qed.

Lemma active_row_for_visible (headers : list string) (address : string) :
  ¬ active_row_for headers address [].
Proof.
  intros (e & He & _). unfold Js.at_index in He.
  destruct (Js.indexOf "email" headers); discriminate He.
Qed.

Section WithService.
Context {service : Sheets.Service}.

Lemma appendToSheet_sheet (st : Store) (sheetName : string) (values : list Js.json)
    (headers : Row) (rows : list Row) :
  st sheetName = Js.Ok (headers :: rows) →
  (appendToSheet st sheetName values).1 sheetName
  = Js.Ok (headers :: rows ++
           (if existsb Sheets.is_object values then []
            else match Sheets.visible values with
                 | [] => []
                 | _ :: _ => [Sheets.visible values]
                 end)).
Proof.
  intros Hst. unfold appendToSheet, Sheets.append. rewrite Hst.
  destruct (existsb Sheets.is_object values); cbn [fst].
  - rewrite Hst, app_nil_r. reflexivity.
  - rewrite (with_row_same st sheetName _ _ Hst).
    destruct (Sheets.visible values); [rewrite app_nil_r|]; reflexivity.
Qed.

Lemma appendToSheet_elsewhere (st : Store) (sheetName name : string)
    (values : list Js.json) :
  name ≠ sheetName → (appendToSheet st sheetName values).1 name = st name.
Proof.
  intros Hne.
  destruct (appendToSheet st sheetName values) as [st1 r] eqn:Happend.
  exact (appendToSheet_other st st1 sheetName name values r Happend Hne).
Qed.

(** X4.  Appending a row to any sheet never takes admin status away, and
    gives it only through an active row for the address: on an [Admins]
    sheet with a header row, after [appendToSheet] the check answers [true]
    exactly when it did before, or the values went to [Admins], held no
    object, and what the sheet shows for them is an active row for the
    address. *)
Theorem checkAdminStatus_after_append (st : Store) (sheetName : string)
    (values : list Js.json) (address : string) (headers : Row) (rows : list Row) :
  st "Admins" = Js.Ok (headers :: rows) →
  checkAdminStatus (appendToSheet st sheetName values).1 (Some address) = true ↔
  checkAdminStatus st (Some address) = true ∨
  (sheetName = "Admins" ∧ existsb Sheets.is_object values = false ∧
   active_row_for headers address (Sheets.visible values)).
Proof.
  intros Hst.
  destruct (String.eqb_spec sheetName "Admins") as [->|Hother].
  - pose proof (appendToSheet_sheet st "Admins" values headers rows Hst) as Hst'.
    rewrite (checkAdminStatus_active_row _ address headers _ Hst'),
            (checkAdminStatus_active_row st address headers rows Hst).
    destruct (existsb Sheets.is_object values).
    + rewrite app_nil_r. split; [auto|].
      intros [H | (_ & Hno & _)]; [exact H|discriminate Hno].
    + destruct (Sheets.visible values) as [|cell cells] eqn:Hrow.
      * rewrite app_nil_r. split; [auto|].
        intros [H | (_ & _ & Hactive)]; [exact H|].
        destruct (active_row_for_visible headers address Hactive).
      * split.
        -- intros (row & Hin & Hactive). apply elem_of_app in Hin as [Hin | Hin].
           ++ left. eauto.
           ++ apply list_elem_of_singleton in Hin as ->. right. auto.
        -- intros [(row & Hin & Hactive) | (_ & _ & Hactive)].
           ++ exists row. split; [apply elem_of_app; left; exact Hin|exact Hactive].
           ++ eexists. split; [apply elem_of_app; right; left|exact Hactive].
  - rewrite (checkAdminStatus_same_sheet _ st (Some address)
               (appendToSheet_elsewhere st sheetName "Admins" values
                  (not_eq_sym Hother))).
    split; [auto|]. intros [H | [Heq _]]; [exact H|contradiction].
Qed.

End WithService.

Section WithJwt.
Variable jwt_verify : string -> Js.result Decoded.

(** X5.  [authenticateToken] hands a request on only with an identity,
    and only when the header carries a token that verifies and whose id
    finds an active row in the current [Users] sheet; the identity is that
    row's, and its role is "admin" only if the row's stored role is "admin"
    or the allowlist holds an active row for the row's address. *)
Theorem authenticateToken_sound (st : Store) (authHeader : Js.value)
    (user : option RequestUser) :
  authenticateToken jwt_verify st authHeader = Next user →
  ∃ token decoded row requester,
    user = Some requester ∧
    bearerToken authHeader = Some token ∧
    jwt_verify token = Js.Ok decoded ∧
    findRowByValue st "Users" "id" (decoded_id decoded) = Js.Ok (Some row) ∧
    row !! "status" = Some "active" ∧
    id requester = row !! "id" ∧
    email requester = row !! "email" ∧
    (role requester = Some "admin" →
     row !! "role" = Some "admin" ∨
     ∃ address, row !! "email" = Some address ∧ allowlisted_in st address).
Proof.
  intros Hnext.
  destruct (authenticateToken_Next jwt_verify st authHeader user Hnext)
    as (token & decoded & row & Hbearer & _ & Hverify & Hfind & Hactive & ->).
  exists token, decoded, row. eexists. split; [reflexivity|].
  do 4 (split; [assumption|]). split; [reflexivity|]. split; [reflexivity|].
  simpl. destruct (checkAdminStatus st (row !! "email")) eqn:Hcheck; [|auto].
  intros _. right.
  apply checkAdminStatus_iff in Hcheck as (address & Hemail & _ & Hallow).
  exists address. auto.
Qed.

(** X6.  The [Users] sheet is not fail-open: when it cannot be read
    (with an error that is not named like a token error), or has no [id]
    column, a request whose token verifies is answered with status 500 by
    [authenticateToken] and left without identity by [optionalAuth]. *)
Theorem users_unreadable_rejects (st : Store) (authHeader : Js.value)
    (token : string) (decoded : Decoded) :
  bearerToken authHeader = Some token → token ≠ "" →
  jwt_verify token = Js.Ok decoded →
  (∃ e, st "Users" = Js.Throw e ∧ Js.name e ≠ "JsonWebTokenError" ∧
        Js.name e ≠ "TokenExpiredError") ∨
  (∃ headers rows, st "Users" = Js.Ok (headers :: rows) ∧ "id" ∉ headers) →
  authenticateToken jwt_verify st authHeader
  = Respond 500 "Authentication error" "Failed to authenticate user" ∧
  optionalAuth jwt_verify st authHeader = None.
Proof.
  intros Hbearer Htoken Hverify Husers.
  assert (Hfind : ∃ e, findRowByValue st "Users" "id" (decoded_id decoded) = Js.Throw e ∧
                       Js.name e ≠ "JsonWebTokenError" ∧
                       Js.name e ≠ "TokenExpiredError").
  { destruct Husers as [(e & Hst & H1 & H2) | (headers & rows & Hst & Hid)].
    - exists e. split; [|auto]. unfold findRowByValue, getSheetData.
      rewrite Hst. reflexivity.
    - exists (columnNotFound "id" "Users").
      split; [exact (findRowByValue_missing_column _ _ _ _ _ _ Hst Hid)|].
      split; discriminate. }
  destruct Hfind as (e & Hfind & H1 & H2).
  unfold authenticateToken, optionalAuth. rewrite Hbearer.
  rewrite (proj2 (truthy_Some token) Htoken), Hverify. cbn [Js.bind].
  rewrite Hfind. cbn [Js.bind Js.try_catch]. split; [|reflexivity].
  unfold authError.
  destruct (String.eqb_spec (Js.name e) "JsonWebTokenError"); [contradiction|].
  destruct (String.eqb_spec (Js.name e) "TokenExpiredError"); [contradiction|].
  reflexivity.
Qed.

(** X7.  [optionalAuth] attaches an identity exactly when
    [authenticateToken] would let the same request through, and then with
    the same id, address, role and names; whenever [authenticateToken]
    would answer the request itself, [optionalAuth] leaves it anonymous. *)
Theorem optionalAuth_agrees (st : Store) (authHeader : Js.value) :
  match authenticateToken jwt_verify st authHeader with
  | Next (Some requester) =>
      ∃ attached,
        optionalAuth jwt_verify st authHeader = Some attached ∧
        id attached = id requester ∧
        email attached = email requester ∧
        role attached = role requester ∧
        firstName attached = firstName requester ∧
        lastName attached = lastName requester ∧
        partnerName attached = partnerName requester
  | Next None => False
  | Respond _ _ _ => optionalAuth jwt_verify st authHeader = None
  end.
Proof.
  unfold authenticateToken, optionalAuth.
  destruct (bearerToken authHeader) as [token|]; [|reflexivity].
  destruct (Js.truthy (Some token)); [|reflexivity].
  destruct (jwt_verify token) as [decoded|e]; cbn [Js.bind Js.try_catch].
  - destruct (findRowByValue st "Users" "id" (decoded_id decoded)) as [[row|]|e];
      cbn [Js.bind Js.try_catch].
    + destruct (decide (row !! "status" = Some "active")); cbn [Js.try_catch].
      * eexists. split; [reflexivity|]. repeat split.
      * reflexivity.
    + reflexivity.
    + destruct (authError_Respond e) as (? & ? & ? & ->). reflexivity.
  - destruct (authError_Respond e) as (? & ? & ? & ->). reflexivity.
Qed.

End WithJwt.

End WithStrings.

(** X4 exercised: the row [POST /add] writes makes its address an admin. *)
Lemma checkAdminStatus_after_append_witness :
  checkAdminStatus example_store (Some "A@x.com") = false ∧
  checkAdminStatus
    (appendToSheet example_store "Admins"
       [Js.Text "a@x.com"; Js.Text "system"; Js.Text "2024-02-01T00:00:00.000Z";
        Js.Text "active"]).1
    (Some "A@x.com") = true.
Proof.
  split; [reflexivity|].
  apply (checkAdminStatus_after_append example_store "Admins" _ "A@x.com"
           ["email"; "added_by"; "added_at"; "status"] [] eq_refl).
  right. split; [reflexivity|]. split; [reflexivity|].
  exists "a@x.com". repeat split. discriminate.
Defined.

(** X5 exercised on the sample store. *)
Lemma authenticateToken_sound_witness :
  ∃ requester,
    authenticateToken example_verify example_store (Some "Bearer t0k3n")
    = Next (Some requester) ∧
    email requester = Some "a@x.com".
Proof.
  destruct (authenticateToken_sound example_verify example_store
              (Some "Bearer t0k3n") _ eq_refl)
    as (token & decoded & row & requester & Huser & _).
  exists requester. injection Huser as <-. split; reflexivity.
Defined.

(** X6 exercised: every sheet unreadable. *)
Lemma users_unreadable_rejects_witness :
  let st : Store := fun _ => Js.Throw (Js.Error "Error" "socket hang up") in
  authenticateToken example_verify st (Some "Bearer t0k3n")
  = Respond 500 "Authentication error" "Failed to authenticate user".
Proof.
  intros st.
  apply (users_unreadable_rejects example_verify st (Some "Bearer t0k3n") "t0k3n"
           {| decoded_id := Some "u1"; decoded_email := Some "a@x.com";
              decoded_role := Some "user";
              decoded_partnerId := Some "External Partner" |}
           eq_refl ltac:(discriminate) eq_refl).
  left. exists (Js.Error "Error" "socket hang up").
  split; [reflexivity|]. split; discriminate.
Defined.

End Middleware.

(** ** Managing the allowlist *)

Section Allowlist.
Import googleSheetsService auth adminRoutes.

Lemma addAdmin_denied {strings : Js.Strings} {service : Sheets.Service}
    (currentTime : string) (st : Store) (user : option RequestUser)
    (email : Js.value) :
  dealController.role_of user ≠ Some "admin" →
  addAdmin currentTime st user email = (st, AccessDenied).
Proof.
  intros Hnot. unfold addAdmin. rewrite (bool_decide_eq_false_2 _ Hnot). reflexivity.
Qed.

Lemma listAdmins_rows (st : Store) (user : option RequestUser)
    (headers : Row) (rows : list Row) :
  dealController.role_of user = Some "admin" →
  st "Admins" = Js.Ok (headers :: rows) →
  response_admins (listAdmins st user)
  = Some (List.filter (fun admin => bool_decide (admin !! "status" = Some "active"))
            (map (rowObject headers) rows)).
Proof.
  intros Hadmin Hst. unfold listAdmins. rewrite (bool_decide_eq_true_2 _ Hadmin).
  cbn [negb]. unfold getSheetData. rewrite Hst.
  destruct rows as [|row rest]; [reflexivity|].
  cbn [length Nat.leb response_admins]. f_equal.
  change (row_at (headers :: row :: rest) 0) with headers.
  replace (S (S (length rest)) - 1)%nat with (length (row :: rest)) by (simpl; lia).
  pose (step := fun (found : list RowObject) (r : Row) =>
          if bool_decide (rowObject headers r !! "status" = Some "active")
          then found ++ [rowObject headers r] else found).
  transitivity (foldl step [] (take (length (row :: rest)) (row :: rest))).
  { etransitivity;
      [|exact (foldl_data step headers (row :: rest) (length (row :: rest)) []
                 (le_n _))].
    reflexivity. }
  rewrite firstn_all.
  exact (foldl_keep_map (rowObject headers)
           (fun admin => bool_decide (admin !! "status" = Some "active"))
           (row :: rest) []).
Qed.

Section WithStrings.
Context {strings : Js.Strings}.

Section WithService.
Context {service : Sheets.Service}.

Lemma sameAdmin_spec (emailIndex : option nat) (adminEmail : string) (row : Row) :
  sameAdmin emailIndex adminEmail row = true ↔
  ∃ e, Js.at_index row emailIndex = Some e ∧ e ≠ "" ∧ Js.toLowerCase e = adminEmail.
Proof.
  unfold sameAdmin. destruct (Js.at_index row emailIndex) as [e|]; simpl.
  - destruct (String.eqb_spec e "") as [->|Hne]; simpl.
    + split; [discriminate|]. intros (e & [= <-] & Hne & _). contradiction.
    + rewrite bool_decide_eq_true. split.
      * intros [= Hl]. eauto.
      * intros (e' & [= <-] & _ & Hl). congruence.
  - split; [discriminate|]. intros (e & [=] & _).
Qed.

Lemma visible_Some (values : list Js.json) (i : nat) (v : string) :
  values !! i = Some (Js.Text v) → Sheets.entered v = v → v ≠ "" →
  Sheets.visible values !! i = Some v.
Proof.
  intros Hi Hkept Hne. unfold Sheets.visible.
  apply withoutTrailingBlanks_Some; [|exact Hne].
  etransitivity; [exact (list_lookup_fmap Sheets.shown values i)|].
  rewrite Hi. cbn. rewrite Hkept. reflexivity.
Qed.

Lemma newAdminData_accepted (adminEmail : string) (user : option RequestUser)
    (currentTime : string) :
  existsb Sheets.is_object (newAdminData adminEmail user currentTime) = false.
Proof. reflexivity. Qed.

Lemma addAdmin_readable (currentTime : string) (st : Store)
    (user : option RequestUser) (text : string) (headers : Row) (rows : list Row) :
  dealController.role_of user = Some "admin" →
  text ≠ "" → Js.trim text ≠ "" →
  st "Admins" = Js.Ok (headers :: rows) →
  addAdmin currentTime st user (Some text)
  = match first_return
            (fun row => if sameAdmin (Js.indexOf "email" headers)
                             (Js.toLowerCase (Js.trim text)) row
                        then Some tt else None) rows with
    | Some _ => (st, AdminExists)
    | None =>
        (Sheets.with_row st "Admins"
           (Sheets.visible
              (newAdminData (Js.toLowerCase (Js.trim text)) user currentTime)),
         AdminAdded (Js.toLowerCase (Js.trim text)) (dealController.email_of user)
           currentTime)
    end.
Proof.
  intros Hadmin Htext Htrim Hst. unfold addAdmin.
  rewrite (bool_decide_eq_true_2 _ Hadmin).
  rewrite (proj2 (truthy_Some text) Htext), (proj2 (truthy_Some _) Htrim).
  cbn [negb orb]. unfold getSheetData. rewrite Hst. cbn [Js.try_catch].
  change (row_at (headers :: rows) 0) with headers.
  replace (length (headers :: rows) - 1)%nat with (length rows) by (simpl; lia).
  rewrite (for_return_data
             (fun row => if sameAdmin (Js.indexOf "email" headers)
                              (Js.toLowerCase (Js.trim text)) row
                         then Some tt else None) headers rows).
  destruct (first_return _ rows); [reflexivity|].
  rewrite (appendToSheet_accepted st "Admins" _ _ Hst (newAdminData_accepted _ _ _)).
  reflexivity.
Qed.

Lemma addAdmin_empty (currentTime : string) (st : Store)
    (user : option RequestUser) (text : string) :
  dealController.role_of user = Some "admin" →
  text ≠ "" → Js.trim text ≠ "" →
  st "Admins" = Js.Ok [] →
  addAdmin currentTime st user (Some text)
  = (Sheets.with_row
       (Sheets.with_row st "Admins" (Sheets.visible (Js.Text <$> adminColumns)))
       "Admins"
       (Sheets.visible
          (newAdminData (Js.toLowerCase (Js.trim text)) user currentTime)),
     AdminAdded (Js.toLowerCase (Js.trim text)) (dealController.email_of user)
       currentTime).
Proof.
  intros Hadmin Htext Htrim Hst. unfold addAdmin.
  rewrite (bool_decide_eq_true_2 _ Hadmin).
  rewrite (proj2 (truthy_Some text) Htext), (proj2 (truthy_Some _) Htrim).
  cbn [negb orb]. unfold getSheetData. rewrite Hst. cbn [Js.try_catch].
  rewrite (appendToSheet_accepted st "Admins" _ _ Hst (texts_accepted adminColumns)).
  cbn [length Nat.sub Js.for_return].
  rewrite (appendToSheet_accepted _ "Admins" _ _
             (with_row_same st "Admins" _ [] Hst) (newAdminData_accepted _ _ _)).
  reflexivity.
Qed.

(** What a success of [addAdmin] tells about the request. *)
Lemma addAdmin_added (currentTime : string) (st st' : Store)
    (user : option RequestUser) (email : Js.value) (e : string)
    (by_ : Js.value) (at_ : string) :
  addAdmin currentTime st user email = (st', AdminAdded e by_ at_) →
  dealController.role_of user = Some "admin" ∧
  ∃ text, email = Some text ∧ text ≠ "" ∧ Js.trim text ≠ "" ∧
          e = Js.toLowerCase (Js.trim text).
Proof.
  unfold addAdmin. intros Hadd.
  destruct (decide (dealController.role_of user = Some "admin")) as [Hadmin|Hnot].
  2:{ rewrite (bool_decide_eq_false_2 _ Hnot) in Hadd. discriminate. }
  split; [exact Hadmin|]. rewrite (bool_decide_eq_true_2 _ Hadmin) in Hadd.
  cbn [negb] in Hadd. destruct email as [text|]; [|discriminate].
  destruct (Js.truthy (Some text)) eqn:Ht; [|discriminate].
  destruct (Js.truthy (Some (Js.trim text))) eqn:Htr; [|discriminate].
  cbn [negb orb] in Hadd.
  exists text. split; [reflexivity|]. apply truthy_Some in Ht, Htr.
  split; [exact Ht|]. split; [exact Htr|].
  destruct (Js.try_catch (getSheetData st "Admins") (fun _ => [])) as [|h t].
  - destruct (appendToSheet st "Admins" (Js.Text <$> adminColumns))
      as [st1 [[]|err]]; [|discriminate].
    destruct (Js.for_return _ 1 _); [discriminate|].
    destruct (appendToSheet st1 "Admins" _) as [st2 [[]|err]]; [|discriminate].
    congruence.
  - destruct (Js.for_return _ 1 _); [discriminate|].
    destruct (appendToSheet st "Admins" _) as [st2 [[]|err]]; [|discriminate].
    congruence.
Qed.

Lemma visible_adminColumns :
  Forall (fun header => Sheets.entered header = header) adminColumns →
  Sheets.visible (Js.Text <$> adminColumns) = adminColumns.
Proof.
  intros Hkept. unfold adminColumns in *.
  apply Forall_cons in Hkept as [H1 Hkept]. apply Forall_cons in Hkept as [H2 Hkept].
  apply Forall_cons in Hkept as [H3 Hkept]. apply Forall_cons in Hkept as [H4 _].
  unfold Sheets.visible. cbn [fmap list_fmap map Sheets.shown].
  rewrite H1, H2, H3, H4. reflexivity.
Qed.

(** X8.  Round trip of the allowlist: after [POST /add] has answered
    with success, naming the address it stored, [checkAdminStatus] answers
    [true] for every address that lower-cases to the same text as the
    stored one.  The stored address is the submitted text, trimmed and
    lower-cased by the runtime.  This holds when the [Admins] sheet was
    empty (the handler then writes its own header) or has [email] as its
    first and [status] as its fourth column, which is how the handler lays
    the row out, and when the sheet shows the stored address, the word
    [active] and, on an empty sheet, the four column names as they were
    typed. *)
Theorem addAdmin_grants (currentTime : string) (st st' : Store)
    (user : option RequestUser) (text e : string) (by_ : Js.value) (at_ : string)
    (admins : Grid) :
  addAdmin currentTime st user (Some text) = (st', AdminAdded e by_ at_) →
  st "Admins" = Js.Ok admins →
  (admins = [] ∧ Forall (fun header => Sheets.entered header = header) adminColumns) ∨
  (Js.indexOf "email" (header_row admins) = Some 0%nat ∧
   Js.indexOf "status" (header_row admins) = Some 3%nat) →
  Sheets.entered e = e → Sheets.entered "active" = "active" →
  e = Js.toLowerCase (Js.trim text) ∧
  ∀ address, Js.toLowerCase address = Js.toLowerCase e →
             checkAdminStatus st' (Some address) = true.
Proof.
  intros Hadd Hst Hlayout Hkept Hactive.
  destruct (addAdmin_added _ _ _ _ _ _ _ _ Hadd)
    as (Hadmin & text' & [= <-] & Htext & Htrim & He).
  split; [exact He|]. intros address Hl.
  assert (Hblank : e ≠ "").
  { rewrite He. intros H. apply Htrim. apply Js.toLowerCase_empty. exact H. }
  set (row := Sheets.visible (newAdminData e user currentTime)).
  assert (Hrow : ∀ headers, Js.indexOf "email" headers = Some 0%nat →
                 Js.indexOf "status" headers = Some 3%nat →
                 active_row_for headers address row).
  { intros headers Hei Hsi. exists e. rewrite Hei, Hsi.
    split; [exact (visible_Some (newAdminData e user currentTime) 0 e eq_refl
                     Hkept Hblank)|].
    split; [exact Hblank|].
    split; [exact (visible_Some (newAdminData e user currentTime) 3 "active" eq_refl
                     Hactive ltac:(discriminate))|].
    symmetry. exact Hl. }
  assert (Hsome : row ≠ []).
  { intros Hnil. pose proof (visible_Some (newAdminData e user currentTime) 0 e
                               eq_refl Hkept Hblank) as H0.
    fold row in H0. rewrite Hnil in H0. discriminate H0. }
  destruct admins as [|headers rows].
  - destruct Hlayout as [[_ Hheader] | [Hei _]]; [|discriminate Hei].
    rewrite (addAdmin_empty currentTime st user text Hadmin Htext Htrim Hst) in Hadd.
    injection Hadd as <- _. rewrite <- He. fold row.
    change [Js.Text "email"; Js.Text "added_by"; Js.Text "added_at"; Js.Text "status"]
      with (Js.Text <$> adminColumns).
    rewrite (visible_adminColumns Hheader).
    apply (checkAdminStatus_active_row _ address adminColumns [row]).
    + rewrite (with_row_same _ "Admins" row [adminColumns]
                 (with_row_same st "Admins" adminColumns [] Hst)).
      destruct (below_cases [adminColumns] row) as [[Hnil _]|[_ ->]];
        [contradiction|reflexivity].
    + exists row. split; [left|]. apply Hrow; reflexivity.
  - destruct Hlayout as [[[=] _] | [Hei Hsi]].
    change (header_row (headers :: rows)) with headers in Hei, Hsi.
    rewrite (addAdmin_readable currentTime st user text headers rows
               Hadmin Htext Htrim Hst) in Hadd.
    destruct (first_return _ rows); [discriminate|]. injection Hadd as <- _.
    rewrite <- He. fold row.
    apply (checkAdminStatus_active_row _ address headers (rows ++ [row])).
    + rewrite (with_row_same st "Admins" row _ Hst).
      destruct (below_cases (headers :: rows) row) as [[Hnil _]|[_ ->]];
        [contradiction|reflexivity].
    + exists row. split; [apply elem_of_app; right; left|]. apply Hrow; assumption.
Qed.

(** X9.  [POST /add] refuses an address that some row of the sheet
    already carries, whatever that row's status: when the submitted text,
    trimmed and lower-cased by the runtime, equals the lower-cased address
    of a row, the answer is the conflict response and the store is left as
    it was.  An address whose row is not [active] therefore stays without
    admin status after the request. *)
Theorem addAdmin_refuses_listed (currentTime : string) (st : Store)
    (user : option RequestUser) (text : string) (headers : Row) (rows : list Row)
    (row : Row) (e : string) :
  dealController.role_of user = Some "admin" →
  text ≠ "" → Js.trim text ≠ "" →
  st "Admins" = Js.Ok (headers :: rows) →
  row ∈ rows →
  Js.at_index row (Js.indexOf "email" headers) = Some e → e ≠ "" →
  Js.toLowerCase e = Js.toLowerCase (Js.trim text) →
  addAdmin currentTime st user (Some text) = (st, AdminExists).
Proof.
  intros Hadmin Htext Htrim Hst Hin He Hne Hl.
  rewrite (addAdmin_readable currentTime st user text headers rows
             Hadmin Htext Htrim Hst).
  destruct (first_return _ rows) eqn:E; [reflexivity|].
  pose proof (proj1 (first_return_None _ _) E row Hin) as Hbody. simpl in Hbody.
  rewrite (proj2 (sameAdmin_spec _ _ row)) in Hbody; [discriminate|]. eauto.
Qed.

Lemma addAdmin_other_sheets (currentTime : string) (st : Store)
    (user : option RequestUser) (email : Js.value) (name : string) :
  name ≠ "Admins" → (addAdmin currentTime st user email).1 name = st name.
Proof.
  intros Hne. unfold addAdmin.
  destruct (bool_decide (dealController.role_of user = Some "admin")); [|reflexivity].
  cbn [negb]. destruct email as [text|]; [|reflexivity].
  destruct (negb (Js.truthy (Some text)) || negb (Js.truthy (Some (Js.trim text))));
    [reflexivity|].
  destruct (Js.try_catch (getSheetData st "Admins") (fun _ => [])) as [|h t].
  - destruct (appendToSheet st "Admins" (Js.Text <$> adminColumns))
      as [st1 [[]|err]] eqn:E1;
      [|exact (appendToSheet_other _ _ _ _ _ _ E1 Hne)].
    destruct (Js.for_return _ 1 _); [exact (appendToSheet_other _ _ _ _ _ _ E1 Hne)|].
    destruct (appendToSheet st1 "Admins" _) as [st2 [[]|err]] eqn:E2; simpl;
      rewrite (appendToSheet_other _ _ _ _ _ _ E2 Hne);
      exact (appendToSheet_other _ _ _ _ _ _ E1 Hne).
  - destruct (Js.for_return _ 1 _); [reflexivity|].
    destruct (appendToSheet st "Admins" _) as [st2 [[]|err]] eqn:E2; simpl;
      exact (appendToSheet_other _ _ _ _ _ _ E2 Hne).
Qed.

Section WithJwt.
Variable jwt_verify : string -> Js.result Decoded.

(** X10.  Only administrators extend the allowlist: a request to
    [POST /add] changes no sheet but [Admins], and changes [Admins] only
    if its token verifies and belongs to an active user whose stored role
    is "admin" or whose address the allowlist already holds an active row
    for. *)
Theorem postAdd_only_admins (currentTime : string) (st : Store)
    (authHeader email : Js.value) :
  (∀ name, name ≠ "Admins" →
     (postAdd jwt_verify currentTime st authHeader email).1 name = st name) ∧
  ((postAdd jwt_verify currentTime st authHeader email).1 "Admins" ≠ st "Admins" →
   ∃ token decoded row,
     bearerToken authHeader = Some token ∧
     jwt_verify token = Js.Ok decoded ∧
     findRowByValue st "Users" "id" (decoded_id decoded) = Js.Ok (Some row) ∧
     row !! "status" = Some "active" ∧
     (row !! "role" = Some "admin" ∨
      ∃ address, row !! "email" = Some address ∧ allowlisted_in st address)).
Proof.
  unfold postAdd.
  destruct (authenticateToken jwt_verify st authHeader) as [user|? ? ?] eqn:Hauth.
  2:{ split; [reflexivity|]. intros H. contradiction. }
  destruct (addAdmin currentTime st user email) as [st' response] eqn:Hadd.
  split.
  - intros name Hne.
    pose proof (addAdmin_other_sheets currentTime st user email name Hne) as H.
    rewrite Hadd in H. exact H.
  - simpl. intros Hchanged.
    destruct (authenticateToken_Next jwt_verify st authHeader user Hauth)
      as (token & decoded & row & Hbearer & _ & Hverify & Hfind & Hactive & ->).
    exists token, decoded, row. do 4 (split; [assumption|]).
    destruct (decide (dealController.role_of
                        (Some (requestUser row
                                 (if checkAdminStatus st (row !! "email")
                                  then Some "admin" else row !! "role")))
                      = Some "admin")) as [Hadmin|Hnot].
    + simpl in Hadmin.
      destruct (checkAdminStatus st (row !! "email")) eqn:Hcheck; [|auto].
      right. apply checkAdminStatus_iff in Hcheck as (address & Hemail & _ & Hallow).
      exists address. auto.
    + rewrite (addAdmin_denied currentTime st _ email Hnot) in Hadd.
      injection Hadd as <- _. contradiction.
Qed.

End WithJwt.

End WithService.

(** X11.  The list of admins and the admin check read the allowlist
    alike: on an [Admins] sheet whose header names are distinct,
    [checkAdminStatus] answers [true] for an address exactly when
    [GET /list] shows an administrator an entry whose address is not blank
    and lower-cases to the same text. *)
Theorem listAdmins_matches_check (st : Store) (user : option RequestUser)
    (address : string) (headers : Row) (rows : list Row) :
  dealController.role_of user = Some "admin" →
  st "Admins" = Js.Ok (headers :: rows) →
  NoDup headers →
  ∃ admins,
    response_admins (listAdmins st user) = Some admins ∧
    (checkAdminStatus st (Some address) = true ↔
     ∃ admin e, admin ∈ admins ∧ admin !! "email" = Some e ∧ e ≠ "" ∧
                Js.toLowerCase e = Js.toLowerCase address).
Proof.
  intros Hadmin Hst Hnd. eexists.
  split; [exact (listAdmins_rows st user headers rows Hadmin Hst)|].
  rewrite (checkAdminStatus_active_row st address headers rows Hst). split.
  - intros (row & Hin & e & He & Hne & Hs & Hl).
    exists (rowObject headers row), e. split.
    + apply list_elem_of_In, filter_In. split.
      * apply in_map, list_elem_of_In. exact Hin.
      * apply bool_decide_eq_true.
        apply (rowObject_nonblank headers row "status" "active" Hnd);
          [discriminate|discriminate|].
        exact Hs.
    + split; [|auto].
      apply (rowObject_nonblank headers row "email" e Hnd); [discriminate|exact Hne|].
      exact He.
  - intros (admin & e & Hin & He & Hne & Hl).
    apply list_elem_of_In, filter_In in Hin as [Hin Hactive].
    apply in_map_iff in Hin as (row & <- & Hin).
    apply bool_decide_eq_true in Hactive.
    exists row. split; [apply list_elem_of_In; exact Hin|]. exists e.
    split.
    { apply (rowObject_nonblank headers row "email" e Hnd); [discriminate|exact Hne|].
      exact He. }
    split; [exact Hne|]. split; [|exact Hl].
    apply (rowObject_nonblank headers row "status" "active" Hnd);
      [discriminate|discriminate|].
    exact Hactive.
Qed.

End WithStrings.

(** X8 exercised: an address added with blanks and capitals is an admin
    in any casing afterwards. *)
Lemma addAdmin_grants_witness :
  checkAdminStatus
    (addAdmin "2024-02-01T00:00:00.000Z" example_store (Some example_admin)
       (Some "  A@X.com ")).1
    (Some "a@X.COM") = true.
Proof.
  assert (Hadd : addAdmin "2024-02-01T00:00:00.000Z" example_store
                   (Some example_admin) (Some "  A@X.com ")
                 = ((addAdmin "2024-02-01T00:00:00.000Z" example_store
                       (Some example_admin) (Some "  A@X.com ")).1,
                    AdminAdded "a@x.com" (Some "root@daxa.ai")
                      "2024-02-01T00:00:00.000Z")) by reflexivity.
  destruct (addAdmin_grants _ _ _ _ _ _ _ _
              [["email"; "added_by"; "added_at"; "status"]]
              Hadd eq_refl ltac:(right; split; reflexivity) eq_refl eq_refl)
    as [_ Hcheck].
  apply Hcheck. reflexivity.
Defined.

(** X9 exercised: a deactivated address cannot be added again. *)
Lemma addAdmin_refuses_listed_witness :
  let st : Store := fun _ =>
    Js.Ok [["email"; "added_by"; "added_at"; "status"];
           ["a@x.com"; "system"; "2024-01-01"; "inactive"]] in
  addAdmin "2024-02-01T00:00:00.000Z" st (Some example_admin) (Some "A@x.com")
  = (st, AdminExists) ∧
  checkAdminStatus st (Some "a@x.com") = false.
Proof.
  intros st. split; [|reflexivity].
  apply (addAdmin_refuses_listed "2024-02-01T00:00:00.000Z" st (Some example_admin)
           "A@x.com" ["email"; "added_by"; "added_at"; "status"]
           [["a@x.com"; "system"; "2024-01-01"; "inactive"]]
           ["a@x.com"; "system"; "2024-01-01"; "inactive"] "a@x.com").
  - reflexivity.
  - discriminate.
  - discriminate.
  - reflexivity.
  - left.
  - reflexivity.
  - discriminate.
  - reflexivity.
Defined.

(** X10 exercised: the stored administrator adds the first allowlist row. *)
Lemma postAdd_only_admins_witness :
  (postAdd example_admin_verify "2024-02-01T00:00:00.000Z" example_admin_store
     (Some "Bearer r00t") (Some "a@x.com")).1 "Admins"
  = Js.Ok [adminColumns; ["a@x.com"; "root@daxa.ai"; "2024-02-01T00:00:00.000Z"; "active"]] ∧
  ∃ row, findRowByValue example_admin_store "Users" "id" (Some "u9") = Js.Ok (Some row) ∧
         row !! "role" = Some "admin".
Proof.
  split; [reflexivity|].
  destruct (postAdd_only_admins example_admin_verify "2024-02-01T00:00:00.000Z"
              example_admin_store (Some "Bearer r00t") (Some "a@x.com"))
    as [_ Honly].
  destruct Honly as (token & decoded & row & Hbearer & Hverify & Hfind & _ & Hrole).
  - discriminate.
  - injection Hbearer as <-. injection Hverify as <-. exists row.
    split; [exact Hfind|].
    destruct Hrole as [Hrole | (address & _ & admins & Hst & row' & e & Hin & _)];
      [exact Hrole|].
    injection Hst as <-. inversion Hin.
Defined.

(** X11 exercised on the allowlisted sample store. *)
Lemma listAdmins_matches_check_witness :
  ∃ admins,
    response_admins (listAdmins example_store_allowlisted (Some example_admin))
    = Some admins ∧
    ∃ admin e, admin ∈ admins ∧ admin !! "email" = Some e ∧ e ≠ "" ∧
               Js.toLowerCase e = Js.toLowerCase "a@x.com".
Proof.
  destruct (listAdmins_matches_check example_store_allowlisted (Some example_admin)
              "a@x.com" ["email"; "added_by"; "added_at"; "status"]
              [["A@X.com"; "system"; "2024-02-01T00:00:00.000Z"; "active"]]
              eq_refl eq_refl)
    as (admins & Hlist & Hiff).
  - repeat (constructor; [rewrite list_elem_of_In; simpl; intuition discriminate|]).
    constructor.
  - exists admins. split; [exact Hlist|]. apply Hiff. reflexivity.
Defined.

End Allowlist.

(** ** Logging in again *)

Section Login.
Import googleSheetsService authService.

Lemma split_no_separator (sep : ascii) (s : string) :
  occurs sep s = false → Js.split sep s = [s].
Proof.
  induction s as [|c s IH]; simpl; [reflexivity|].
  destruct (Ascii.eqb c sep); simpl; [discriminate|].
  intros H. rewrite (IH H). reflexivity.
Qed.

Lemma split_at_separator (sep : ascii) (l r : string) :
  occurs sep l = false →
  Js.split sep (l +:+ String sep r) = l :: Js.split sep r.
Proof.
  induction l as [|c l IH]; simpl.
  - intros _. rewrite Ascii.eqb_refl. reflexivity.
  - destruct (Ascii.eqb c sep); simpl; [discriminate|].
    intros H. rewrite (IH H). reflexivity.
Qed.

Section WithStrings.
Context {strings : Js.Strings}.

Lemma domain_of_address (name domain : string) :
  occurs "@" name = false → occurs "@" domain = false →
  Js.property_key (Js.toLowerCase <$> Js.split "@" (name +:+ "@" +:+ domain) !! 1%nat)
  = Js.toLowerCase domain.
Proof.
  intros Hname Hdomain.
  change (name +:+ "@" +:+ domain) with (name +:+ String "@" domain).
  rewrite (split_at_separator "@" name domain Hname),
          (split_no_separator "@" domain Hdomain).
  reflexivity.
Qed.

(** X15.  What [getPartnerCompanyFromEmail] returns for an address
    depends on nothing but the text after its [@] as the runtime
    lower-cases it: two addresses whose domains lower-case alike get the
    same result.  Unless that text names a member every object inherits,
    the result is a company name that is never blank: the one the table
    has for the domain, or [External Partner].  When it names such a
    member, the result is no string at all but that member: the prototype
    object under [__proto__], a function otherwise. *)
Theorem getPartnerCompanyFromEmail_by_domain (name1 name2 domain1 domain2 : string) :
  occurs "@" name1 = false → occurs "@" name2 = false →
  occurs "@" domain1 = false → occurs "@" domain2 = false →
  Js.toLowerCase domain1 = Js.toLowerCase domain2 →
  getPartnerCompanyFromEmail (name1 +:+ "@" +:+ domain1)
  = getPartnerCompanyFromEmail (name2 +:+ "@" +:+ domain2) ∧
  (¬ inherited_name (Js.toLowerCase domain1) →
   ∃ company,
     getPartnerCompanyFromEmail (name1 +:+ "@" +:+ domain1) = Js.Data company ∧
     company = default "External Partner" (domainMappings !! Js.toLowerCase domain1) ∧
     company ≠ "") ∧
  (inherited_name (Js.toLowerCase domain1) →
   getPartnerCompanyFromEmail (name1 +:+ "@" +:+ domain1)
   = if String.eqb (Js.toLowerCase domain1) "__proto__" then Js.Prototype
     else Js.Method (Js.toLowerCase domain1)).
Proof.
  intros Hn1 Hn2 Hd1 Hd2 Hl.
  pose proof (domain_of_address name1 domain1 Hn1 Hd1) as Hkey1.
  pose proof (domain_of_address name2 domain2 Hn2 Hd2) as Hkey2.
  split; [|split].
  - unfold getPartnerCompanyFromEmail. cbv zeta. rewrite Hkey1, Hkey2, Hl.
    reflexivity.
  - intros Hnot. rewrite <- Hkey1 in Hnot.
    rewrite (getPartnerCompanyFromEmail_own _ Hnot), Hkey1.
    eexists. split; [reflexivity|]. split; [reflexivity|].
    destruct (domainMappings !! Js.toLowerCase domain1) as [company|] eqn:E; simpl.
    + exact (domainMappings_nonblank _ _ E).
    + discriminate.
  - intros Hin. rewrite <- Hkey1 in Hin.
    rewrite (getPartnerCompanyFromEmail_inherited _ Hin), Hkey1. reflexivity.
Qed.

Section WithJwt.
Context {service : Sheets.Service}.
Variable jwt_sign : TokenPayload -> string -> string.

(** X12.  Logging in twice creates one row.  On a [Users] sheet whose
    header has [email] as its second column, a login succeeds, and a second
    login with the same profile, at any later instant, leaves the store
    exactly as the first login left it.  Both sessions are built from the
    same row, the one the sheet holds for the address: they carry the same
    user data, and tokens signed over the same payload, each at its own
    instant.  The sheet is taken to show the address as typed, and the
    domain of the address not to lower-case to [__proto__]. *)
Theorem googleLogin_twice (now later issuedAt issuedLater : string) (st : Store)
    (profile : Profile) (address : string) (headers : Row) (rows : list Row) :
  profile_email profile = Some address → address ≠ "" →
  st "Users" = Js.Ok (headers :: rows) →
  Js.indexOf "email" headers = Some 1%nat →
  Sheets.entered address = address →
  Js.property_key (Js.toLowerCase <$> Js.split "@" address !! 1%nat) ≠ "__proto__" →
  ∃ st1 row first second,
    googleLogin jwt_sign now issuedAt st profile = (st1, Js.Ok first) ∧
    googleLogin jwt_sign later issuedLater st1 profile = (st1, Js.Ok second) ∧
    findRowByValue st1 "Users" "email" (Some address) = Js.Ok (Some row) ∧
    session_of_row jwt_sign issuedAt row first ∧
    session_of_row jwt_sign issuedLater row second ∧
    user first = user second ∧
    (st1 = st ∨
     st1 = Sheets.with_row st "Users" (Sheets.visible (newUserRow now profile address))).
Proof.
  intros Hemail Hne Hst Hindex Hkept Hkey.
  pose proof (findRowByValue_data st "Users" "email" (Some address) headers
                rows 1 Hst Hindex) as Hfind.
  destruct (first_return _ rows) as [row|] eqn:E.
  - exists st, row, (sessionFor jwt_sign issuedAt row),
           (sessionFor jwt_sign issuedLater row).
    rewrite !(googleLogin_existing jwt_sign _ _ st profile address row Hemail Hne Hfind).
    split; [reflexivity|]. split; [reflexivity|]. split; [exact Hfind|].
    split; [apply session_of_row_sessionFor|].
    split; [apply session_of_row_sessionFor|]. split; [reflexivity|]. left. reflexivity.
  - destruct (googleLogin_appends jwt_sign now issuedAt st profile address headers rows
                Hemail Hne Hst Hfind Hindex Hkept
                (getPartnerCompanyFromEmail_Prototype address Hkey))
      as (st' & _ & Hst'eq & _ & Hreread & Hlogin).
    exists st', (rowObject headers (Sheets.visible (newUserRow now profile address))),
           (sessionFor jwt_sign issuedAt
              (rowObject headers (Sheets.visible (newUserRow now profile address)))),
           (sessionFor jwt_sign issuedLater
              (rowObject headers (Sheets.visible (newUserRow now profile address)))).
    split; [exact Hlogin|].
    split; [exact (googleLogin_existing jwt_sign later issuedLater st' profile address _
                     Hemail Hne Hreread)|].
    split; [exact Hreread|].
    split; [apply session_of_row_sessionFor|].
    split; [apply session_of_row_sessionFor|]. split; [reflexivity|].
    right. exact Hst'eq.
Qed.

(** X13.  A first login on a [Users] sheet with no rows at all does
    damage: the user row is appended where the header belongs, the login
    fails with the column-not-found error, and from then on every login
    with an address fails with that error and writes nothing.  (The sheet
    shows the address as typed, shows [email] for no cell of the appended
    row, and the domain of the address does not lower-case to
    [__proto__].) *)
Theorem googleLogin_empty_sheet (now issuedAt : string) (st : Store)
    (profile : Profile) (address : string) :
  profile_email profile = Some address → address ≠ "" →
  st "Users" = Js.Ok [] →
  Sheets.entered address = address →
  Js.property_key (Js.toLowerCase <$> Js.split "@" address !! 1%nat) ≠ "__proto__" →
  "email" ∉ Sheets.visible (newUserRow now profile address) →
  ∃ st1,
    googleLogin jwt_sign now issuedAt st profile
    = (st1, Js.Throw (Js.Error "Error"
                        "Authentication failed: Column 'email' not found in sheet 'Users'")) ∧
    st1 "Users" = Js.Ok [Sheets.visible (newUserRow now profile address)] ∧
    ∀ later issuedLater profile' address',
      profile_email profile' = Some address' → address' ≠ "" →
      googleLogin jwt_sign later issuedLater st1 profile'
      = (st1, Js.Throw (Js.Error "Error"
                          "Authentication failed: Column 'email' not found in sheet 'Users'")).
Proof.
  intros Hemail Hne Hst Hkept Hkey Hcells.
  assert (Hfind : findRowByValue st "Users" "email" (Some address) = Js.Ok None).
  { unfold findRowByValue, getSheetData. rewrite Hst. reflexivity. }
  pose proof (newUserRow_accepted now profile address
                (getPartnerCompanyFromEmail_Prototype address Hkey)) as Hok.
  set (row := Sheets.visible (newUserRow now profile address)) in *.
  assert (Hcell : row !! 1%nat = Some address).
  { unfold row, Sheets.visible. apply withoutTrailingBlanks_Some; [|exact Hne].
    unfold newUserRow. cbn. rewrite Hkept. reflexivity. }
  assert (Hst1 : Sheets.with_row st "Users" row "Users" = Js.Ok [row]).
  { rewrite (with_row_same st "Users" row [] Hst).
    destruct row; [discriminate Hcell|reflexivity]. }
  assert (Hthrow : ∀ v, findRowByValue (Sheets.with_row st "Users" row) "Users" "email" v
                        = Js.Throw (columnNotFound "email" "Users")).
  { intros v. exact (findRowByValue_missing_column _ "Users" "email" v row [] Hst1 Hcells). }
  exists (Sheets.with_row st "Users" row).
  split; [|split; [exact Hst1|]].
  - rewrite (googleLogin_new jwt_sign now issuedAt st profile address Hemail Hne Hfind).
    rewrite (appendToSheet_accepted st "Users" _ _ Hst Hok). fold row.
    rewrite Hthrow. reflexivity.
  - intros later issuedLater profile' address' Hemail' Hne'. unfold googleLogin.
    rewrite Hemail', (proj2 (truthy_Some address') Hne'), Hthrow. reflexivity.
Qed.

(** X14.  Whatever its outcome, [googleLogin] writes at most one row:
    no sheet but [Users] changes, and [Users] is either as before or
    longer by one row at its end. *)
Theorem googleLogin_footprint (now issuedAt : string) (st : Store)
    (profile : Profile) :
  (∀ name, name ≠ "Users" →
     (googleLogin jwt_sign now issuedAt st profile).1 name = st name) ∧
  ((googleLogin jwt_sign now issuedAt st profile).1 "Users" = st "Users" ∨
   ∃ grid row, st "Users" = Js.Ok grid ∧
     (googleLogin jwt_sign now issuedAt st profile).1 "Users" = Js.Ok (grid ++ [row])).
Proof.
  assert (Hstore : (googleLogin jwt_sign now issuedAt st profile).1 = st ∨
                   ∃ values, (googleLogin jwt_sign now issuedAt st profile).1
                             = (appendToSheet st "Users" values).1).
  { unfold googleLogin.
    destruct (profile_email profile) as [address|]; [|left; reflexivity].
    destruct (Js.truthy (Some address)); [|left; reflexivity].
    destruct (findRowByValue st "Users" "email" (Some address)) as [[user|]|e];
      try (left; reflexivity).
    right. exists (newUserRow now profile address).
    destruct (appendToSheet st "Users" (newUserRow now profile address))
      as [st' [[]|e]]; [|reflexivity].
    destruct (findRowByValue st' "Users" "email" (Some address)) as [[user|]|e];
      reflexivity. }
  destruct Hstore as [-> | [values ->]]; [split; [reflexivity|left; reflexivity]|].
  destruct (appendToSheet_store st "Users" values) as [-> | ->];
    [split; [reflexivity|left; reflexivity]|].
  split; [intros name Hname; apply with_row_other; exact Hname|].
  destruct (st "Users") as [grid|e] eqn:Hst.
  - rewrite (with_row_same st "Users" _ grid Hst).
    destruct (below_cases grid (Sheets.visible values)) as [[_ ->]|[_ ->]];
      [left; reflexivity|right; eauto].
  - left. unfold Sheets.with_row. rewrite String.eqb_refl, Hst. reflexivity.
Qed.

End WithJwt.

End WithStrings.

(** X12 exercised: a new user logs in twice. *)
Lemma googleLogin_twice_witness :
  ∃ st1 first second,
    googleLogin example_sign "2024-03-01T09:00:00.000Z" "2024-03-01T09:00:01.000Z"
      example_store example_profile
    = (st1, Js.Ok first) ∧
    googleLogin example_sign "2024-03-02T09:00:00.000Z" "2024-03-02T09:00:01.000Z"
      st1 example_profile
    = (st1, Js.Ok second) ∧
    user first = user second ∧
    accessToken first = "signed:g-42@2024-03-01T09:00:01.000Z" ∧
    accessToken second = "signed:g-42@2024-03-02T09:00:01.000Z".
Proof.
  destruct (googleLogin_twice example_sign "2024-03-01T09:00:00.000Z"
              "2024-03-02T09:00:00.000Z" "2024-03-01T09:00:01.000Z"
              "2024-03-02T09:00:01.000Z" example_store example_profile
              "Zoe@TechFlow.com" (header_row example_users) (tail example_users)
              eq_refl ltac:(discriminate) eq_refl eq_refl eq_refl ltac:(discriminate))
    as (st1 & row & first & second & Hfirst & Hsecond & _ & _ & _ & Hsame & _).
  exists st1, first, second. split; [exact Hfirst|]. split; [exact Hsecond|].
  split; [exact Hsame|].
  assert (Hrun : googleLogin example_sign "2024-03-01T09:00:00.000Z"
                   "2024-03-01T09:00:01.000Z" example_store example_profile
                 = ((googleLogin example_sign "2024-03-01T09:00:00.000Z"
                       "2024-03-01T09:00:01.000Z" example_store example_profile).1,
                    Js.Ok (sessionFor example_sign "2024-03-01T09:00:01.000Z"
                             (rowObject (header_row example_users)
                                ["g-42"; "Zoe@TechFlow.com"; "Zoe"; "User";
                                 "TechFlow Solutions"; "user"; "active";
                                 "2024-03-01T09:00:00.000Z"]))))
    by reflexivity.
  rewrite Hrun in Hfirst. injection Hfirst as <- <-.
  split; [reflexivity|].
  assert (Hagain : googleLogin example_sign "2024-03-02T09:00:00.000Z"
                     "2024-03-02T09:00:01.000Z"
                     (googleLogin example_sign "2024-03-01T09:00:00.000Z"
                        "2024-03-01T09:00:01.000Z" example_store example_profile).1
                     example_profile
                   = ((googleLogin example_sign "2024-03-01T09:00:00.000Z"
                         "2024-03-01T09:00:01.000Z" example_store example_profile).1,
                      Js.Ok (sessionFor example_sign "2024-03-02T09:00:01.000Z"
                               (rowObject (header_row example_users)
                                  ["g-42"; "Zoe@TechFlow.com"; "Zoe"; "User";
                                   "TechFlow Solutions"; "user"; "active";
                                   "2024-03-01T09:00:00.000Z"]))))
    by reflexivity.
  rewrite Hagain in Hsecond. injection Hsecond as <-. reflexivity.
Defined.

(** X13 exercised on an empty [Users] sheet. *)
Lemma googleLogin_empty_sheet_witness :
  let st : Store := fun _ => Js.Ok [] in
  ∃ st1,
    (googleLogin example_sign "2024-03-01T09:00:00.000Z" "2024-03-01T09:00:01.000Z"
       st example_profile).1 = st1 ∧
    st1 "Users"
    = Js.Ok [["g-42"; "Zoe@TechFlow.com"; "Zoe"; "User"; "TechFlow Solutions";
              "user"; "active"; "2024-03-01T09:00:00.000Z"]].
Proof.
  intros st.
  destruct (googleLogin_empty_sheet example_sign "2024-03-01T09:00:00.000Z"
              "2024-03-01T09:00:01.000Z" st
              example_profile "Zoe@TechFlow.com" eq_refl ltac:(discriminate) eq_refl
              eq_refl ltac:(discriminate))
    as (st1 & Hlogin & Hgrid & _).
  - rewrite list_elem_of_In. vm_compute. intuition discriminate.
  - exists st1. split; [rewrite Hlogin; reflexivity|exact Hgrid].
Defined.

(** X15 exercised: the case of the domain does not matter, and a domain
    that names an inherited member yields no company. *)
Lemma getPartnerCompanyFromEmail_by_domain_witness :
  getPartnerCompanyFromEmail ("zoe" +:+ "@" +:+ "TechFlow.COM")
  = getPartnerCompanyFromEmail ("max" +:+ "@" +:+ "techflow.com") ∧
  getPartnerCompanyFromEmail ("x" +:+ "@" +:+ "Constructor") = Js.Method "constructor".
Proof.
  split.
  - exact (proj1 (getPartnerCompanyFromEmail_by_domain "zoe" "max" "TechFlow.COM"
                    "techflow.com" eq_refl eq_refl eq_refl eq_refl eq_refl)).
  - assert (Hin : inherited_name (Js.toLowerCase "Constructor")).
    { right. apply list_elem_of_In. left. reflexivity. }
    exact (proj2 (proj2 (getPartnerCompanyFromEmail_by_domain "x" "x" "Constructor"
                           "Constructor" eq_refl eq_refl eq_refl eq_refl eq_refl))
             Hin).
Defined.

End Login.
(** ** Who sees which deal *)

Section Disclosure.
Import googleSheetsService dealController dealRoutes.

Section WithStrings.
Context {strings : Js.Strings}.

Section WithJwt.
Variable jwt_verify : string -> Js.result auth.Decoded.
Variable parseInt : string -> option Z.

(** X16.  [GET /deals] discloses no foreign deal, whatever the query:
    a listing is produced only for a request that [authenticateToken]
    gave an identity, and every deal in it was requested by an admin or
    has that identity's address under [submitter_email]; a set status or
    partner filter holds of every deal listed. *)
Theorem getIndex_discloses_own (st : Store) (authHeader : Js.value) (q : Query)
    (response : DealsResponse) :
  getIndex jwt_verify parseInt st authHeader q = Listed response →
  ∃ requester,
    auth.authenticateToken jwt_verify st authHeader = auth.Next (Some requester) ∧
    ∀ deals deal,
      response_deals response = Some deals → deal ∈ deals →
      (auth.role requester = Some "admin" ∨
       deal !! "submitter_email" = auth.email requester) ∧
      (Js.truthy (status q) = true → deal !! "status" = status q) ∧
      (Js.truthy (partner q) = true → deal !! "partner_company" = partner q).
Proof.
  unfold getIndex. intros Hroute.
  destruct (auth.authenticateToken jwt_verify st authHeader) as [user|? ? ?] eqn:Hauth;
    [|discriminate].
  injection Hroute as <-.
  destruct (authenticateToken_Next jwt_verify st authHeader user Hauth)
    as (token & decoded & row & _ & _ & _ & _ & _ & ->).
  eexists. split; [reflexivity|].
  intros deals deal Hresp Hin.
  pose proof (getDeals_listed parseInt st _ q deals deal Hresp Hin) as Hlisted.
  unfold listed in Hlisted.
  apply andb_true_iff in Hlisted as [Hlisted Hpartner].
  apply andb_true_iff in Hlisted as [Hview Hstatus].
  split; [exact (canViewDeal_cases _ deal Hview)|].
  unfold filteredOut in Hstatus, Hpartner. split.
  - intros Ht. rewrite Ht in Hstatus. simpl in Hstatus.
    apply negb_true_iff, negb_false_iff, bool_decide_eq_true in Hstatus. exact Hstatus.
  - intros Ht. rewrite Ht in Hpartner. simpl in Hpartner.
    apply negb_true_iff, negb_false_iff, bool_decide_eq_true in Hpartner. exact Hpartner.
Qed.

(** X17.  [GET /deals/:id] hands out a deal only to a request that
    [authenticateToken] gave an identity, only the deal [findRowByValue]
    finds for the id, and only if the requester is an admin or the deal
    carries the requester's address under [submitter_email]. *)
Theorem getById_discloses_own (st : Store) (authHeader id : Js.value)
    (deal : RowObject) :
  getById jwt_verify st authHeader id = LookedUp (DealRetrieved deal) →
  ∃ requester,
    auth.authenticateToken jwt_verify st authHeader = auth.Next (Some requester) ∧
    findRowByValue st "Deals" "id" id = Js.Ok (Some deal) ∧
    (auth.role requester = Some "admin" ∨
     deal !! "submitter_email" = auth.email requester).
Proof.
  unfold getById. intros Hroute.
  destruct (auth.authenticateToken jwt_verify st authHeader) as [user|? ? ?] eqn:Hauth;
    [|discriminate].
  injection Hroute as Hdeal.
  destruct (authenticateToken_Next jwt_verify st authHeader user Hauth)
    as (token & decoded & row & _ & _ & _ & _ & _ & ->).
  eexists. split; [reflexivity|].
  unfold getDealById in Hdeal.
  destruct (findRowByValue st "Deals" "id" id) as [[found|]|e];
    cbn [Js.bind Js.try_catch] in Hdeal; try discriminate.
  destruct (canViewDeal _ found) eqn:Hview; cbn [Js.try_catch] in Hdeal;
    [|discriminate].
  injection Hdeal as ->. split; [reflexivity|].
  exact (canViewDeal_cases _ deal Hview).
Qed.

End WithJwt.

End WithStrings.

(** X16 exercised: the partner's listing. *)
Lemma getIndex_discloses_own_witness :
  let st : Store := fun name =>
    if String.eqb name "Deals" then example_deal_store name else example_store name in
  ∃ response requester,
    getIndex example_verify example_parseInt st (Some "Bearer t0k3n") (no_filter None)
    = Listed response ∧
    auth.authenticateToken example_verify st (Some "Bearer t0k3n")
    = auth.Next (Some requester).
Proof.
  intros st.
  destruct (getIndex_discloses_own example_verify example_parseInt st
              (Some "Bearer t0k3n") (no_filter None) _ eq_refl)
    as (requester & Hauth & _).
  eexists _, requester. split; [reflexivity|exact Hauth].
Defined.

(** X17 exercised: the partner looks up their own deal. *)
Lemma getById_discloses_own_witness :
  let st : Store := fun name =>
    if String.eqb name "Deals" then example_deal_store name else example_store name in
  ∃ requester,
    auth.authenticateToken example_verify st (Some "Bearer t0k3n")
    = auth.Next (Some requester) ∧
    auth.email requester = Some "a@x.com".
Proof.
  intros st.
  destruct (getById_discloses_own example_verify st (Some "Bearer t0k3n") (Some "d3")
              (rowObject example_deal_headers
                 ["d3"; "approved"; "Initech"; "initech.com"; "a@x.com"]) eq_refl)
    as (requester & Hauth & _ & _).
  exists requester. split; [exact Hauth|].
  injection Hauth as <-. reflexivity.
Defined.

End Disclosure.

(** ** The summary *)

Section Summary.
Import googleSheetsService dealController dealRoutes.

Section WithStrings.
Context {strings : Js.Strings}.

Section WithNumbers.
Variable Number : Type.
Variable zero : Number.
Variable plus : Number -> Number -> Number.
Variable amountOf : string -> Number.

Lemma statsSummary_rows (st : Store) (user : option auth.RequestUser)
    (headers : Row) (rows : list Row) :
  st "Deals" = Js.Ok (headers :: rows) →
  statsSummary Number zero plus amountOf st user
  = Summary (foldl (countDeal Number plus amountOf user headers) (noStats Number zero) rows).
Proof.
  intros Hst. unfold statsSummary, getSheetData. rewrite Hst.
  destruct rows as [|row rest]; [reflexivity|].
  cbn [Js.bind length Nat.ltb Nat.leb Js.try_catch]. f_equal.
  replace (S (S (length rest)) - 1)%nat with (length (row :: rest)) by (simpl; lia).
  etransitivity;
    [exact (foldl_data (countDeal Number plus amountOf user headers) headers (row :: rest)
              (length (row :: rest)) (noStats Number zero) (le_n _))|].
  rewrite firstn_all. reflexivity.
Qed.

Lemma countStatus_total (stats : Stats Number) (status : string) :
  total (countStatus stats status) = total stats ∧
  (pending (countStatus stats status) + approved (countStatus stats status)
   + rejected (countStatus stats status) + submitted (countStatus stats status)
   ≤ S (pending stats + approved stats + rejected stats + submitted stats))%nat.
Proof.
  unfold countStatus.
  repeat (match goal with |- context [if ?b then _ else _] => destruct b end);
    simpl; split; lia.
Qed.

Lemma countDeal_step (user : option auth.RequestUser) (headers : list string)
    (stats : Stats Number) (row : Row) :
  let counted := countDeal Number plus amountOf user headers stats row in
  let seen := if canViewRow user headers row then 1%nat else 0%nat in
  total counted = (total stats + seen)%nat ∧
  (pending counted + approved counted + rejected counted + submitted counted
   ≤ pending stats + approved stats + rejected stats + submitted stats + seen)%nat.
Proof.
  unfold countDeal. destruct (canViewRow user headers row).
  - match goal with
    | |- context [countStatus ?s ?t] => destruct (countStatus_total s t) as [Ht Hsum]
    end.
    cbv zeta. rewrite Ht. simpl in *. split; lia.
  - cbv zeta. split; lia.
Qed.

Lemma countDeal_counts (user : option auth.RequestUser) (headers : list string)
    (rows : list Row) (stats : Stats Number) :
  (pending stats + approved stats + rejected stats + submitted stats
   ≤ total stats)%nat →
  let counted := foldl (countDeal Number plus amountOf user headers) stats rows in
  total counted
  = (total stats + length (List.filter (canViewRow user headers) rows))%nat ∧
  (pending counted + approved counted + rejected counted + submitted counted
   ≤ total counted)%nat.
Proof.
  revert stats. induction rows as [|row rest IH]; intros stats Hinv.
  - simpl. split; lia.
  - cbn [foldl List.filter].
    destruct (countDeal_step user headers stats row) as [Ht Hsum].
    destruct (IH (countDeal Number plus amountOf user headers stats row))
      as [IHt IHsum]; [lia|].
    cbv zeta in *. split; [|exact IHsum]. rewrite IHt, Ht.
    destruct (canViewRow user headers row); simpl; lia.
Qed.

Lemma canViewRow_object (user : option auth.RequestUser) (headers : list string)
    (row : Row) :
  NoDup headers → "submitter_email" ∈ headers →
  canViewRow user headers row = canViewDeal user (rowObject headers row).
Proof.
  intros Hnd Hin. unfold canViewRow, canViewDeal. f_equal.
  destruct (indexOf_elem _ _ Hin) as [i Hi]. rewrite Hi.
  destruct (indexOf_Some _ _ _ Hi) as [Hc _].
  rewrite (rowObject_lookup headers row i "submitter_email" Hnd Hc)
    by discriminate.
  cbn [Js.at_index]. rewrite or_empty_default. reflexivity.
Qed.

(** X20.  The summary counts exactly the deals the caller may see: its
    total is the number of data rows that pass the ownership test (all of
    them for an admin), its four status counters never add up to more than
    the total, and on a sheet with distinct column names one of which is
    [submitter_email] the total is the number of deals the ownership
    filter of [getDeals] lets through. *)
Theorem statsSummary_counts (st : Store) (user : option auth.RequestUser)
    (headers : Row) (rows : list Row) :
  st "Deals" = Js.Ok (headers :: rows) →
  ∃ stats,
    statsSummary Number zero plus amountOf st user = Summary stats ∧
    total stats = length (List.filter (canViewRow user headers) rows) ∧
    (pending stats + approved stats + rejected stats + submitted stats
     ≤ total stats)%nat ∧
    (role_of user = Some "admin" → total stats = length rows) ∧
    (NoDup headers → "submitter_email" ∈ headers →
     total stats
     = length (List.filter (canViewDeal user) (map (rowObject headers) rows))).
Proof.
  intros Hst. eexists. split; [exact (statsSummary_rows st user headers rows Hst)|].
  destruct (countDeal_counts user headers rows (noStats Number zero)) as [Htotal Hsum];
    [simpl; lia|].
  simpl in Htotal. split; [exact Htotal|]. split; [exact Hsum|]. split.
  - intros Hadmin. rewrite Htotal. f_equal.
    rewrite <- (filter_true rows) at 2. apply filter_ext. intros row.
    unfold canViewRow. rewrite (bool_decide_eq_true_2 _ Hadmin). reflexivity.
  - intros Hnd Hin. rewrite Htotal. clear Htotal Hsum Hst.
    induction rows as [|row rest IH]; [reflexivity|].
    cbn [map List.filter]. rewrite (canViewRow_object user headers row Hnd Hin).
    destruct (canViewDeal user (rowObject headers row)); simpl; rewrite IH; reflexivity.
Qed.

End WithNumbers.

End WithStrings.

(** X20 exercised: the partner's summary counts their two deals. *)
Lemma statsSummary_counts_witness :
  ∃ stats,
    statsSummary nat 0%nat Nat.add example_amount example_deal_store (Some example_partner)
    = Summary stats ∧
    total stats = 2%nat.
Proof.
  destruct (statsSummary_counts nat 0%nat Nat.add example_amount example_deal_store
              (Some example_partner) example_deal_headers example_deal_rows eq_refl)
    as (stats & Hsummary & Htotal & _).
  exists stats. split; [exact Hsummary|]. rewrite Htotal. reflexivity.
Defined.

End Summary.

(** ** Creating a deal *)

Section Creation.
Import googleSheetsService dealController.

Section WithStrings.
Context {strings : Js.Strings}.

Section WithEstimate.
Context {service : Sheets.Service}.
Variable getEstimatedApprovalTime : Js.value -> Js.result string.

(** A request that passes validation gets past the duplicate check only
    to fail on the call of [generateId], which the service does not
    define. *)
Lemma createDeal_checked (createdAt loggedAt : string) (st : Store) (body : DealBody)
    (company domain : string) :
  acceptable body company domain →
  createDeal getEstimatedApprovalTime createdAt loggedAt st body
  = if hasDuplicates (checkDuplicateDeals st (Some company) (Some domain))
    then (st, DuplicateDetected
                (duplicates (checkDuplicateDeals st (Some company) (Some domain))))
    else (st, CreateFailed "googleSheetsService.generateId is not a function").
Proof.
  intros (Hc & Hcne & Hd & Hdne & Hp & Hn & He & Ha). unfold createDeal.
  rewrite Hc, Hd, (proj2 (truthy_Some company) Hcne),
          (proj2 (truthy_Some domain) Hdne), Hp, Hn, He, Ha.
  reflexivity.
Qed.

(** X21.  [createDeal] writes nothing when an open deal matches: if some
    row of [Deals] is not rejected and carries the submitted company name
    or domain up to case, a request that passes validation is answered
    with the conflict response listing the matching deals, that row's
    among them, and the store is left as it was. *)
Theorem createDeal_refuses_duplicate (createdAt loggedAt : string) (st : Store)
    (body : DealBody) (company domain : string) (headers row : Row)
    (rows : list Row) :
  acceptable body company domain →
  st "Deals" = Js.Ok (headers :: rows) →
  row ∈ rows →
  duplicate_of headers company domain row = true →
  ∃ found,
    createDeal getEstimatedApprovalTime createdAt loggedAt st body
    = (st, DuplicateDetected found) ∧
    rowObject headers row ∈ found.
Proof.
  intros Hbody Hst Hin Hdup.
  rewrite (createDeal_checked createdAt loggedAt st body company domain Hbody).
  assert (Hfound : rowObject headers row
                   ∈ duplicates (checkDuplicateDeals st (Some company) (Some domain))).
  { rewrite (checkDuplicateDeals_rows st headers rows company domain Hst).
    apply list_elem_of_In, in_map, filter_In. split; [|exact Hdup].
    apply list_elem_of_In. exact Hin. }
  rewrite (proj2 (checkDuplicateDeals_flag st (Some company) (Some domain))).
  - eexists. split; [reflexivity|exact Hfound].
  - intros Hnil. rewrite Hnil in Hfound. inversion Hfound.
Qed.

(** X22.  [createDeal] never writes.  The service object has no
    [generateId], so the call that is to produce the deal's id throws
    before the first append is reached: whatever the request and the
    store, every sheet is afterwards as it was and the response is never
    the success response.  A request that passes validation and meets no
    open duplicate is answered with status 500 and the message of the
    [TypeError]. *)
Theorem createDeal_never_writes (createdAt loggedAt : string) (st : Store)
    (body : DealBody) :
  (createDeal getEstimatedApprovalTime createdAt loggedAt st body).1 = st ∧
  (∀ dealId estimate,
     (createDeal getEstimatedApprovalTime createdAt loggedAt st body).2
     ≠ DealSubmitted dealId estimate) ∧
  (∀ company domain,
     acceptable body company domain →
     hasDuplicates (checkDuplicateDeals st (Some company) (Some domain)) = false →
     createDeal getEstimatedApprovalTime createdAt loggedAt st body
     = (st, CreateFailed "googleSheetsService.generateId is not a function")).
Proof.
  split; [|split].
  - unfold createDeal.
    repeat (match goal with |- context [if ?b then _ else _] => destruct b end;
            try reflexivity).
  - intros dealId estimate. unfold createDeal.
    repeat (match goal with |- context [if ?b then _ else _] => destruct b end;
            try discriminate).
  - intros company domain Hbody Hnone.
    rewrite (createDeal_checked createdAt loggedAt st body company domain Hbody), Hnone.
    reflexivity.
Qed.

End WithEstimate.

End WithStrings.

(** X21 exercised: a deal for an existing open deal's domain is refused. *)
Lemma createDeal_refuses_duplicate_witness :
  let body := {| companyName := Some "Acme Corp"; domain := Some "ACME.com";
                 partnerCompany := Some "P"; submitterName := Some "N";
                 submitterEmail := Some "b@y.com"; territory := None;
                 customerLegalName := None; customerIndustry := None;
                 customerLocation := None; dealStage := None;
                 expectedCloseDate := None; dealValue := None;
                 contractType := None; primaryProduct := None;
                 additionalNotes := None; agreedToTerms := true |} in
  ∃ found,
    createDeal example_estimate "t1" "t2" example_deal_store body
    = (example_deal_store, DuplicateDetected found) ∧
    rowObject example_deal_headers ["d1"; "submitted"; "Acme"; "acme.com"; "a@x.com"]
    ∈ found.
Proof.
  intros body.
  apply (createDeal_refuses_duplicate example_estimate "t1" "t2"
           example_deal_store body "Acme Corp" "ACME.com" example_deal_headers
           ["d1"; "submitted"; "Acme"; "acme.com"; "a@x.com"] example_deal_rows).
  - repeat split; discriminate.
  - reflexivity.
  - left.
  - reflexivity.
Defined.

(** X22 exercised: a complete request on a fresh [Deals] sheet. *)
Lemma createDeal_never_writes_witness :
  createDeal example_estimate "2024-05-01" "2024-05-01" example_new_deal_store
    example_body
  = (example_new_deal_store,
     CreateFailed "googleSheetsService.generateId is not a function").
Proof.
  apply (proj2 (proj2 (createDeal_never_writes example_estimate "2024-05-01"
                         "2024-05-01" example_new_deal_store example_body))
           "Hooli" "hooli.com").
  - repeat split; discriminate.
  - reflexivity.
Defined.

End Creation.

(** ** The profile page *)

Section Profile.
Import googleSheetsService dealController adminRoutes.

Lemma profileDeals_rows (st : Store) (user : option auth.RequestUser)
    (headers : Row) (rows : list Row) :
  st "Deals" = Js.Ok (headers :: rows) →
  response_deals (profileDeals st user)
  = Some (List.filter
            (fun deal => bool_decide (deal !! "submitter_email" = email_of user))
            (map (rowObject headers) rows)).
Proof.
  intros Hst. unfold profileDeals, getSheetData. rewrite Hst.
  destruct rows as [|row rest]; [reflexivity|].
  cbn [Js.bind length Nat.leb Js.try_catch response_deals]. f_equal.
  change (row_at (headers :: row :: rest) 0) with headers.
  replace (S (S (length rest)) - 1)%nat with (length (row :: rest)) by (simpl; lia).
  pose (step := fun (found : list RowObject) (r : Row) =>
          if bool_decide (rowObject headers r !! "submitter_email" = email_of user)
          then found ++ [rowObject headers r] else found).
  transitivity (foldl step [] (take (length (row :: rest)) (row :: rest))).
  { etransitivity;
      [|exact (foldl_data step headers (row :: rest) (length (row :: rest)) []
                 (le_n _))].
    reflexivity. }
  rewrite firstn_all.
  exact (foldl_keep_map (rowObject headers)
           (fun deal => bool_decide (deal !! "submitter_email" = email_of user))
           (row :: rest) []).
Qed.

(** X24.  The profile page and the deal list agree for everyone but
    admins: for a caller whose role is not "admin", [GET /profile/deals]
    returns the same deals as [getDeals] without filters and with a limit
    that covers the sheet; for an admin it returns only the deals carrying
    the admin's own address, a part of what [getDeals] returns. *)
Theorem profileDeals_matches_getDeals (parseInt : string -> option Z) (st : Store)
    (user : option auth.RequestUser) (q : Query) (headers : Row)
    (rows : list Row) (n : Z) :
  st "Deals" = Js.Ok (headers :: rows) →
  Js.truthy (status q) = false →
  Js.truthy (partner q) = false →
  parsedLimit parseInt q = Some n →
  (Z.of_nat (length rows) ≤ n)%Z →
  (role_of user ≠ Some "admin" →
   response_deals (profileDeals st user)
   = response_deals (getDeals parseInt st user q)) ∧
  (role_of user = Some "admin" →
   ∃ own listing,
     response_deals (profileDeals st user) = Some own ∧
     response_deals (getDeals parseInt st user q) = Some listing ∧
     listing = map (rowObject headers) rows ∧
     own = List.filter
             (fun deal => bool_decide (deal !! "submitter_email" = email_of user))
             listing).
Proof.
  intros Hst Hstatus Hpartner Hn Hall.
  rewrite (profileDeals_rows st user headers rows Hst),
          (getDeals_limited parseInt st user q headers rows n Hst Hn).
  rewrite take_ge by lia.
  assert (Hlisted : ∀ deal, listed user q deal = canViewDeal user deal).
  { intros deal. unfold listed, filteredOut. rewrite Hstatus, Hpartner. simpl.
    rewrite !andb_true_r. reflexivity. }
  rewrite (filter_ext _ _ Hlisted). split.
  - intros Hrole. f_equal. apply filter_ext. intros deal. unfold canViewDeal.
    rewrite (bool_decide_eq_false_2 _ Hrole). reflexivity.
  - intros Hadmin.
    assert (Hevery : List.filter (canViewDeal user) (map (rowObject headers) rows)
                     = map (rowObject headers) rows).
    { rewrite <- (filter_true (map (rowObject headers) rows)) at 2.
      apply filter_ext. intros deal. unfold canViewDeal.
      rewrite (bool_decide_eq_true_2 _ Hadmin). reflexivity. }
    rewrite Hevery. eexists _, _. repeat split.
Qed.

(** X24 exercised for the sample partner. *)
Lemma profileDeals_matches_getDeals_witness :
  response_deals (profileDeals example_deal_store (Some example_partner))
  = response_deals (getDeals example_parseInt example_deal_store
                      (Some example_partner) (no_filter None)).
Proof.
  apply (profileDeals_matches_getDeals example_parseInt example_deal_store
           (Some example_partner) (no_filter None) example_deal_headers
           example_deal_rows 50 eq_refl eq_refl eq_refl eq_refl ltac:(simpl; lia)).
  discriminate.
Defined.

End Profile.
